(** * Brake-disc simulation driver: orchestration model

    A shallow embedding of [simulation_runner.run_single_simulation] and of
    the single-instance script [ansys_test_run_vanes - Copy.py].  Both are
    straight-line sequences of calls into an external finite-element solver;
    what the repository itself decides is which calls are issued, in which
    order, which of them sit inside a [try], and what dictionary is returned.
    That is what is modelled here.

    - The outside (file system, solver binding, clock) is an oracle that
      answers each interaction with a value or an exception; a run is a
      computation in a state and error monad whose state is the trace of
      the interactions issued.
    - Run identifiers are integers and parameter sets are dictionaries from
      strings to Python values.
    - Floating-point arguments of solver commands are recorded as the
      expressions the source writes: their values are not computed, but the
      exceptions Python raises when it evaluates them are.
    - [os.path.join] is the POSIX one.  Console output is left out.  *)

From Stdlib Require Import ZArith NArith List Bool Ascii String Lia.
From Stdlib Require Import Floats.PrimFloat.
From Stdlib Require Import DecimalString DecimalN DecimalPos DecimalFacts.
From stdpp Require Import base option gmap strings.

Local Open Scope Z_scope.
Local Open Scope string_scope.

(** ** Strings: integer formatting and path joining *)

Module Paths.

(** Left padding of a decimal numeral with zeros up to [width] digits. *)
Definition zfill (width : nat) (d : Decimal.uint) : Decimal.uint :=
  Nat.iter (width - Decimal.nb_digits d) Decimal.D0 d.

(** Python's [format(n, "04d")]: the fill character [0] implies sign-aware
    padding, so the sign counts in the width of four. *)
Definition format_04d (n : Z) : string :=
  if (n <? 0)%Z
  then String "-" (NilEmpty.string_of_uint (zfill 3 (N.to_uint (Z.abs_N n))))
  else NilEmpty.string_of_uint (zfill 4 (N.to_uint (Z.abs_N n))).

Definition startswith_sep (s : string) : bool :=
  match s with
  | String "/" _ => true
  | _ => false
  end.

Fixpoint endswith_sep (s : string) : bool :=
  match s with
  | EmptyString => false
  | String c EmptyString => Ascii.eqb c "/"
  | String _ rest => endswith_sep rest
  end.

(** [os.path.join(a, b)] (the POSIX flavour, two components). *)
Definition os_path_join (a b : string) : string :=
  if startswith_sep b then b
  else if (String.eqb a "" || endswith_sep a)%bool then a +:+ b
  else a +:+ "/" +:+ b.

(** Line 18-19: [simulation_path]. *)
Definition simulation_dir_name (run_id : Z) : string :=
  "run_" +:+ format_04d run_id.

Definition simulation_path (base_run_dir : string) (run_id : Z) : string :=
  os_path_join base_run_dir (simulation_dir_name run_id).

(** Line 70: [input_png_path]. *)
Definition input_png_name (run_id : Z) : string :=
  "input_" +:+ format_04d run_id +:+ ".png".

Definition input_png_path (final_image_dir : string) (run_id : Z) : string :=
  os_path_join final_image_dir (input_png_name run_id).

(** Line 99: [output_png_path]. *)
Definition output_png_name (run_id : Z) : string :=
  "output_" +:+ format_04d run_id +:+ ".png".

Definition output_png_path (final_image_dir : string) (run_id : Z) : string :=
  os_path_join final_image_dir (output_png_name run_id).

End Paths.


(** ** Python values, exceptions and the outside world *)

Module Py.

(** The exceptions a call can end in.  [except Exception] catches the first
    kind only; a bare [except:] catches both. *)
Inductive exn :=
| Exception (cls msg : string)
| BaseException (cls : string).

Definition is_Exception (e : exn) : bool :=
  match e with
  | Exception _ _ => true
  | BaseException _ => false
  end.

Definition KeyError (key : string) : exn := Exception "KeyError" key.
Definition TypeError (msg : string) : exn := Exception "TypeError" msg.
Definition OverflowError (msg : string) : exn := Exception "OverflowError" msg.
Definition ZeroDivisionError (msg : string) : exn :=
  Exception "ZeroDivisionError" msg.
Definition SystemExit : exn := BaseException "SystemExit".

Inductive result (A : Type) :=
| Ok (a : A)
| Raise (e : exn).
Arguments Ok {A} a.
Arguments Raise {A} e.

(** The values that flow through the two programs. *)
Inductive pyval :=
| VNone
| VBool (b : bool)
| VInt (z : Z)
| VFloat (f : float)
| VStr (s : string)
| VDict (items : list (string * string)).

Coercion VBool : bool >-> pyval.
Coercion VInt : Z >-> pyval.
Coercion VFloat : float >-> pyval.
Coercion VStr : string >-> pyval.

(** Arguments handed to the solver binding.  A float computed by the program
    is kept as the expression the source writes for it: the orchestration
    does not depend on its value.  Whether the evaluation of the expression
    raises is decided by the operations below. *)
Inductive expr :=
| Lit (v : pyval)
| Truediv (a b : expr)
| Mul (a b : expr)
| Add (a b : expr)
| Sub (a b : expr)
| int_ (a : expr)
| np_deg2rad (a : expr)
| np_cos (a : expr)
| np_sin (a : expr).

Coercion Lit : pyval >-> expr.

Declare Scope py_scope.
Delimit Scope py_scope with py.
Bind Scope py_scope with expr.
Infix "/" := Truediv : py_scope.
Infix "*" := Mul : py_scope.
Infix "+" := Add : py_scope.
Infix "-" := Sub : py_scope.

(** Every interaction with something outside the program. *)
Inductive call :=
| os_getcwd
| os_path_exists (path : string)
| os_makedirs (path : string)
| launch_mapdl (run_location jobname : string) (override cleanup_on_exit : bool)
| mapdl (method : string) (args : list expr) (kwargs : list (string * expr))
| datetime_now_strftime (fmt : string).

(** The outside world answers the [n]-th interaction of a run: it returns a
    value or raises. *)
Definition world := nat -> call -> result pyval.

(** Truth value of an object, as [if] and [not] take it. *)
Definition truthy (v : pyval) : bool :=
  match v with
  | VNone => false
  | VBool b => b
  | VInt z => negb (z =? 0)%Z
  | VFloat f => negb (f =? 0)%float
  | VStr s => negb (String.eqb s "")
  | VDict items => match items with [] => false | _ => true end
  end.

(** [v == 0]. *)
Definition eq_zero (v : pyval) : bool :=
  match v with
  | VBool b => negb b
  | VInt z => (z =? 0)%Z
  | VFloat f => (f =? 0)%float
  | _ => false
  end.

(** [np.isnan(v)] on a scalar: integers outside the 64-bit range become
    object arrays, on which the ufunc is not defined. *)
Definition np_isnan (v : pyval) : result bool :=
  match v with
  | VFloat f => Ok (is_nan f)
  | VBool _ => Ok false
  | VInt z =>
      if ((- 2 ^ 63 <=? z) && (z <? 2 ^ 64))%Z then Ok false
      else Raise (TypeError "ufunc 'isnan' not supported for the input types")
  | _ => Raise (TypeError "ufunc 'isnan' not supported for the input types")
  end.

(** [range(v)] as the list it iterates over. *)
Definition py_range (v : pyval) : result (list Z) :=
  match v with
  | VInt n => Ok (map Z.of_nat (seq 0 (Z.to_nat n)))
  | VBool b => Ok (if b then [0%Z] else [])
  | _ => Raise (TypeError "object cannot be interpreted as an integer")
  end.

(** *** Arithmetic

    The operations of line 58.  The least magnitude of an integer that has
    no float is [2^1024 - 2^970]: conversion rounds to nearest, and raises
    [OverflowError] from there on. *)
Definition float_overflow : Z := 2 ^ 1024 - 2 ^ 970.

(** The integer an operand of type [int] or [bool] stands for. *)
Definition as_int (v : pyval) : option Z :=
  match v with
  | VInt z => Some z
  | VBool b => Some (Z.b2z b)
  | _ => None
  end.

(** [a / v] for an integer [a]: true division of integers, or, with a float
    divisor, division of floats once [a] is converted. *)
Definition int_truediv (a : Z) (v : pyval) : result expr :=
  match as_int v, v with
  | Some b, _ =>
      if (b =? 0)%Z then Raise (ZeroDivisionError "division by zero")
      else if (float_overflow * Z.abs b <=? Z.abs a)%Z
      then Raise (OverflowError "integer division result too large for a float")
      else Ok (Lit a / Lit v)%py
  | None, VFloat f =>
      if (float_overflow <=? Z.abs a)%Z
      then Raise (OverflowError "int too large to convert to float")
      else if (f =? 0)%float
      then Raise (ZeroDivisionError "float division by zero")
      else Ok (Lit a / Lit v)%py
  | None, _ => Raise (TypeError "unsupported operand type(s) for /")
  end.

(** The other operand of [x * v] and [x + v] for a float [x]: an integer is
    converted to float, a float is taken as it is, anything else is
    refused.  The operation itself does not raise. *)
Definition float_operand (v : pyval) : result unit :=
  match v with
  | VFloat _ | VBool _ => Ok tt
  | VInt z =>
      if (float_overflow <=? Z.abs z)%Z
      then Raise (OverflowError "int too large to convert to float")
      else Ok tt
  | _ => Raise (TypeError "unsupported operand type(s)")
  end.

Definition float_mul (x : expr) (v : pyval) : result expr :=
  match float_operand v with
  | Ok _ => Ok (x * Lit v)%py
  | Raise e => Raise e
  end.

Definition float_add (x : expr) (v : pyval) : result expr :=
  match float_operand v with
  | Ok _ => Ok (x + Lit v)%py
  | Raise e => Raise e
  end.

(** ** State and error monad of a run

    The state is what a run accumulates: the interactions issued so far, and
    the one local variable that is re-bound inside a [try] block. *)
Record state := {
  trace : list call;
  peak_temperature : pyval
}.

Definition initial : state := {| trace := []; peak_temperature := VNone |}.

Definition M (A : Type) : Type := state -> state * result A.

#[global] Instance M_ret : MRet M := fun A a s => (s, Ok a).

#[global] Instance M_bind : MBind M := fun A B k m s =>
  match m s with
  | (s', Ok a) => k a s'
  | (s', Raise e) => (s', Raise e)
  end.

Definition raise {A} (e : exn) : M A := fun s => (s, Raise e).

Definition lift {A} (r : result A) : M A := fun s => (s, r).

Definition log (c : call) (s : state) : state :=
  {| trace := trace s ++ [c]; peak_temperature := peak_temperature s |}.

(** Issue an interaction: it is recorded, and the world answers. *)
Definition ask (w : world) (c : call) : M pyval :=
  fun s => (log c s, w (length (trace s)) c).

Definition set_peak_temperature (v : pyval) : M unit :=
  fun s => ({| trace := trace s; peak_temperature := v |}, Ok tt).

Definition get_peak_temperature : M pyval :=
  fun s => (s, Ok (peak_temperature s)).

(** [try: body  except <catches>: handler].  What [body] did to the state
    before it raised stays done. *)
Definition try_except {A} (body : M A) (catches : exn -> bool)
    (handler : exn -> M A) : M A :=
  fun s =>
    match body s with
    | (s', Ok a) => (s', Ok a)
    | (s', Raise e) => if catches e then handler e s' else (s', Raise e)
    end.

Definition except_Exception : exn -> bool := is_Exception.
Definition except_all : exn -> bool := fun _ => true.

Fixpoint for_each {A} (xs : list A) (body : A -> M unit) : M unit :=
  match xs with
  | [] => mret tt
  | x :: rest => body x;; for_each rest body
  end.

(** [d[key]]. *)
Definition getitem (d : gmap string pyval) (key : string) : M pyval :=
  match d !! key with
  | Some v => mret v
  | None => raise (KeyError key)
  end.

Definition result_of {A} (r : state * result A) : result A := snd r.
Definition trace_of {A} (r : state * result A) : list call := trace (fst r).

End Py.

(** ** [simulation_runner.run_single_simulation] *)

Module Runner.
Import Paths Py.
Local Open Scope float_scope.
Local Open Scope Z_scope.
Local Open Scope string_scope.

Abbreviation dict := (gmap string pyval).

(** Fixed parameters, lines 39-45.  The decimal literals denote the nearest
    binary64 value, as they do in Python. *)
#[local] Set Warnings "-inexact-float".
Definition disc_outer_radius : float := 0.160.
Definition braking_band_outer_radius : float := 0.155.
Definition braking_band_inner_radius : float := 0.100.
Definition hub_radius : float := 0.080.
Definition thermal_conductivity : Z := 55.
Definition density : Z := 7200.
Definition specific_heat : Z := 460.
Definition convection_coeff : Z := 120.
Definition ambient_temp : Z := 22.
Definition initial_temp : Z := 22.
Definition braking_time : float := 4.0.
Definition end_time : float := 10.0.
Definition time_step : float := 0.25.

Definition jobname : string := "disc_model".
Definition timestamp_format : string := "%Y-%m-%d %H:%M:%S".

Section Driver.

Variable w : world.

Local Abbreviation cmd method args kwargs := (ask w (mapdl method args kwargs)).

(** 1. Setup Simulation Environment, lines 17-21. *)
Definition setup_environment (run_id : Z) (base_run_dir : string) : M string :=
  let simulation_dir_name := "run_" +:+ format_04d run_id in
  let simulation_path := os_path_join base_run_dir simulation_dir_name in
  found ← ask w (os_path_exists simulation_path);
  (if negb (truthy found)
   then ask w (os_makedirs simulation_path);; mret tt
   else mret tt);;
  mret simulation_path.

(** 2. Launch ANSYS MAPDL, lines 24-30.  [Some record] is the early
    [return] of the handler; [None] means the process is running. *)
Definition launch (simulation_path : string) : M (option dict) :=
  try_except
    (ask w (launch_mapdl simulation_path jobname true true);; mret None)
    except_Exception
    (fun e =>
       now ← ask w (datetime_now_strftime timestamp_format);
       mret (Some {[ "peak_temp" := VFloat nan;
                     "status" := VStr "launch_failed";
                     "timestamp" := now ]})).

(** 3. Parameters passed in from the master script, lines 34-36. *)
Definition read_parameters (params : dict) : M (pyval * pyval * pyval) :=
  vane_count ← getitem params "vane_count";
  vane_thickness_deg ← getitem params "vane_thickness_deg";
  heat_flux ← getitem params "heat_flux";
  mret (vane_count, vane_thickness_deg, heat_flux).

(** Body of the vane loop, lines 58-65.  The two angles of line 58 are
    computed before the first keypoint is asked for; [np.deg2rad], [np.cos],
    [np.sin] and the products with the radii take floats to floats. *)
Definition vane (vane_count vane_thickness_deg : pyval) (i : Z) : M unit :=
  quotient ← lift (int_truediv 360 vane_count);
  angle_start_deg ← lift (float_mul quotient (VInt i));
  angle_end_deg ← lift (float_add angle_start_deg vane_thickness_deg);
  let angle_start_rad := np_deg2rad angle_start_deg in
  let angle_end_rad := np_deg2rad angle_end_deg in
  k1 ← cmd "k" [Lit ""; (braking_band_inner_radius * np_cos angle_start_rad)%py;
                (braking_band_inner_radius * np_sin angle_start_rad)%py; Lit 0] [];
  k2 ← cmd "k" [Lit ""; (braking_band_outer_radius * np_cos angle_start_rad)%py;
                (braking_band_outer_radius * np_sin angle_start_rad)%py; Lit 0] [];
  k3 ← cmd "k" [Lit ""; (braking_band_outer_radius * np_cos angle_end_rad)%py;
                (braking_band_outer_radius * np_sin angle_end_rad)%py; Lit 0] [];
  k4 ← cmd "k" [Lit ""; (braking_band_inner_radius * np_cos angle_end_rad)%py;
                (braking_band_inner_radius * np_sin angle_end_rad)%py; Lit 0] [];
  l_side1 ← cmd "l" [Lit k1; Lit k2] [];
  centre_outer ← cmd "k" [Lit ""; Lit 0; Lit 0; Lit 0] [];
  l_outer_arc ← cmd "larc" [Lit k2; Lit k3; Lit centre_outer;
                            Lit braking_band_outer_radius] [];
  l_side2 ← cmd "l" [Lit k3; Lit k4] [];
  centre_inner ← cmd "k" [Lit ""; Lit 0; Lit 0; Lit 0] [];
  l_inner_arc ← cmd "larc" [Lit k4; Lit k1; Lit centre_inner;
                            Lit braking_band_inner_radius] [];
  cmd "al" [Lit l_side1; Lit l_outer_arc; Lit l_side2; Lit l_inner_arc] [];;
  mret tt.

(** 4. Pre-Processing: Building the Model, lines 48-67. *)
Definition build_model (vane_count vane_thickness_deg : pyval) : M unit :=
  cmd "clear" [] [];;
  cmd "prep7" [] [];;
  cmd "mp" [Lit "KXX"; Lit 1; Lit thermal_conductivity] [];;
  cmd "mp" [Lit "DENS"; Lit 1; Lit density] [];;
  cmd "mp" [Lit "C"; Lit 1; Lit specific_heat] [];;
  cmd "et" [Lit 1; Lit "PLANE55"] [];;
  c1 ← cmd "cyl4" [Lit 0; Lit 0; Lit disc_outer_radius] [];
  c2 ← cmd "cyl4" [Lit 0; Lit 0; Lit braking_band_outer_radius] [];
  cmd "asba" [Lit c1; Lit c2] [];;
  c3 ← cmd "cyl4" [Lit 0; Lit 0; Lit braking_band_inner_radius] [];
  c4 ← cmd "cyl4" [Lit 0; Lit 0; Lit hub_radius] [];
  cmd "asba" [Lit c3; Lit c4] [];;
  indices ← lift (py_range vane_count);
  for_each indices (vane vane_count vane_thickness_deg);;
  cmd "aglue" [Lit "ALL"] [];;
  cmd "smrtsize" [Lit 4] [];;
  cmd "amesh" [Lit "ALL"] [];;
  mret tt.

(** The two rendering calls. *)
Definition eplot (run_id : Z) (final_image_dir : string) : call :=
  let input_png_path :=
    os_path_join final_image_dir ("input_" +:+ format_04d run_id +:+ ".png") in
  mapdl "eplot" []
    [("show_bounds", Lit true); ("cpos", Lit "xy");
     ("savefig", Lit input_png_path)].

Definition plot_nodal_temperature (run_id : Z) (final_image_dir : string)
    : call :=
  let output_png_path :=
    os_path_join final_image_dir ("output_" +:+ format_04d run_id +:+ ".png") in
  mapdl "post_processing.plot_nodal_temperature" []
    [("show_edges", Lit true); ("cpos", Lit "xy"); ("background", Lit "white");
     ("edge_color", Lit "black"); ("show_bounds", Lit true);
     ("scalar_bar_args", Lit (VDict [("title", "Temperature (Â°C)")]));
     ("savefig", Lit output_png_path)].

(** Save input image, lines 70-72: [try: ... except: pass]. *)
Definition save_input_image (run_id : Z) (final_image_dir : string) : M unit :=
  try_except
    (ask w (eplot run_id final_image_dir);; mret tt)
    except_all
    (fun _ => mret tt).

(** 5. Solution: Applying Loads and Solving, lines 75-90. *)
Definition solve_load_steps (heat_flux : pyval) : M unit :=
  cmd "finish" [] [];;
  cmd "slashsolu" [] [];;
  cmd "antype" [Lit "TRANSIENT"] [];;
  cmd "tunif" [Lit initial_temp] [];;
  cmd "lsel" [Lit "S"; Lit "EXT"] [];;
  cmd "sfl" [Lit "all"; Lit "CONV"; Lit convection_coeff; Lit ""; Lit ambient_temp] [];;
  cmd "allsel" [] [];;
  cmd "local" [Lit 11; Lit 1; Lit 0; Lit 0; Lit 0] [];;
  cmd "csys" [Lit 11] [];;
  cmd "nsel" [Lit "S"; Lit "LOC"; Lit "X"; Lit braking_band_inner_radius;
              Lit braking_band_outer_radius] [];;
  cmd "esln" [Lit "S"; Lit 0] [];;
  cmd "sfe" [Lit "ALL"; Lit 1; Lit "HFLUX"; Lit ""; Lit heat_flux] [];;
  cmd "csys" [Lit 0] [];;
  cmd "allsel" [] [];;
  cmd "time" [Lit braking_time] [];;
  cmd "nsubst" [int_ (braking_time / time_step)%py] [];;
  cmd "kbc" [Lit 0] [];;
  cmd "outres" [Lit "ALL"; Lit "ALL"] [];;
  cmd "solve" [] [];;
  cmd "csys" [Lit 11] [];;
  cmd "nsel" [Lit "S"; Lit "LOC"; Lit "X"; Lit braking_band_inner_radius;
              Lit braking_band_outer_radius] [];;
  cmd "esln" [Lit "S"; Lit 0] [];;
  cmd "sfedele" [Lit "ALL"; Lit 1; Lit "HFLUX"] [];;
  cmd "csys" [Lit 0] [];;
  cmd "allsel" [] [];;
  cmd "time" [Lit end_time] [];;
  cmd "nsubst" [int_ ((end_time - braking_time) / time_step)%py] [];;
  cmd "solve" [] [];;
  mret tt.

Definition nsort : call := mapdl "run" [Lit "NSORT,TEMP,,1"] [].
Definition get_max : call := mapdl "get_value" [Lit "SORT"] [("item1", Lit "MAX")].

(** The [try] statement of lines 95-102. *)
Definition extract_and_plot (run_id : Z) (final_image_dir : string) : M unit :=
  try_except
    (ask w nsort;;
     maximum ← ask w get_max;
     set_peak_temperature maximum;;
     ask w (plot_nodal_temperature run_id final_image_dir);;
     mret tt)
    except_Exception
    (fun e => mret tt).

(** 6. Post-Processing, lines 93-102. *)
Definition post_processing (run_id : Z) (final_image_dir : string) : M unit :=
  cmd "finish" [] [];;
  cmd "post1" [] [];;
  cmd "set" [] [("time", Lit braking_time)];;
  set_peak_temperature (VFloat nan);;
  extract_and_plot run_id final_image_dir.

(** 7. Finish, lines 105-113. *)
Definition finish (run_id : Z) : M dict :=
  cmd "exit" [] [];;
  timestamp ← ask w (datetime_now_strftime timestamp_format);
  peak ← get_peak_temperature;
  isnan ← lift (np_isnan peak);
  mret {[ "run_id" := VInt run_id;
          "peak_temp" := peak;
          "status" := VStr (if negb isnan then "success"
                            else "post_processing_failed");
          "timestamp" := timestamp ]}.

Definition after_launch (run_id : Z) (params : dict)
    (final_image_dir : string) : M dict :=
  '(vane_count, vane_thickness_deg, heat_flux) ← read_parameters params;
  build_model vane_count vane_thickness_deg;;
  save_input_image run_id final_image_dir;;
  solve_load_steps heat_flux;;
  post_processing run_id final_image_dir;;
  finish run_id.

Definition run_single_simulation (run_id : Z) (params : dict)
    (base_run_dir final_image_dir : string) : M dict :=
  simulation_path ← setup_environment run_id base_run_dir;
  started ← launch simulation_path;
  match started with
  | Some record => mret record
  | None => after_launch run_id params final_image_dir
  end.

End Driver.

End Runner.

(** ** The single-instance script [ansys_test_run_vanes - Copy.py]

    Module-level code, run top to bottom.  Its parameters are constants. *)

Module Script.
Import Paths Py.
Local Open Scope float_scope.
Local Open Scope Z_scope.
Local Open Scope string_scope.

(** Lines 36-53; the radii, material data and time settings have the values
    of the driver's. *)
Definition vane_count : Z := 48.
Definition vane_thickness_deg : float := 2.0.
Definition heat_flux : float := 9e6.

Definition elem_count_query : call :=
  mapdl "get_value" [Lit "ELEM"; Lit 0; Lit "COUNT"] [].

Section Script.

Variable w : world.

Local Abbreviation cmd method args kwargs := (ask w (mapdl method args kwargs)).

(** [os.getcwd()] is a string. *)
Definition getcwd : M string :=
  v ← ask w os_getcwd;
  match v with
  | VStr s => mret s
  | _ => raise (TypeError "expected str, bytes or os.PathLike object")
  end.

(** 1. and 2., lines 15-31.  The handler of the launch calls [exit()]. *)
Definition setup_and_launch : M string :=
  let simulation_dir_name := "vaned_disc_test_run" in
  main_project_dir ← getcwd;
  let simulation_path := os_path_join main_project_dir simulation_dir_name in
  found ← ask w (os_path_exists simulation_path);
  (if negb (truthy found)
   then ask w (os_makedirs simulation_path);; mret tt
   else mret tt);;
  try_except
    (ask w (launch_mapdl simulation_path Runner.jobname true false);; mret tt)
    except_Exception
    (fun e => raise SystemExit);;
  mret main_project_dir.

(** Lines 104-109. *)
Definition save_geometry_image (main_project_dir : string) : M unit :=
  let png_path := os_path_join main_project_dir "input_geometry_vaned.png" in
  try_except
    (cmd "eplot" [] [("show_bounds", Lit true); ("cpos", Lit "xy");
                     ("savefig", Lit png_path)];;
     mret tt)
    except_Exception
    (fun e => mret tt).

(** 5. Solution, lines 114-171, with the selection check of lines 134-139. *)
Definition solution : M unit :=
  cmd "finish" [] [];;
  cmd "slashsolu" [] [];;
  cmd "antype" [Lit "TRANSIENT"] [];;
  cmd "tunif" [Lit Runner.initial_temp] [];;
  cmd "lsel" [Lit "S"; Lit "EXT"] [];;
  cmd "sfl" [Lit "all"; Lit "CONV"; Lit Runner.convection_coeff; Lit "";
             Lit Runner.ambient_temp] [];;
  cmd "allsel" [] [];;
  cmd "local" [Lit 11; Lit 1; Lit 0; Lit 0; Lit 0] [];;
  cmd "csys" [Lit 11] [];;
  cmd "nsel" [Lit "S"; Lit "LOC"; Lit "X"; Lit Runner.braking_band_inner_radius;
              Lit Runner.braking_band_outer_radius] [];;
  cmd "esln" [Lit "S"; Lit 0] [];;
  elem_count ← ask w elem_count_query;
  (if eq_zero elem_count
   then cmd "exit" [] [];; mret tt
   else mret tt);;
  cmd "sfe" [Lit "ALL"; Lit 1; Lit "HFLUX"; Lit ""; Lit heat_flux] [];;
  cmd "csys" [Lit 0] [];;
  cmd "allsel" [] [];;
  cmd "time" [Lit Runner.braking_time] [];;
  cmd "nsubst" [int_ (Runner.braking_time / Runner.time_step)%py] [];;
  cmd "kbc" [Lit 0] [];;
  cmd "outres" [Lit "ALL"; Lit "ALL"] [];;
  cmd "solve" [] [];;
  cmd "csys" [Lit 11] [];;
  cmd "nsel" [Lit "S"; Lit "LOC"; Lit "X"; Lit Runner.braking_band_inner_radius;
              Lit Runner.braking_band_outer_radius] [];;
  cmd "esln" [Lit "S"; Lit 0] [];;
  cmd "sfedele" [Lit "ALL"; Lit 1; Lit "HFLUX"] [];;
  cmd "csys" [Lit 0] [];;
  cmd "allsel" [] [];;
  cmd "time" [Lit Runner.end_time] [];;
  cmd "nsubst" [int_ ((Runner.end_time - Runner.braking_time)
                      / Runner.time_step)%py] [];;
  cmd "solve" [] [];;
  mret tt.

(** 6. Post-Processing, lines 177-192. *)
Definition post_processing (main_project_dir : string) : M unit :=
  cmd "finish" [] [];;
  cmd "post1" [] [];;
  cmd "set" [] [("time", Lit Runner.braking_time)];;
  let png_path_temp :=
    os_path_join main_project_dir "output_temperature_vaned.png" in
  try_except
    (cmd "post_processing.plot_nodal_temperature" []
       [("show_edges", Lit true); ("cpos", Lit "xy");
        ("background", Lit "white"); ("edge_color", Lit "black");
        ("show_bounds", Lit true);
        ("scalar_bar_args", Lit (VDict [("title", "Temperature (°C)")]));
        ("savefig", Lit png_path_temp)];;
     mret tt)
    except_Exception
    (fun e => mret tt).

(** The whole script.  Section 4 (lines 57-100) issues the commands of the
    driver's section 4, in the same order. *)
Definition main : M unit :=
  main_project_dir ← setup_and_launch;
  Runner.build_model w (VInt vane_count) (VFloat vane_thickness_deg);;
  save_geometry_image main_project_dir;;
  solution;;
  post_processing main_project_dir;;
  cmd "exit" [] [];;
  mret tt.

End Script.

End Script.

(** ** Worlds: assumptions on the environment, and concrete environments *)

Module Worlds.
Import Py Runner.
Local Open Scope float_scope.
Local Open Scope Z_scope.
Local Open Scope string_scope.

Definition is_solver_command (c : call) : bool :=
  match c with
  | mapdl _ _ _ => true
  | _ => false
  end.

Definition is_launch (c : call) : bool :=
  match c with
  | launch_mapdl _ _ _ _ => true
  | _ => false
  end.

(** The interactions with the operating system and the clock. *)
Definition host_call (c : call) : bool :=
  match c with
  | os_getcwd | os_path_exists _ | os_makedirs _
  | datetime_now_strftime _ => true
  | _ => false
  end.

Definition calls (method : string) (c : call) : bool :=
  match c with
  | mapdl m _ _ => String.eqb m method
  | _ => false
  end.

(** The solver methods the driver invokes inside a [try]. *)
Definition guarded_methods : list string :=
  ["eplot"; "run"; "get_value"; "post_processing.plot_nodal_temperature"].

Definition guarded_method (m : string) : bool :=
  existsb (String.eqb m) guarded_methods.

(** The two image renderings. *)
Definition is_render (c : call) : bool :=
  calls "eplot" c || calls "post_processing.plot_nodal_temperature" c.

Definition host_ok (w : world) : Prop :=
  forall n c, host_call c = true -> exists v, w n c = Ok v.

Definition launch_succeeds (w : world) : Prop :=
  forall n c, is_launch c = true -> exists v, w n c = Ok v.

Definition launch_fails (w : world) (e : exn) : Prop :=
  forall n c, is_launch c = true -> w n c = Raise e.

Definition always_raises (w : world) (c : call) (e : exn) : Prop :=
  forall n, w n c = Raise e.

(** A world in which nothing goes wrong outside the driver's handlers: the
    host and every solver command issued outside a [try] answer, whatever
    is raised is an [Exception], and the extracted maximum is a float.  The
    launch, the two renderings, the sort and the extraction remain free to
    fail. *)
Record cooperative (w : world) : Prop := {
  host_answers : host_ok w;
  unguarded_commands_answer :
    forall n m a k, guarded_method m = false -> exists v, w n (mapdl m a k) = Ok v;
  raises_exceptions_only :
    forall n c e, w n c = Raise e -> is_Exception e = true;
  extraction_is_float :
    forall n a k v, w n (mapdl "get_value" a k) = Ok v -> exists f, v = VFloat f
}.

(** Parameter sets of the data model: an integer vane count whose loop
    indices are exact as floats, a real thickness and a real heat flux. *)
Definition in_data_model (params : dict) : Prop :=
  exists (n : Z) (t h : float),
    params !! "vane_count" = Some (VInt n) /\ (n <= 2 ^ 53)%Z /\
    params !! "vane_thickness_deg" = Some (VFloat t) /\
    params !! "heat_flux" = Some (VFloat h).

Definition is_nan_value (v : pyval) : bool :=
  match v with
  | VFloat f => is_nan f
  | _ => false
  end.

(** A failure of the temperature plot is an [Exception]; the handler around
    the mesh plot is a bare [except:] and needs no such assumption. *)
Definition plot_failures_are_exceptions (w : world) : Prop :=
  forall n run_id dir e,
    w n (plot_nodal_temperature run_id dir) = Raise e -> is_Exception e = true.

(** Two worlds that answer alike except, possibly, to the renderings. *)
Definition same_but_rendering (w1 w2 : world) : Prop :=
  forall n c, is_render c = false -> w1 n c = w2 n c.

(** A run that completes, and two runs that behave alike. *)
Definition succeeds {A} (m : M A) : Prop :=
  forall s, exists s' a, m s = (s', Ok a).

Definition agree {A} (m1 m2 : M A) : Prop :=
  forall s, m1 s = m2 s.

(** Every interaction a computation adds to the trace satisfies [P]. *)
Definition issues {A} (P : call -> Prop) (m : M A) : Prop :=
  forall s, exists new, trace (fst (m s)) = (trace s ++ new)%list /\ Forall P new.

(** The query of the number of selected elements, lines 135 of the
    script. *)
Definition first_argument_is (name : string) (args : list expr) : bool :=
  match args with
  | Lit (VStr s) :: _ => String.eqb s name
  | _ => false
  end.

Definition is_elem_count (c : call) : bool :=
  match c with
  | mapdl m args _ => String.eqb m "get_value" && first_argument_is "ELEM" args
  | _ => false
  end.

Definition method_of (c : call) : string :=
  match c with
  | os_getcwd => "os.getcwd"
  | os_path_exists _ => "os.path.exists"
  | os_makedirs _ => "os.makedirs"
  | launch_mapdl _ _ _ _ => "launch_mapdl"
  | mapdl m _ _ => m
  | datetime_now_strftime _ => "datetime.now"
  end.

(** *** Concrete environments *)

(** Everything works; the working directory is new, keypoints, lines and
    areas are numbered by the solver, the selection holds 1500 elements and
    the hottest node is at 412.5 degrees. *)
Definition quiet : world := fun n c =>
  match c with
  | os_getcwd => Ok (VStr "/home/user/project")
  | os_path_exists _ => Ok (VBool false)
  | os_makedirs _ => Ok VNone
  | launch_mapdl _ _ _ _ => Ok VNone
  | mapdl m args _ =>
      if String.eqb m "get_value"
      then if first_argument_is "ELEM" args
           then Ok (VFloat 1500) else Ok (VFloat 412.5)
      else if existsb (String.eqb m) ["k"; "l"; "larc"; "al"; "cyl4"]
      then Ok (VInt (Z.of_nat n))
      else Ok VNone
  | datetime_now_strftime _ => Ok (VStr "2025-03-01 09:30:00")
  end.

(** [w], except that the interactions selected by [hit] raise [e] ... *)
Definition failing (hit : call -> bool) (e : exn) (w : world) : world :=
  fun n c => if hit c then Raise e else w n c.

(** ... or answer [v]. *)
Definition answering (hit : call -> bool) (v : pyval) (w : world) : world :=
  fun n c => if hit c then Ok v else w n c.

Definition solver_error : exn := Exception "MapdlRuntimeError" "command failed".
Definition launch_error : exn := Exception "LaunchError" "no license".

(** The parameter set of [time_test.py]. *)
Definition time_test_params : dict :=
  {[ "vane_count" := VInt 54;
     "vane_thickness_deg" := VFloat 2.5;
     "heat_flux" := VFloat 1.9e6 ]}.

Definition small_params : dict :=
  {[ "vane_count" := VInt 2;
     "vane_thickness_deg" := VFloat 2.5;
     "heat_flux" := VFloat 1.9e6 ]}.


(** *** Records, and ways to look at an outcome *)

(** The two dictionaries the driver builds. *)
Definition launch_failed_record (now : pyval) : dict :=
  {[ "peak_temp" := VFloat nan;
     "status" := VStr "launch_failed";
     "timestamp" := now ]}.

Definition final_record (run_id : Z) (peak : pyval) (isnan : bool)
    (timestamp : pyval) : dict :=
  {[ "run_id" := VInt run_id;
     "peak_temp" := peak;
     "status" := VStr (if negb isnan then "success"
                       else "post_processing_failed");
     "timestamp" := timestamp ]}.

Definition exit_command : call := mapdl "exit" [] [].

Definition never_counts (c : call) : Prop := is_elem_count c = false.

(** The interactions selected by [hit] are the launch or guarded solver
    methods. *)
Definition only_guarded (hit : call -> bool) : Prop :=
  forall c, hit c = true ->
    host_call c = false /\
    match c with mapdl m _ _ => guarded_method m = true | _ => True end.

Definition status_of (r : result dict) : option pyval :=
  match r with
  | Ok d => d !! "status"
  | Raise _ => None
  end.

(** The suffix of a trace that starts at the first interaction selected by
    [hit]. *)
Fixpoint from_first (hit : call -> bool) (t : list call) : list call :=
  match t with
  | [] => []
  | c :: rest => if hit c then c :: rest else from_first hit rest
  end.

Abbreviation base_dir := "ansys_runs_timetest".
Abbreviation image_dir := "dataset_images_timetest".

(** The environments used as examples below. *)
Definition refused_launch : world := failing is_launch launch_error quiet.
Definition failing_clear : world := failing (calls "clear") solver_error quiet.
Definition failing_solve : world := failing (calls "solve") solver_error quiet.
Definition failing_sort : world := failing (calls "run") solver_error quiet.
Definition failing_extraction : world :=
  failing (calls "get_value") solver_error quiet.
Definition failing_plot : world :=
  failing (calls "post_processing.plot_nodal_temperature") solver_error quiet.
Definition failing_renderings : world := failing is_render solver_error quiet.
Definition failing_plots_and_sort : world :=
  failing (calls "eplot") solver_error failing_sort.
Definition nan_extraction : world :=
  answering (calls "get_value") (VFloat nan) quiet.
Definition empty_selection : world :=
  answering is_elem_count (VFloat 0) quiet.
Definition exited_error : exn := Exception "MapdlExitedError" "MAPDL exited".
Definition empty_selection_refused : world :=
  failing (calls "sfe") exited_error empty_selection.
Definition failing_set : world := failing (calls "set") solver_error quiet.
Definition none_extraction : world := answering (calls "get_value") VNone quiet.
Definition interrupted_launch : world :=
  failing is_launch (BaseException "KeyboardInterrupt") quiet.
Definition test_timestamp : pyval := VStr "2025-03-01 09:30:00".

(** The call of [time_test.py], in a given world. *)
Definition time_test_run (w : world) : state * result dict :=
  run_single_simulation w 1 time_test_params base_dir image_dir initial.

End Worlds.

(** ** The timing harness [time_test.py] *)

Module TimeTest.
Import Py Runner Worlds.
Local Open Scope string_scope.

(** Lines 10-11. *)
Definition BASE_RUN_DIR : string := "ansys_runs_timetest".
Definition FINAL_IMAGE_DIR : string := "dataset_images_timetest".

(** Lines 26-31. *)
Definition params : dict :=
  {[ "vane_count" := VInt 54;
     "vane_thickness_deg" := VFloat 2.5;
     "heat_flux" := VFloat 1.9e6 ]}.
Definition run_id : Z := 1.

(** The interactions of the harness itself, beside those of the driver it
    calls: [os.makedirs(path, exist_ok=True)] and [time.time()]. *)
Inductive host_call :=
| os_makedirs_exist_ok (path : string)
| time_time.

Definition host := nat -> host_call -> result pyval.

(** [d.get(key, default)]. *)
Definition dict_get (d : dict) (key : string) (default : pyval) : pyval :=
  match d !! key with
  | Some v => v
  | None => default
  end.

(** What the summary of lines 65-70 is printed from: the status, and the two
    clock readings the duration is computed from. *)
Record summary := {
  simulation_status : pyval;
  start_time : pyval;
  end_time : pyval
}.

(** The main block, lines 14-71.  The driver starts a trace of its own. *)
Definition main (h : host) (w : world) : result summary :=
  match h 0%nat (os_makedirs_exist_ok BASE_RUN_DIR) with
  | Raise e => Raise e
  | Ok _ =>
  match h 1%nat (os_makedirs_exist_ok FINAL_IMAGE_DIR) with
  | Raise e => Raise e
  | Ok _ =>
  match h 2%nat time_time with
  | Raise e => Raise e
  | Ok start =>
  match result_of (run_single_simulation w run_id params
                     BASE_RUN_DIR FINAL_IMAGE_DIR initial) with
  | Raise e => Raise e
  | Ok results =>
  match h 3%nat time_time with
  | Raise e => Raise e
  | Ok finish =>
      Ok {| simulation_status := dict_get results "status" (VStr "unknown_error");
            start_time := start;
            end_time := finish |}
  end end end end end.

Definition host_answers (h : host) : Prop :=
  forall n c, exists v, h n c = Ok v.

(** A host on which everything works. *)
Definition steady_host : host := fun n c =>
  match c with
  | os_makedirs_exist_ok _ => Ok VNone
  | time_time =>
      Ok (VFloat (if Nat.eqb n 2 then 1700000000%float else 1700000600%float))
  end.

End TimeTest.

(** ** Observations on traces and outcomes *)

Module Observations.
Import Py Runner Worlds.
Local Open Scope string_scope.

(** How many interactions of a trace are selected by [hit]. *)
Definition tally (hit : call -> bool) (t : list call) : nat :=
  length (List.filter hit t).

(** The solver methods of each part of the driver. *)
Definition ring_methods : list string :=
  ["clear"; "prep7"; "mp"; "et"; "cyl4"; "asba"].
Definition vane_methods : list string := ["k"; "l"; "larc"; "al"].
Definition mesh_methods : list string := ["aglue"; "smrtsize"; "amesh"].
Definition solve_methods : list string :=
  ["finish"; "slashsolu"; "antype"; "tunif"; "lsel"; "sfl"; "allsel"; "local";
   "csys"; "nsel"; "esln"; "sfe"; "time"; "nsubst"; "kbc"; "outres"; "solve";
   "sfedele"].
Definition post_methods : list string :=
  ["finish"; "post1"; "set"; "run"; "get_value";
   "post_processing.plot_nodal_temperature"].

(** Everything the driver can ask of the solver before the shutdown. *)
Definition working_methods : list string :=
  (ring_methods ++ vane_methods ++ mesh_methods ++ ["eplot"] ++ solve_methods
   ++ post_methods)%list.

Definition is_vane_command (c : call) : bool :=
  existsb (fun m => calls m c) vane_methods.

Definition is_makedirs (c : call) : bool :=
  match c with
  | os_makedirs _ => true
  | _ => false
  end.

Definition is_exists (c : call) : bool :=
  match c with
  | os_path_exists _ => true
  | _ => false
  end.

(** A computation all of whose new interactions are kept by [keep]. *)
Definition keeps {A} (keep : call -> bool) (m : M A) : Prop :=
  issues (fun c => keep c = true) m.

(** [keep] holds of every command with a method of the list. *)
Definition keeps_methods (keep : call -> bool) (methods : list string) : Prop :=
  forall m a k, In m methods -> keep (mapdl m a k) = true.

(** Everything between the launch and the shutdown, lines 48-102, and
    everything from the launch on, lines 24-113. *)
Definition working_part (w : world) (run_id : Z) (vc vt hf : pyval)
    (dir : string) : M unit :=
  build_model w vc vt;;
  save_input_image w run_id dir;;
  solve_load_steps w hf;;
  post_processing w run_id dir.

Definition launched_part (w : world) (run_id : Z) (params : dict)
    (path dir : string) : M dict :=
  started ← launch w path;
  match started with
  | Some record => mret record
  | None => after_launch w run_id params dir
  end.

(** A computation that adds at most [d] selected interactions. *)
Definition at_most {A} (hit : call -> bool) (d : nat) (m : M A) : Prop :=
  forall s, (tally hit (trace (fst (m s))) <= tally hit (trace s) + d)%nat.

(** A computation that can only raise exceptions satisfying [Q]. *)
Definition blames {A} (Q : exn -> Prop) (m : M A) : Prop :=
  forall s s' e, m s = (s', Raise e) -> Q e.

(** A computation that completes and adds [d] selected interactions. *)
Definition adds {A} (hit : call -> bool) (d : nat) (m : M A) : Prop :=
  forall s, exists s' a,
    m s = (s', Ok a) /\ tally hit (trace s') = (tally hit (trace s) + d)%nat.

(** The interactions whose exceptions a handler of the driver catches when
    they are [Exception]s. *)
Definition in_try (c : call) : bool :=
  is_launch c || calls "run" c || calls "get_value" c
  || calls "post_processing.plot_nodal_temperature" c.

(** Where an exception leaving the driver can come from. *)
Definition raised_outside (w : world) (e : exn) : Prop :=
  exists n c,
    w n c = Raise e /\ calls "eplot" c = false /\
    (in_try c = true -> is_Exception e = false).

Definition raised_by_driver (params : dict) (e : exn) : Prop :=
  (exists key, e = KeyError key /\ params !! key = None) \/
  (exists msg, e = TypeError msg) \/
  (exists msg, e = OverflowError msg).

Definition culprit (w : world) (params : dict) (e : exn) : Prop :=
  raised_outside w e \/ raised_by_driver params e.

(** What a [try: ... except Exception] of the driver can see raised. *)
Definition from_outside (w : world) (e : exn) : Prop :=
  exists n c, w n c = Raise e /\ calls "eplot" c = false.

(** The exceptions a handler of the driver catches, told by the interaction
    that raised them: whatever the mesh plot raises, and the [Exception]s of
    the launch and of the three calls of the post-processing [try]. *)
Definition caught (c : call) (e : exn) : bool :=
  calls "eplot" c || in_try c && is_Exception e.

Definition nothing_caught : call -> exn -> bool := fun _ _ => false.

(** A computation that only extends the trace, and that ends at once, with
    the exception in question, when an interaction it issues raises an
    exception that [catch] does not cover. *)
Definition stops_at {A} (w : world) (catch : call -> exn -> bool) (m : M A)
    : Prop :=
  forall s, exists new,
    trace (fst (m s)) = (trace s ++ new)%list /\
    forall i c e,
      nth_error new i = Some c ->
      w (length (trace s) + i)%nat c = Raise e ->
      catch c e = false ->
      snd (m s) = Raise e /\ length new = S i.

(** A solver command the driver issues outside every [try], the shutdown
    apart: model construction, solution, loading of the result state. *)
Definition unguarded_command (c : call) : bool :=
  match c with
  | mapdl m _ _ => negb (guarded_method m) && negb (String.eqb m "exit")
  | _ => false
  end.

(** The loading of the result state, line 93. *)
Definition loads_result_state (c : call) : bool :=
  calls "finish" c || calls "post1" c || calls "set" c.

(** Interactions in which the shutdown, if it occurs, comes last or is
    followed by the reading of the clock only. *)
Definition shutdown_is_last (new : list call) : Prop :=
  Forall (fun c => calls "exit" c = false) new \/
  exists t,
    new = (t ++ [exit_command])%list \/
    new = (t ++ [exit_command; datetime_now_strftime timestamp_format])%list.

Definition shuts_down_last {A} (m : M A) : Prop :=
  forall s, exists new,
    trace (fst (m s)) = (trace s ++ new)%list /\ shutdown_is_last new.

(** The twelve commands that build the two rings, lines 48-55. *)
Definition ring_commands : list string :=
  ["clear"; "prep7"; "mp"; "mp"; "mp"; "et"; "cyl4"; "cyl4"; "asba"; "cyl4";
   "cyl4"; "asba"].

(** The methods of one pass through the loop body, lines 60-65, in the
    order of the calls. *)
Definition vane_shape : list string :=
  ["k"; "k"; "k"; "k"; "l"; "k"; "larc"; "l"; "k"; "larc"; "al"].

Definition per_vane (method : string) : nat :=
  length (List.filter (String.eqb method) vane_shape).

(** Worlds for the script: the working directory is a string. *)
Definition getcwd_is_string (w : world) : Prop :=
  forall n, exists s, w n os_getcwd = Ok (VStr s).

(** The three statuses. *)
Definition statuses : list pyval :=
  [VStr "success"; VStr "launch_failed"; VStr "post_processing_failed"].

(** More environments used as examples. *)
Definition existing_directory : world :=
  answering is_exists (VBool true) quiet.
Definition failing_makedirs : world :=
  failing is_makedirs (Exception "PermissionError" "read-only") quiet.
Definition no_vanes_params : dict := <[ "vane_count" := VInt 0 ]> time_test_params.
Definition float_count_params : dict :=
  <[ "vane_count" := VFloat 54 ]> time_test_params.
Definition interrupted_sort : world :=
  failing (calls "run") (BaseException "KeyboardInterrupt") quiet.
Definition huge_thickness_params : dict :=
  <[ "vane_thickness_deg" := VInt (10 ^ 400) ]> time_test_params.
Definition no_thickness_params : dict :=
  <[ "vane_thickness_deg" := VNone ]> time_test_params.

End Observations.

(** ** Facts about formatting and paths *)

Module PathFacts.
Import Paths.

Example format_04d_1 : format_04d 1 = "0001".
Proof. reflexivity. Qed.

Example format_04d_54 : format_04d 54 = "0054".
Proof. reflexivity. Qed.

Example format_04d_wide : format_04d 123456 = "123456".
Proof. reflexivity. Qed.

Example format_04d_neg : format_04d (-5) = "-005".
Proof. reflexivity. Qed.

Example format_04d_zero : format_04d 0 = "0000".
Proof. reflexivity. Qed.

Example simulation_path_1 :
  simulation_path "ansys_runs_timetest" 1 = "ansys_runs_timetest/run_0001".
Proof. reflexivity. Qed.

Example input_png_path_1 :
  input_png_path "dataset_images_timetest" 1
  = "dataset_images_timetest/input_0001.png".
Proof. reflexivity. Qed.

Lemma iter_D0_value k d :
  N.of_uint (Nat.iter k Decimal.D0 d) = N.of_uint d.
Proof.
  induction k as [|k IH]; [reflexivity|].
  simpl. exact IH.
Qed.

Lemma zfill_value w d : N.of_uint (zfill w d) = N.of_uint d.
Proof. apply iter_D0_value. Qed.

Lemma string_of_uint_inj d1 d2 :
  NilEmpty.string_of_uint d1 = NilEmpty.string_of_uint d2 -> d1 = d2.
Proof.
  intros H.
  assert (Some d1 = Some d2) as E
    by (rewrite <- (NilEmpty.usu d1), <- (NilEmpty.usu d2); now rewrite H).
  now inversion E.
Qed.

Lemma string_of_uint_no_sign d s :
  NilEmpty.string_of_uint d <> String "-" s.
Proof.
  destruct d; discriminate.
Qed.

Lemma zfill_abs_inj w1 w2 (a b : N) :
  zfill w1 (N.to_uint a) = zfill w2 (N.to_uint b) -> a = b.
Proof.
  intros H. apply (f_equal N.of_uint) in H.
  now rewrite !zfill_value, !DecimalN.Unsigned.of_to in H.
Qed.

Lemma format_04d_inj n m : format_04d n = format_04d m -> n = m.
Proof.
  unfold format_04d.
  destruct (Z.ltb_spec n 0) as [Hn|Hn], (Z.ltb_spec m 0) as [Hm|Hm]; intros E.
  - injection E as E. apply string_of_uint_inj, zfill_abs_inj in E. lia.
  - symmetry in E. now apply string_of_uint_no_sign in E.
  - now apply string_of_uint_no_sign in E.
  - apply string_of_uint_inj, zfill_abs_inj in E. lia.
Qed.

Lemma append_nil (y : string) : "" +:+ y = y.
Proof. reflexivity. Qed.

Lemma append_cons c (x y : string) : String c x +:+ y = String c (x +:+ y).
Proof. reflexivity. Qed.

Lemma append_cancel_l (p x y : string) : p +:+ x = p +:+ y -> x = y.
Proof.
  induction p as [|c p IH]; rewrite ?append_nil, ?append_cons; intros H.
  - exact H.
  - injection H as H. auto.
Qed.

Lemma append_length (x y : string) :
  String.length (x +:+ y) = (String.length x + String.length y)%nat.
Proof.
  induction x as [|c x IH]; rewrite ?append_nil, ?append_cons; simpl; auto.
Qed.

Lemma append_assoc (x y z : string) : (x +:+ y) +:+ z = x +:+ y +:+ z.
Proof.
  induction x as [|c x IH]; rewrite ?append_nil, ?append_cons;
    [reflexivity|]. now rewrite IH.
Qed.

Lemma append_cancel_r (s x y : string) : x +:+ s = y +:+ s -> x = y.
Proof.
  revert y.
  induction x as [|c x IH]; intros [|d y] H;
    rewrite ?append_nil, ?append_cons in H.
  - reflexivity.
  - apply (f_equal String.length) in H. simpl in H.
    rewrite append_length in H. lia.
  - apply (f_equal String.length) in H. simpl in H.
    rewrite append_length in H. lia.
  - injection H as -> H. f_equal. auto.
Qed.

(** A component that does not start with the separator is appended to the
    directory behind a prefix that depends on the directory only. *)
Lemma os_path_join_relative a b :
  startswith_sep b = false ->
  os_path_join a b =
    (if (String.eqb a "" || endswith_sep a)%bool then a else a +:+ "/") +:+ b.
Proof.
  intros Hb. unfold os_path_join. rewrite Hb.
  destruct (String.eqb a "" || endswith_sep a)%bool; [reflexivity|].
  now rewrite append_assoc.
Qed.

Lemma os_path_join_inj a b1 b2 :
  startswith_sep b1 = false -> startswith_sep b2 = false ->
  os_path_join a b1 = os_path_join a b2 -> b1 = b2.
Proof.
  intros H1 H2. rewrite !os_path_join_relative by assumption.
  apply append_cancel_l.
Qed.

Lemma simulation_path_inj base r1 r2 :
  simulation_path base r1 = simulation_path base r2 -> r1 = r2.
Proof.
  intros H. apply os_path_join_inj in H; [|reflexivity..].
  apply (append_cancel_l "run_"), format_04d_inj in H. exact H.
Qed.

Lemma input_png_path_inj dir r1 r2 :
  input_png_path dir r1 = input_png_path dir r2 -> r1 = r2.
Proof.
  intros H. apply os_path_join_inj in H; [|reflexivity..].
  apply (append_cancel_l "input_"), append_cancel_r, format_04d_inj in H.
  exact H.
Qed.

Lemma output_png_path_inj dir r1 r2 :
  output_png_path dir r1 = output_png_path dir r2 -> r1 = r2.
Proof.
  intros H. apply os_path_join_inj in H; [|reflexivity..].
  apply (append_cancel_l "output_"), append_cancel_r, format_04d_inj in H.
  exact H.
Qed.

Lemma input_output_disjoint dir r1 r2 :
  input_png_path dir r1 <> output_png_path dir r2.
Proof.
  intros H. apply os_path_join_inj in H; [|reflexivity..].
  discriminate H.
Qed.

End PathFacts.

(** ** Reasoning rules for the monad *)

Module Rules.
Import Py Runner Worlds.

Lemma bind_Ok {A B} (m : M A) (k : A -> M B) s s' a :
  m s = (s', Ok a) -> (m ≫= k) s = k a s'.
Proof. intros H. unfold mbind, M_bind. now rewrite H. Qed.

Lemma bind_Raise {A B} (m : M A) (k : A -> M B) s s' e :
  m s = (s', Raise e) -> (m ≫= k) s = (s', Raise e).
Proof. intros H. unfold mbind, M_bind. now rewrite H. Qed.

Lemma bind_Ok_inv {A B} (m : M A) (k : A -> M B) s s' b :
  (m ≫= k) s = (s', Ok b) ->
  exists s1 a, m s = (s1, Ok a) /\ k a s1 = (s', Ok b).
Proof.
  unfold mbind, M_bind. destruct (m s) as [s1 [a|e]]; intros H.
  - eauto.
  - discriminate H.
Qed.

Lemma ask_eq w c s : ask w c s = (log c s, w (length (trace s)) c).
Proof. reflexivity. Qed.

Lemma ask_bind_Ok {B} w c (k : pyval -> M B) s v :
  w (length (trace s)) c = Ok v -> (ask w c ≫= k) s = k v (log c s).
Proof. intros E. apply bind_Ok. now rewrite ask_eq, E. Qed.

Lemma ask_bind_Raise {B} w c (k : pyval -> M B) s e :
  w (length (trace s)) c = Raise e -> (ask w c ≫= k) s = (log c s, Raise e).
Proof. intros E. apply bind_Raise. now rewrite ask_eq, E. Qed.

(** *** The arithmetic of the vane loop *)

Lemma float_overflow_large : (2 ^ 53 < float_overflow)%Z.
Proof. reflexivity. Qed.

(** The indices [range(n)] runs through. *)
Lemma range_member (n i : Z) :
  In i (map Z.of_nat (seq 0 (Z.to_nat n))) -> (0 <= i < n)%Z.
Proof.
  intros H. apply in_map_iff in H as (k & <- & Hk).
  apply in_seq in Hk. lia.
Qed.

(** Inside the loop the count is not zero: the division of line 58 goes
    through. *)
Lemma range_member_divides (vc : pyval) (xs : list Z) (i : Z) :
  py_range vc = Ok xs -> In i xs ->
  int_truediv 360 vc = Ok (Lit (VInt 360) / Lit vc)%py.
Proof.
  destruct vc as [|b|n| | |]; simpl py_range; try discriminate.
  - destruct b; intros [= <-] Hin; [reflexivity | destruct Hin].
  - intros [= <-] Hin. apply range_member in Hin.
    unfold int_truediv. cbn [as_int].
    destruct (Z.eqb_spec n 0) as [->|_]; [lia|].
    destruct (Z.leb_spec (float_overflow * Z.abs n) (Z.abs 360)) as [H|_];
      [|reflexivity].
    exfalso. pose proof float_overflow_large as Hl.
    assert (float_overflow * 1 <= float_overflow * Z.abs n)%Z
      by (apply Z.mul_le_mono_nonneg_l; lia).
    change (Z.abs 360) with 360%Z in H. lia.
Qed.

Lemma int_truediv_positive (n : Z) :
  (0 < n)%Z -> int_truediv 360 (VInt n) = Ok (Lit (VInt 360) / Lit (VInt n))%py.
Proof.
  intros Hn. apply (range_member_divides (VInt n) _ 0 eq_refl).
  apply in_map_iff. exists 0%nat. split; [reflexivity|].
  apply in_seq. lia.
Qed.

Lemma float_operand_raises (v : pyval) (e : exn) :
  float_operand v = Raise e ->
  (exists msg, e = TypeError msg) \/ (exists msg, e = OverflowError msg).
Proof.
  destruct v as [| |z| | |]; cbn [float_operand]; try discriminate;
    try (intros [= <-]; left; eauto).
  destruct (_ <=? _)%Z; [|discriminate]. intros [= <-]. right. eauto.
Qed.

Lemma float_mul_raises (x : expr) (v : pyval) (e : exn) :
  float_mul x v = Raise e -> float_operand v = Raise e.
Proof.
  unfold float_mul. destruct (float_operand v) as [[]|e']; [discriminate|].
  now intros [= <-].
Qed.

Lemma float_add_raises (x : expr) (v : pyval) (e : exn) :
  float_add x v = Raise e -> float_operand v = Raise e.
Proof.
  unfold float_add. destruct (float_operand v) as [[]|e']; [discriminate|].
  now intros [= <-].
Qed.

(** An index of at most [2^53] converts to float, and a float operand is
    taken as it is. *)
Lemma float_mul_index (x : expr) (i : Z) :
  (0 <= i <= 2 ^ 53)%Z -> float_mul x (VInt i) = Ok (x * Lit (VInt i))%py.
Proof.
  intros Hi. unfold float_mul. cbn [float_operand].
  destruct (Z.leb_spec float_overflow (Z.abs i)) as [H|_]; [|reflexivity].
  pose proof float_overflow_large. lia.
Qed.

Lemma float_add_float (x : expr) (t : float) :
  float_add x (VFloat t) = Ok (x + Lit (VFloat t))%py.
Proof. reflexivity. Qed.

(** *** Completion *)

Lemma succeeds_ret {A} (a : A) : succeeds (mret a).
Proof. intros s. now exists s, a. Qed.

Lemma succeeds_lift {A} (a : A) : succeeds (lift (Ok a)).
Proof. intros s. now exists s, a. Qed.

Lemma succeeds_bind {A B} (m : M A) (k : A -> M B) :
  succeeds m -> (forall a, succeeds (k a)) -> succeeds (m ≫= k).
Proof.
  intros Hm Hk s. destruct (Hm s) as (s1 & a & E1).
  destruct (Hk a s1) as (s2 & b & E2).
  exists s2, b. now rewrite (bind_Ok _ _ _ _ _ E1).
Qed.

Lemma succeeds_ask w c :
  (forall n, exists v, w n c = Ok v) -> succeeds (ask w c).
Proof.
  intros H s. destruct (H (length (trace s))) as [v E].
  exists (log c s), v. now rewrite ask_eq, E.
Qed.

Lemma succeeds_for_each {A} (xs : list A) (body : A -> M unit) :
  (forall x, succeeds (body x)) -> succeeds (for_each xs body).
Proof.
  intros H. induction xs as [|x xs IH]; simpl.
  - apply succeeds_ret.
  - apply succeeds_bind; [apply H | intros _; exact IH].
Qed.

Lemma succeeds_for_each_in {A} (xs : list A) (body : A -> M unit) :
  (forall x, In x xs -> succeeds (body x)) -> succeeds (for_each xs body).
Proof.
  intros H. induction xs as [|x xs IH]; simpl.
  - apply succeeds_ret.
  - apply succeeds_bind; [apply H; now left | intros _].
    apply IH. intros y Hy. apply H. now right.
Qed.

Lemma succeeds_lift_bind {A B} (r : result A) (a : A) (k : A -> M B) :
  r = Ok a -> succeeds (k a) -> succeeds (lift r ≫= k).
Proof. intros -> H s. apply H. Qed.

(** A [try] whose handler completes, completes when every failure of the
    body is caught. *)
Lemma succeeds_try_except {A} (body : M A) catches handler :
  (forall s s' e, body s = (s', Raise e) -> catches e = true) ->
  (forall e, succeeds (handler e)) ->
  succeeds (try_except body catches handler).
Proof.
  intros Hc Hh s. unfold try_except.
  destruct (body s) as [s1 [a|e]] eqn:E.
  - now exists s1, a.
  - rewrite (Hc _ _ _ E). apply Hh.
Qed.

(** *** What gets issued *)

Lemma issues_ret {A} P (a : A) : issues P (mret a).
Proof. intros s. exists []. simpl. now rewrite app_nil_r. Qed.

Lemma issues_lift {A} P (r : result A) : issues P (lift r).
Proof. intros s. exists []. simpl. now rewrite app_nil_r. Qed.

Lemma issues_raise {A} P e : issues P (@raise A e).
Proof. intros s. exists []. simpl. now rewrite app_nil_r. Qed.

Lemma issues_ask w P c : P c -> issues P (ask w c).
Proof. intros Hc s. exists [c]. simpl. auto. Qed.

Lemma issues_bind {A B} P (m : M A) (k : A -> M B) :
  issues P m -> (forall a, issues P (k a)) -> issues P (m ≫= k).
Proof.
  intros Hm Hk s. destruct (Hm s) as (new1 & E1 & H1).
  unfold mbind, M_bind. destruct (m s) as [s1 [a|e]]; simpl in E1.
  - destruct (Hk a s1) as (new2 & E2 & H2).
    exists (new1 ++ new2)%list. rewrite E2, E1, <- app_assoc.
    split; [reflexivity | now apply Forall_app].
  - now exists new1.
Qed.

Lemma issues_try_except {A} P (body : M A) catches handler :
  issues P body -> (forall e, issues P (handler e)) ->
  issues P (try_except body catches handler).
Proof.
  intros Hb Hh s. destruct (Hb s) as (new1 & E1 & H1).
  unfold try_except. destruct (body s) as [s1 [a|e]]; simpl in E1.
  - now exists new1.
  - destruct (catches e); [|now exists new1].
    destruct (Hh e s1) as (new2 & E2 & H2).
    exists (new1 ++ new2)%list. rewrite E2, E1, <- app_assoc.
    split; [reflexivity | now apply Forall_app].
Qed.

Lemma issues_for_each {A} P (xs : list A) (body : A -> M unit) :
  (forall x, issues P (body x)) -> issues P (for_each xs body).
Proof.
  intros H. induction xs as [|x xs IH]; simpl.
  - apply issues_ret.
  - apply issues_bind; [apply H | intros _; exact IH].
Qed.

Lemma issues_get_peak_temperature P : issues P get_peak_temperature.
Proof. intros s. exists []. simpl. now rewrite app_nil_r. Qed.

Lemma issues_set_peak_temperature P v : issues P (set_peak_temperature v).
Proof. intros s. exists []. simpl. now rewrite app_nil_r. Qed.

(** *** Lockstep *)

Lemma agree_refl {A} (m : M A) : agree m m.
Proof. now intros s. Qed.

Lemma agree_bind {A B} (m1 m2 : M A) (k1 k2 : A -> M B) :
  agree m1 m2 -> (forall a, agree (k1 a) (k2 a)) -> agree (m1 ≫= k1) (m2 ≫= k2).
Proof.
  intros Hm Hk s. unfold mbind, M_bind. rewrite (Hm s).
  destruct (m2 s) as [s1 [a|e]]; [apply Hk | reflexivity].
Qed.

Lemma agree_ask w1 w2 c :
  same_but_rendering w1 w2 -> is_render c = false -> agree (ask w1 c) (ask w2 c).
Proof. intros Hw Hc s. rewrite !ask_eq. now rewrite (Hw _ _ Hc). Qed.

Lemma agree_try_except {A} (b1 b2 : M A) catches h1 h2 :
  agree b1 b2 -> (forall e, agree (h1 e) (h2 e)) ->
  agree (try_except b1 catches h1) (try_except b2 catches h2).
Proof.
  intros Hb Hh s. unfold try_except. rewrite (Hb s).
  destruct (b2 s) as [s1 [a|e]]; [reflexivity|].
  destruct (catches e); [apply Hh | reflexivity].
Qed.

Lemma agree_for_each {A} (xs : list A) (body1 body2 : A -> M unit) :
  (forall x, agree (body1 x) (body2 x)) ->
  agree (for_each xs body1) (for_each xs body2).
Proof.
  intros H. induction xs as [|x xs IH]; simpl.
  - apply agree_refl.
  - apply agree_bind; [apply H | intros _; exact IH].
Qed.

End Rules.

(** ** The driver in a cooperative world *)

Module RunnerFacts.
Import Paths Py Runner Worlds Rules.
Local Open Scope string_scope.


Section Cooperative.

Variable w : world.
Hypothesis Hw : cooperative w.

Lemma unguarded_step m a k :
  guarded_method m = false -> succeeds (ask w (mapdl m a k)).
Proof.
  intros Hm. apply succeeds_ask. intros n.
  now apply (unguarded_commands_answer w Hw).
Qed.

Ltac straight_line :=
  repeat first
    [ apply succeeds_ret
    | apply succeeds_lift
    | apply unguarded_step; reflexivity
    | apply succeeds_bind; [| intros ?] ].

(** With a count of the data model the arithmetic of line 58 goes through,
    and the body of the loop completes. *)
Lemma vane_succeeds (n : Z) (t : float) (i : Z) :
  (0 <= i < n)%Z -> (n <= 2 ^ 53)%Z ->
  succeeds (vane w (VInt n) (VFloat t) i).
Proof.
  intros Hi Hn. unfold vane.
  eapply succeeds_lift_bind; [apply int_truediv_positive; lia|].
  eapply succeeds_lift_bind; [apply float_mul_index; lia|].
  eapply succeeds_lift_bind; [apply float_add_float|].
  straight_line.
Qed.

Lemma build_model_succeeds (n : Z) (t : float) :
  (n <= 2 ^ 53)%Z -> succeeds (build_model w (VInt n) (VFloat t)).
Proof.
  intros Hn. unfold build_model. simpl py_range.
  do 12 (apply succeeds_bind; [apply unguarded_step; reflexivity | intros ?]).
  eapply succeeds_lift_bind; [reflexivity|].
  apply succeeds_bind.
  { apply succeeds_for_each_in. intros i Hi.
    apply vane_succeeds; [now apply range_member | exact Hn]. }
  intros _. straight_line.
Qed.

Lemma solve_load_steps_succeeds heat_flux :
  succeeds (solve_load_steps w heat_flux).
Proof. unfold solve_load_steps. straight_line. Qed.

Lemma read_parameters_in_data_model params :
  in_data_model params ->
  exists (n : Z) (t h : float),
    (n <= 2 ^ 53)%Z /\
    forall s, read_parameters params s = (s, Ok (VInt n, VFloat t, VFloat h)).
Proof.
  intros (n & t & h & Hn & Hle & Ht & Hh). exists n, t, h.
  split; [exact Hle|]. intros s.
  unfold read_parameters, getitem. rewrite Hn, Ht, Hh. reflexivity.
Qed.

End Cooperative.

(** The mesh plot sits in [try: ... except: pass]: it completes whatever
    the world answers. *)
Lemma save_input_image_eq w run_id dir s :
  save_input_image w run_id dir s = (log (eplot run_id dir) s, Ok tt).
Proof.
  unfold save_input_image, try_except, mbind, M_bind. rewrite ask_eq.
  now destruct (w _ _).
Qed.

Section Extraction.

Variable w : world.
Hypothesis Hw : cooperative w.

Lemma length_log c s : length (trace (log c s)) = S (length (trace s)).
Proof. unfold log. simpl. rewrite length_app. simpl. lia. Qed.

(** The [try] block always completes in a cooperative world, and leaves a
    float in [peak_temperature]: the extracted one, or the initial
    not-a-number when the sort or the extraction raised. *)
Lemma extract_and_plot_outcome run_id dir s :
  peak_temperature s = VFloat nan ->
  exists s' f,
    extract_and_plot w run_id dir s = (s', Ok tt) /\
    peak_temperature s' = VFloat f /\
    (f = nan /\ (exists n e, w n nsort = Raise e \/ w n get_max = Raise e)
     \/ exists n v, w n nsort = Ok v /\ w (S n) get_max = Ok (VFloat f)).
Proof.
  intros Hpeak.
  unfold extract_and_plot, try_except, mbind, M_bind, except_Exception.
  rewrite ask_eq.
  destruct (w (length (trace s)) nsort) as [v1|e1] eqn:E1.
  - rewrite ask_eq, length_log.
    destruct (w (S (length (trace s))) get_max) as [v2|e2] eqn:E2.
    + destruct (extraction_is_float w Hw _ _ _ _ E2) as [f ->].
      unfold set_peak_temperature. rewrite ask_eq.
      destruct (w _ (plot_nodal_temperature run_id dir)) as [v3|e3] eqn:E3.
      * eexists _, f. split; [reflexivity|]. split; [reflexivity|].
        right. eauto.
      * rewrite (raises_exceptions_only w Hw _ _ _ E3).
        eexists _, f. split; [reflexivity|]. split; [reflexivity|].
        right. eauto.
    + rewrite (raises_exceptions_only w Hw _ _ _ E2).
      eexists _, nan. split; [reflexivity|]. split; [exact Hpeak|].
      left. eauto.
  - rewrite (raises_exceptions_only w Hw _ _ _ E1).
    eexists _, nan. split; [reflexivity|]. split; [exact Hpeak|].
    left. eauto.
Qed.

Lemma post_processing_outcome run_id dir s :
  exists s' f,
    post_processing w run_id dir s = (s', Ok tt) /\
    peak_temperature s' = VFloat f /\
    (f = nan /\ (exists n e, w n nsort = Raise e \/ w n get_max = Raise e)
     \/ exists n v, w n nsort = Ok v /\ w (S n) get_max = Ok (VFloat f)).
Proof.
  unfold post_processing.
  destruct (unguarded_step w Hw "finish" [] [] eq_refl s) as (s1 & v1 & E1).
  rewrite (bind_Ok _ _ _ _ _ E1).
  destruct (unguarded_step w Hw "post1" [] [] eq_refl s1) as (s2 & v2 & E2).
  rewrite (bind_Ok _ _ _ _ _ E2).
  destruct (unguarded_step w Hw "set" [] [("time", Lit (VFloat braking_time))]
              eq_refl s2) as (s3 & v3 & E3).
  rewrite (bind_Ok _ _ _ _ _ E3).
  rewrite (bind_Ok _ _ _ {| trace := trace s3; peak_temperature := VFloat nan |}
             tt eq_refl).
  now apply extract_and_plot_outcome.
Qed.

(** Shutdown, timestamp and the final dictionary. *)
Lemma finish_outcome run_id s (f : float) :
  peak_temperature s = VFloat f ->
  exists s' now,
    finish w run_id s = (s', Ok (final_record run_id (VFloat f) (is_nan f) now)) /\
    trace s' = (trace s ++ [exit_command;
                            datetime_now_strftime timestamp_format])%list.
Proof.
  intros Hpeak. unfold finish.
  destruct (unguarded_commands_answer w Hw (length (trace s)) "exit" [] []
              eq_refl) as [v1 E1].
  rewrite (ask_bind_Ok _ _ _ _ _ E1).
  destruct (host_answers w Hw (length (trace (log exit_command s)))
              (datetime_now_strftime timestamp_format) eq_refl) as [now E2].
  rewrite (ask_bind_Ok _ _ _ _ _ E2).
  unfold mbind, M_bind, get_peak_temperature, lift. simpl.
  rewrite Hpeak. simpl.
  eexists _, now. split; [reflexivity|].
  simpl. now rewrite <- app_assoc.
Qed.

(** Everything after a successful launch, for a parameter set of the data
    model. *)
Lemma after_launch_outcome run_id params dir s :
  in_data_model params ->
  exists s' f now,
    after_launch w run_id params dir s
      = (s', Ok (final_record run_id (VFloat f) (is_nan f) now)) /\
    (exists t, trace s' = (t ++ [exit_command;
                                 datetime_now_strftime timestamp_format])%list) /\
    (f = nan /\ (exists n e, w n nsort = Raise e \/ w n get_max = Raise e)
     \/ exists n v, w n nsort = Ok v /\ w (S n) get_max = Ok (VFloat f)).
Proof.
  intros Hp. unfold after_launch.
  destruct (read_parameters_in_data_model params Hp)
    as (n & t & h & Hle & Hread).
  rewrite (bind_Ok _ _ _ _ _ (Hread s)).
  destruct (build_model_succeeds w Hw n t Hle s) as (s1 & [] & E1).
  rewrite (bind_Ok _ _ _ _ _ E1).
  rewrite (bind_Ok _ _ _ _ _ (save_input_image_eq w run_id dir s1)).
  destruct (solve_load_steps_succeeds w Hw (VFloat h) (log (eplot run_id dir) s1))
    as (s2 & [] & E2).
  rewrite (bind_Ok _ _ _ _ _ E2).
  destruct (post_processing_outcome run_id dir s2) as (s3 & f & E3 & Hf & Hcase).
  rewrite (bind_Ok _ _ _ _ _ E3).
  destruct (finish_outcome run_id s3 f Hf) as (s4 & now & E4 & Ht).
  exists s4, f, now. repeat split; eauto.
Qed.

End Extraction.

(** *** Setup and launch *)

Section Launch.

Variable w : world.
Hypothesis Hhost : host_ok w.

Lemma setup_environment_outcome run_id base s :
  exists s' new,
    setup_environment w run_id base s = (s', Ok (simulation_path base run_id)) /\
    trace s' = (trace s ++ new)%list /\
    Forall (fun c => host_call c = true) new /\
    peak_temperature s' = peak_temperature s.
Proof.
  unfold setup_environment.
  destruct (Hhost (length (trace s))
              (os_path_exists (simulation_path base run_id)) eq_refl)
    as [found E1].
  fold (simulation_dir_name run_id). fold (simulation_path base run_id).
  rewrite (ask_bind_Ok _ _ _ _ _ E1).
  destruct (truthy found); simpl negb; cbv iota.
  - eexists _, _. split; [reflexivity|]. split; [reflexivity|].
    split; [|reflexivity]. repeat constructor.
  - destruct (Hhost (length (trace (log (os_path_exists
                (simulation_path base run_id)) s)))
                (os_makedirs (simulation_path base run_id)) eq_refl)
      as [made E2].
    unfold mbind at 1, M_bind at 1. unfold mbind at 1, M_bind at 1.
    rewrite ask_eq, E2.
    eexists _, [_; _]. split; [reflexivity|].
    split; [simpl; now rewrite <- app_assoc|].
    split; [|reflexivity]. repeat constructor.
Qed.

Lemma launch_Ok path s v :
  w (length (trace s)) (launch_mapdl path jobname true true) = Ok v ->
  launch w path s = (log (launch_mapdl path jobname true true) s, Ok None).
Proof.
  intros E. unfold launch, try_except. now rewrite (ask_bind_Ok _ _ _ _ _ E).
Qed.

Lemma launch_Raise path s e :
  w (length (trace s)) (launch_mapdl path jobname true true) = Raise e ->
  is_Exception e = true ->
  exists now,
    launch w path s
    = (log (datetime_now_strftime timestamp_format)
         (log (launch_mapdl path jobname true true) s),
       Ok (Some (launch_failed_record now))).
Proof.
  intros E He. unfold launch, try_except.
  rewrite (ask_bind_Raise _ _ _ _ _ E). unfold except_Exception. rewrite He.
  destruct (Hhost (length (trace (log (launch_mapdl path jobname true true) s)))
              (datetime_now_strftime timestamp_format) eq_refl) as [now E2].
  exists now. now rewrite (ask_bind_Ok _ _ _ _ _ E2).
Qed.

End Launch.

(** *** What a returned dictionary can be, in any world *)

Lemma launch_record_inv w path s s' r :
  launch w path s = (s', Ok (Some r)) -> exists now, r = launch_failed_record now.
Proof.
  unfold launch, try_except, mbind, M_bind. rewrite ask_eq.
  destruct (w _ _) as [v|e]; [discriminate|].
  destruct (except_Exception e); [|discriminate].
  rewrite ask_eq. destruct (w _ _) as [now|e']; [|discriminate].
  intros [= _ <-]. now exists now.
Qed.

Lemma finish_record_inv w run_id s s' r :
  finish w run_id s = (s', Ok r) ->
  exists peak isnan now,
    np_isnan peak = Ok isnan /\ r = final_record run_id peak isnan now /\
    trace s' = (trace s ++ [exit_command;
                            datetime_now_strftime timestamp_format])%list.
Proof.
  unfold finish, mbind, M_bind. rewrite ask_eq.
  destruct (w _ _) as [v|e]; [|discriminate].
  rewrite ask_eq. destruct (w _ _) as [now|e]; [|discriminate].
  unfold get_peak_temperature, lift. simpl.
  destruct (np_isnan (peak_temperature s)) as [isnan|e] eqn:E; [|discriminate].
  intros [= <- <-]. exists (peak_temperature s), isnan, now.
  repeat split; [exact E|]. simpl. now rewrite <- app_assoc.
Qed.

Lemma after_launch_record_inv w run_id params dir s s' r :
  after_launch w run_id params dir s = (s', Ok r) ->
  exists peak isnan now t,
    np_isnan peak = Ok isnan /\ r = final_record run_id peak isnan now /\
    trace s' = (t ++ [exit_command;
                      datetime_now_strftime timestamp_format])%list.
Proof.
  unfold after_launch. intros H.
  apply bind_Ok_inv in H as (s1 & [[vc vt] hf] & _ & H).
  apply bind_Ok_inv in H as (s2 & [] & _ & H).
  apply bind_Ok_inv in H as (s3 & [] & _ & H).
  apply bind_Ok_inv in H as (s4 & [] & _ & H).
  apply bind_Ok_inv in H as (s5 & [] & _ & H).
  apply finish_record_inv in H as (peak & isnan & now & E & -> & Ht).
  exists peak, isnan, now, (trace s5). auto.
Qed.

Lemma run_record_inv w run_id params base dir s s' r :
  run_single_simulation w run_id params base dir s = (s', Ok r) ->
  (exists now, r = launch_failed_record now) \/
  (exists peak isnan now t,
     np_isnan peak = Ok isnan /\ r = final_record run_id peak isnan now /\
     trace s' = (t ++ [exit_command;
                       datetime_now_strftime timestamp_format])%list).
Proof.
  unfold run_single_simulation. intros H.
  apply bind_Ok_inv in H as (s1 & path & _ & H).
  apply bind_Ok_inv in H as (s2 & [early|] & Hl & H).
  - left. injection H as _ <-. eapply launch_record_inv, Hl.
  - right. eapply after_launch_record_inv, H.
Qed.

Lemma np_isnan_value v b : np_isnan v = Ok b -> b = is_nan_value v.
Proof.
  destruct v as [| |z| | |]; simpl; try discriminate; try congruence.
  destruct (_ && _); [congruence | discriminate].
Qed.

(** *** Rendering is invisible to the rest of the run *)

Lemma plot_is_render run_id dir :
  is_render (plot_nodal_temperature run_id dir) = true.
Proof. reflexivity. Qed.

Section Rendering.

Variables w1 w2 : world.
Hypothesis Hsame : same_but_rendering w1 w2.
Hypothesis Hexc1 : plot_failures_are_exceptions w1.
Hypothesis Hexc2 : plot_failures_are_exceptions w2.

Ltac lockstep :=
  repeat first
    [ apply agree_refl
    | apply agree_ask; [exact Hsame | reflexivity]
    | apply agree_bind; [| intros ?] ].

Lemma vane_agree vc vt i : agree (vane w1 vc vt i) (vane w2 vc vt i).
Proof. unfold vane. lockstep. Qed.

Lemma build_model_agree vc vt : agree (build_model w1 vc vt) (build_model w2 vc vt).
Proof.
  unfold build_model.
  repeat (apply agree_bind;
          [first [ apply agree_ask; [exact Hsame | reflexivity]
                 | apply agree_for_each; intros; apply vane_agree
                 | apply agree_refl ]
          | intros ? ]).
  apply agree_refl.
Qed.

Lemma solve_load_steps_agree h :
  agree (solve_load_steps w1 h) (solve_load_steps w2 h).
Proof. unfold solve_load_steps. lockstep. Qed.

Lemma save_input_image_agree run_id dir :
  agree (save_input_image w1 run_id dir) (save_input_image w2 run_id dir).
Proof. intros s. now rewrite !save_input_image_eq. Qed.

Lemma extract_and_plot_agree run_id dir :
  agree (extract_and_plot w1 run_id dir) (extract_and_plot w2 run_id dir).
Proof.
  intros s.
  unfold extract_and_plot, try_except, mbind, M_bind, except_Exception.
  rewrite ?ask_eq. rewrite (Hsame _ nsort eq_refl).
  destruct (w2 _ nsort) as [v1|e1]; [|reflexivity].
  rewrite ?ask_eq. rewrite (Hsame _ get_max eq_refl).
  destruct (w2 _ get_max) as [v2|e2]; [|reflexivity].
  unfold set_peak_temperature. rewrite ?ask_eq.
  destruct (w1 _ (plot_nodal_temperature run_id dir)) as [a1|x1] eqn:E1;
    destruct (w2 _ (plot_nodal_temperature run_id dir)) as [a2|x2] eqn:E2;
    try rewrite (Hexc1 _ _ _ _ E1);
    try rewrite (Hexc2 _ _ _ _ E2);
    reflexivity.
Qed.

Lemma post_processing_agree run_id dir :
  agree (post_processing w1 run_id dir) (post_processing w2 run_id dir).
Proof.
  unfold post_processing.
  repeat (apply agree_bind;
          [first [ apply agree_ask; [exact Hsame | reflexivity]
                 | apply agree_refl ]
          | intros ? ]).
  apply extract_and_plot_agree.
Qed.

Lemma finish_agree run_id : agree (finish w1 run_id) (finish w2 run_id).
Proof. unfold finish. lockstep. Qed.

Lemma run_single_simulation_agree run_id params base dir :
  agree (run_single_simulation w1 run_id params base dir)
        (run_single_simulation w2 run_id params base dir).
Proof.
  unfold run_single_simulation, setup_environment, launch.
  apply agree_bind.
  { apply agree_bind; [apply agree_ask; [exact Hsame | reflexivity]|].
    intros found. apply agree_bind; [|intros ?; apply agree_refl].
    destruct (negb (truthy found)); lockstep. }
  intros path. apply agree_bind.
  { apply agree_try_except; [lockstep | intros e; lockstep]. }
  intros [early|]; [apply agree_refl|].
  unfold after_launch. apply agree_bind; [apply agree_refl|].
  intros [[vc vt] hf].
  apply agree_bind; [apply build_model_agree | intros _].
  apply agree_bind; [apply save_input_image_agree | intros _].
  apply agree_bind; [apply solve_load_steps_agree | intros _].
  apply agree_bind; [apply post_processing_agree | intros _].
  apply finish_agree.
Qed.

End Rendering.

End RunnerFacts.

(** ** The concrete environments are what they claim to be *)

Module WorldFacts.
Import Py Runner Worlds.
Local Open Scope string_scope.

Lemma quiet_answers n c : exists v, quiet n c = Ok v.
Proof.
  destruct c as [| | | |m args kwargs|]; simpl; eauto.
  repeat match goal with
         | |- context [if ?b then _ else _] => destruct b
         end; eauto.
Qed.

Lemma quiet_never_raises n c e : quiet n c <> Raise e.
Proof. destruct (quiet_answers n c) as [v ->]. discriminate. Qed.

Lemma quiet_extraction n a k v :
  quiet n (mapdl "get_value" a k) = Ok v -> exists f, v = VFloat f.
Proof.
  simpl. destruct (first_argument_is _ _); intros [= <-]; eauto.
Qed.

Lemma quiet_host_ok : host_ok quiet.
Proof. intros n c _. apply quiet_answers. Qed.

Lemma quiet_launch_succeeds : launch_succeeds quiet.
Proof. intros n c _. apply quiet_answers. Qed.

Lemma quiet_cooperative : cooperative quiet.
Proof.
  split.
  - apply quiet_host_ok.
  - intros. apply quiet_answers.
  - intros n c e H. now apply quiet_never_raises in H.
  - apply quiet_extraction.
Qed.


(** Making a guarded solver method, or the launch, fail with an
    [Exception] keeps a world cooperative. *)
Lemma calls_only_guarded method :
  guarded_method method = true -> only_guarded (calls method).
Proof.
  intros Hg [| | | |m a k|]; simpl; try discriminate.
  intros E. apply String.eqb_eq in E. subst m. auto.
Qed.

Lemma failing_cooperative hit e w :
  only_guarded hit -> is_Exception e = true ->
  cooperative w -> cooperative (failing hit e w).
Proof.
  intros Hhit He Hw. unfold failing. split.
  - intros n c Hc. destruct (hit c) eqn:E.
    + apply Hhit in E as [E _]. congruence.
    + now apply (host_answers w Hw).
  - intros n m a k Hm. destruct (hit (mapdl m a k)) eqn:E.
    + apply Hhit in E as [_ E]. congruence.
    + now apply (unguarded_commands_answer w Hw).
  - intros n c e'. destruct (hit c).
    + now intros [= <-].
    + apply (raises_exceptions_only w Hw).
  - intros n a k v. destruct (hit _); [discriminate|].
    apply (extraction_is_float w Hw).
Qed.

Lemma failing_launch_succeeds method e w :
  launch_succeeds w -> launch_succeeds (failing (calls method) e w).
Proof.
  intros Hw n c Hc. unfold failing.
  destruct c; try discriminate. simpl. now apply Hw.
Qed.

Lemma failing_always_raises hit e w c :
  hit c = true -> always_raises (failing hit e w) c e.
Proof. intros H n. unfold failing. now rewrite H. Qed.

Lemma failing_launch_fails e w : launch_fails (failing is_launch e w) e.
Proof. intros n c Hc. unfold failing. now rewrite Hc. Qed.

Lemma failing_host_ok hit e w :
  (forall c, hit c = true -> host_call c = false) ->
  host_ok w -> host_ok (failing hit e w).
Proof.
  intros Hhit Hw n c Hc. unfold failing. destruct (hit c) eqn:E.
  - apply Hhit in E. congruence.
  - now apply Hw.
Qed.

Lemma time_test_params_in_data_model : in_data_model time_test_params.
Proof.
  exists 54%Z, 2.5%float, 1.9e6%float. repeat split; try reflexivity.
  vm_compute. discriminate.
Qed.

End WorldFacts.

(** ** What the driver issues, in any world *)

Module TraceFacts.
Import Paths Py Runner Worlds Observations Rules RunnerFacts WorldFacts.
Local Open Scope string_scope.

Ltac in_list := simpl; solve [repeat (first [left; reflexivity | right])].

Ltac by_method Hin :=
  simpl in Hin; repeat (destruct Hin as [<-|Hin]; [reflexivity|]); destruct Hin.

Ltac kept_step H :=
  lazymatch goal with
  | |- issues _ (_ ≫= _) => apply issues_bind; [| intros ?]
  | |- issues _ (ask _ (mapdl _ _ _)) => apply issues_ask; apply H; in_list
  | |- issues _ (try_except _ _ _) => apply issues_try_except; [| intros ?]
  | |- issues _ (mret _) => apply issues_ret
  | |- issues _ (lift _) => apply issues_lift
  | |- issues _ (raise _) => apply issues_raise
  | |- issues _ get_peak_temperature => apply issues_get_peak_temperature
  | |- issues _ (set_peak_temperature _) => apply issues_set_peak_temperature
  end.

Lemma tally_app hit (t1 t2 : list call) :
  tally hit (t1 ++ t2) = (tally hit t1 + tally hit t2)%nat.
Proof. unfold tally. now rewrite List.filter_app, length_app. Qed.

Lemma tally_none hit (t : list call) :
  Forall (fun c => hit c = false) t -> tally hit t = 0%nat.
Proof.
  induction 1 as [|c t Hc _ IH]; [reflexivity|].
  unfold tally in *. simpl. now rewrite Hc.
Qed.

Lemma tally_zero_Forall hit (t : list call) :
  tally hit t = 0%nat -> Forall (fun c => hit c = false) t.
Proof.
  induction t as [|c t IH]; [constructor|].
  unfold tally in *. simpl. destruct (hit c) eqn:E; [discriminate|].
  intros H. constructor; auto.
Qed.

Lemma read_parameters_cases (params : dict) :
  (exists vc vt hf,
     params !! "vane_count" = Some vc /\
     params !! "vane_thickness_deg" = Some vt /\
     params !! "heat_flux" = Some hf /\
     forall s, read_parameters params s = (s, Ok (vc, vt, hf))) \/
  (exists key,
     params !! key = None /\
     forall s, read_parameters params s = (s, Raise (KeyError key))).
Proof.
  unfold read_parameters, getitem.
  destruct (params !! "vane_count") as [vc|] eqn:E1.
  - destruct (params !! "vane_thickness_deg") as [vt|] eqn:E2.
    + destruct (params !! "heat_flux") as [hf|] eqn:E3.
      * left. exists vc, vt, hf. auto.
      * right. exists "heat_flux". auto.
    + right. exists "vane_thickness_deg". auto.
  - right. exists "vane_count". auto.
Qed.

Lemma issues_lift_bind {A B} P (r : result A) (k : A -> M B) :
  (forall a, r = Ok a -> issues P (k a)) -> issues P (lift r ≫= k).
Proof.
  intros H s. unfold mbind, M_bind, lift. destruct r as [a|e].
  - now apply H.
  - exists []. simpl. now rewrite app_nil_r.
Qed.

Section Kept.

Variable w : world.
Variable keep : call -> bool.

Lemma vane_keeps vc vt i :
  keeps_methods keep vane_methods -> keeps keep (vane w vc vt i).
Proof. intros H. unfold keeps, vane. repeat kept_step H. Qed.

(** The ring geometry, lines 48-55. *)
Lemma build_model_keeps vc vt :
  keeps_methods keep ring_methods ->
  keeps_methods keep mesh_methods ->
  (forall indices, py_range vc = Ok indices ->
     keeps keep (for_each indices (vane w vc vt))) ->
  keeps keep (build_model w vc vt).
Proof.
  intros Hring Hmesh Hloop. unfold keeps, build_model.
  repeat (apply issues_bind; [apply issues_ask; apply Hring; in_list | intros ?]).
  apply issues_lift_bind. intros indices E.
  apply issues_bind; [now apply Hloop | intros _].
  repeat kept_step Hmesh.
Qed.

Lemma save_input_image_keeps run_id dir :
  keeps_methods keep ["eplot"] -> keeps keep (save_input_image w run_id dir).
Proof.
  intros H s. exists [eplot run_id dir]. rewrite save_input_image_eq.
  split; [reflexivity|]. repeat constructor. apply H. in_list.
Qed.

Lemma solve_load_steps_keeps hf :
  keeps_methods keep solve_methods -> keeps keep (solve_load_steps w hf).
Proof. intros H. unfold keeps, solve_load_steps. repeat kept_step H. Qed.

Lemma post_processing_keeps run_id dir :
  keeps_methods keep post_methods -> keeps keep (post_processing w run_id dir).
Proof.
  intros H. unfold keeps, post_processing, extract_and_plot, nsort, get_max,
    plot_nodal_temperature.
  repeat kept_step H.
Qed.

Lemma finish_keeps run_id :
  keep exit_command = true ->
  keep (datetime_now_strftime timestamp_format) = true ->
  keeps keep (finish w run_id).
Proof.
  intros Hexit Hclock. unfold keeps, finish.
  apply issues_bind; [now apply issues_ask | intros ?].
  apply issues_bind; [now apply issues_ask | intros ?].
  repeat kept_step Hexit.
Qed.

Lemma after_launch_split run_id params dir vc vt hf s :
  read_parameters params s = (s, Ok (vc, vt, hf)) ->
  after_launch w run_id params dir s
  = (working_part w run_id vc vt hf dir ≫= fun _ => finish w run_id) s.
Proof.
  intros E. unfold after_launch, working_part.
  rewrite (bind_Ok _ _ _ _ _ E).
  unfold mbind, M_bind.
  destruct (build_model w vc vt s) as [s1 [[]|e1]]; [|reflexivity].
  destruct (save_input_image w run_id dir s1) as [s2 [[]|e2]]; [|reflexivity].
  destruct (solve_load_steps w hf s2) as [s3 [[]|e3]]; [|reflexivity].
  destruct (post_processing w run_id dir s3) as [s4 [[]|e4]]; reflexivity.
Qed.

Lemma working_part_keeps run_id vc vt hf dir :
  keeps_methods keep ring_methods ->
  keeps_methods keep mesh_methods ->
  (forall indices, py_range vc = Ok indices ->
     keeps keep (for_each indices (vane w vc vt))) ->
  keeps_methods keep ["eplot"] ->
  keeps_methods keep solve_methods ->
  keeps_methods keep post_methods ->
  keeps keep (working_part w run_id vc vt hf dir).
Proof.
  intros Hring Hmesh Hloop Heplot Hsolve Hpost. unfold keeps, working_part.
  apply issues_bind; [now apply build_model_keeps | intros _].
  apply issues_bind; [now apply save_input_image_keeps | intros _].
  apply issues_bind; [now apply solve_load_steps_keeps | intros _].
  now apply post_processing_keeps.
Qed.

Lemma keeps_methods_app l1 l2 :
  keeps_methods keep (l1 ++ l2) ->
  keeps_methods keep l1 /\ keeps_methods keep l2.
Proof.
  intros H. split; intros m a k Hin; apply H, in_or_app; auto.
Qed.

Lemma working_part_keeps_all run_id vc vt hf dir :
  keeps_methods keep working_methods ->
  keeps keep (working_part w run_id vc vt hf dir).
Proof.
  intros H. unfold working_methods in H.
  apply keeps_methods_app in H as [Hring H].
  apply keeps_methods_app in H as [Hvane H].
  apply keeps_methods_app in H as [Hmesh H].
  apply keeps_methods_app in H as [Heplot H].
  apply keeps_methods_app in H as [Hsolve Hpost].
  apply working_part_keeps; try assumption.
  intros indices _. apply issues_for_each. intros i. now apply vane_keeps.
Qed.

Lemma after_launch_keeps run_id params dir :
  keeps_methods keep working_methods ->
  keep exit_command = true ->
  keep (datetime_now_strftime timestamp_format) = true ->
  keeps keep (after_launch w run_id params dir).
Proof.
  intros Hwork Hexit Hclock s.
  destruct (read_parameters_cases params)
    as [(vc & vt & hf & _ & _ & _ & E)|(key & _ & E)].
  - rewrite (after_launch_split _ _ _ _ _ _ _ (E s)).
    revert s. apply issues_bind.
    + now apply working_part_keeps_all.
    + intros _. now apply finish_keeps.
  - unfold after_launch. rewrite (bind_Raise _ _ _ _ _ (E s)).
    exists []. simpl. now rewrite app_nil_r.
Qed.

Lemma launch_keeps path :
  keep (launch_mapdl path jobname true true) = true ->
  keep (datetime_now_strftime timestamp_format) = true ->
  keeps keep (launch w path).
Proof.
  intros Hl Hc. unfold keeps, launch.
  apply issues_try_except.
  - apply issues_bind; [now apply issues_ask | intros ?; apply issues_ret].
  - intros e. apply issues_bind; [now apply issues_ask | intros ?; apply issues_ret].
Qed.

Lemma setup_environment_keeps run_id base :
  keep (os_path_exists (simulation_path base run_id)) = true ->
  keep (os_makedirs (simulation_path base run_id)) = true ->
  keeps keep (setup_environment w run_id base).
Proof.
  intros He Hm. unfold keeps, setup_environment.
  apply issues_bind; [now apply issues_ask | intros found].
  apply issues_bind; [| intros ?; apply issues_ret].
  destruct (negb (truthy found)).
  - apply issues_bind; [now apply issues_ask | intros ?; apply issues_ret].
  - apply issues_ret.
Qed.

Lemma launched_part_keeps run_id params path dir :
  keep (launch_mapdl path jobname true true) = true ->
  keeps_methods keep working_methods ->
  keep exit_command = true ->
  keep (datetime_now_strftime timestamp_format) = true ->
  keeps keep (launched_part w run_id params path dir).
Proof.
  intros Hl Hwork Hexit Hclock. unfold keeps, launched_part.
  apply issues_bind; [now apply launch_keeps|].
  intros [record|]; [apply issues_ret | now apply after_launch_keeps].
Qed.

Lemma run_single_simulation_keeps run_id params base dir :
  (forall c, host_call c = true -> keep c = true) ->
  (forall c, is_launch c = true -> keep c = true) ->
  (forall c, is_solver_command c = true -> keep c = true) ->
  keeps keep (run_single_simulation w run_id params base dir).
Proof.
  intros Hhost Hlaunch Hsolver. unfold keeps, run_single_simulation.
  apply issues_bind.
  - apply setup_environment_keeps; now apply Hhost.
  - intros path. apply (launched_part_keeps run_id params path dir).
    + now apply Hlaunch.
    + intros m a k _. now apply Hsolver.
    + now apply Hsolver.
    + now apply Hhost.
Qed.

End Kept.

Lemma working_methods_are_not_exit :
  keeps_methods (fun c => negb (calls "exit" c)) working_methods.
Proof. intros m a k Hin. by_method Hin. Qed.

End TraceFacts.

(** ** Exceptions that no handler covers *)

Module Propagation.
Import Paths Py Runner Worlds Observations Rules RunnerFacts TraceFacts.
Local Open Scope string_scope.

Section Stops.

Variable w : world.

Lemma stops_at_quiet {A} catch (m : M A) :
  (forall s, trace (fst (m s)) = trace s) -> stops_at w catch m.
Proof.
  intros H s. exists []. rewrite H, app_nil_r. split; [reflexivity|].
  intros [|i] c e Hn; discriminate Hn.
Qed.

Lemma stops_at_ret {A} catch (a : A) : stops_at w catch (mret a).
Proof. now apply stops_at_quiet. Qed.

Lemma stops_at_lift {A} catch (r : result A) : stops_at w catch (lift r).
Proof. now apply stops_at_quiet. Qed.

Lemma stops_at_raise {A} catch e : stops_at w catch (@raise A e).
Proof. now apply stops_at_quiet. Qed.

Lemma stops_at_get_peak_temperature catch : stops_at w catch get_peak_temperature.
Proof. now apply stops_at_quiet. Qed.

Lemma stops_at_set_peak_temperature catch v :
  stops_at w catch (set_peak_temperature v).
Proof. now apply stops_at_quiet. Qed.

Lemma stops_at_ask catch c : stops_at w catch (ask w c).
Proof.
  intros s. exists [c]. split; [reflexivity|].
  intros [|i] c' e Hn Hc _.
  - injection Hn as <-. rewrite Nat.add_0_r in Hc. rewrite ask_eq. simpl. auto.
  - destruct i; discriminate Hn.
Qed.

Lemma stops_at_bind {A B} catch (m : M A) (k : A -> M B) :
  stops_at w catch m -> (forall a, stops_at w catch (k a)) ->
  stops_at w catch (m ≫= k).
Proof.
  intros Hm Hk s. destruct (Hm s) as (new1 & E1 & H1).
  unfold mbind, M_bind. destruct (m s) as [s1 [a|e1]]; simpl in E1, H1.
  - destruct (Hk a s1) as (new2 & E2 & H2).
    exists (new1 ++ new2)%list.
    split; [rewrite E2, E1, <- app_assoc; reflexivity|].
    intros i c e Hn Hc Hcatch.
    destruct (Nat.lt_ge_cases i (length new1)) as [Hlt|Hge].
    + rewrite nth_error_app1 in Hn by exact Hlt.
      destruct (H1 i c e Hn Hc Hcatch) as [Habs _]. discriminate Habs.
    + rewrite nth_error_app2 in Hn by exact Hge.
      destruct (H2 (i - length new1)%nat c e Hn) as [R L]; [|exact Hcatch|].
      * rewrite E1, length_app.
        replace (length (trace s) + length new1 + (i - length new1))%nat
          with (length (trace s) + i)%nat by lia.
        exact Hc.
      * split; [exact R|]. rewrite length_app. lia.
  - exists new1. split; [exact E1|]. intros i c e Hn Hc Hcatch.
    destruct (H1 i c e Hn Hc Hcatch) as [[= ->] L]. now split.
Qed.

(** A [try]: inside the body nothing is caught; what the statement as a
    whole lets through is what its [except] clause does not cover. *)
Lemma stops_at_try_except {A} catch (body : M A) catches handler :
  stops_at w nothing_caught body ->
  issues (fun c => forall e, catch c e = false -> catches e = false) body ->
  (forall e, stops_at w catch (handler e)) ->
  stops_at w catch (try_except body catches handler).
Proof.
  intros Hb Hi Hh s. destruct (Hb s) as (new1 & E1 & H1).
  destruct (Hi s) as (new1' & E1' & HP).
  assert (new1' = new1) as ->
    by (rewrite E1 in E1'; now apply app_inv_head in E1').
  unfold try_except. destruct (body s) as [s1 [a|e1]]; simpl in E1, H1.
  - exists new1. split; [exact E1|]. intros i c e Hn Hc _.
    destruct (H1 i c e Hn Hc eq_refl) as [Habs _]. discriminate Habs.
  - destruct (catches e1) eqn:C.
    + destruct (Hh e1 s1) as (new2 & E2 & H2).
      exists (new1 ++ new2)%list.
      split; [rewrite E2, E1, <- app_assoc; reflexivity|].
      intros i c e Hn Hc Hcatch.
      destruct (Nat.lt_ge_cases i (length new1)) as [Hlt|Hge].
      * rewrite nth_error_app1 in Hn by exact Hlt.
        destruct (H1 i c e Hn Hc eq_refl) as [[= ->] _].
        apply nth_error_In in Hn.
        rewrite List.Forall_forall in HP. rewrite (HP c Hn e Hcatch) in C.
        discriminate C.
      * rewrite nth_error_app2 in Hn by exact Hge.
        destruct (H2 (i - length new1)%nat c e Hn) as [R L]; [|exact Hcatch|].
        -- rewrite E1, length_app.
           replace (length (trace s) + length new1 + (i - length new1))%nat
             with (length (trace s) + i)%nat by lia.
           exact Hc.
        -- split; [exact R|]. rewrite length_app. lia.
    + exists new1. split; [exact E1|]. intros i c e Hn Hc _.
      exact (H1 i c e Hn Hc eq_refl).
Qed.

Lemma stops_at_for_each {A} catch (xs : list A) (body : A -> M unit) :
  (forall x, stops_at w catch (body x)) -> stops_at w catch (for_each xs body).
Proof.
  intros H. induction xs as [|x xs IH]; simpl.
  - apply stops_at_ret.
  - apply stops_at_bind; [apply H | intros _; exact IH].
Qed.

Ltac stop :=
  repeat lazymatch goal with
  | |- stops_at _ _ (_ ≫= _) => apply stops_at_bind; [| intros ?]
  | |- stops_at _ _ (ask _ _) => apply stops_at_ask
  | |- stops_at _ _ (mret _) => apply stops_at_ret
  | |- stops_at _ _ (lift _) => apply stops_at_lift
  | |- stops_at _ _ (raise _) => apply stops_at_raise
  | |- stops_at _ _ get_peak_temperature => apply stops_at_get_peak_temperature
  | |- stops_at _ _ (set_peak_temperature _) =>
      apply stops_at_set_peak_temperature
  end.

Lemma vane_stops_at catch vc vt i : stops_at w catch (vane w vc vt i).
Proof. unfold vane. stop. Qed.

Lemma build_model_stops_at catch vc vt : stops_at w catch (build_model w vc vt).
Proof.
  unfold build_model.
  do 13 (apply stops_at_bind; [stop | intros ?]).
  apply stops_at_bind;
    [apply stops_at_for_each; intros i; apply vane_stops_at | intros _].
  stop.
Qed.

Lemma solve_load_steps_stops_at catch hf :
  stops_at w catch (solve_load_steps w hf).
Proof. unfold solve_load_steps. stop. Qed.

Lemma save_input_image_stops_at run_id dir :
  stops_at w caught (save_input_image w run_id dir).
Proof.
  unfold save_input_image. apply stops_at_try_except.
  - stop.
  - apply issues_bind; [apply issues_ask | intros ?; apply issues_ret].
    intros e H. discriminate H.
  - intros e. apply stops_at_ret.
Qed.

Lemma extract_and_plot_stops_at run_id dir :
  stops_at w caught (extract_and_plot w run_id dir).
Proof.
  unfold extract_and_plot. apply stops_at_try_except.
  - stop.
  - repeat lazymatch goal with
    | |- issues _ (_ ≫= _) => apply issues_bind; [| intros ?]
    | |- issues _ (ask _ _) => apply issues_ask; intros e H; exact H
    | |- issues _ (mret _) => apply issues_ret
    | |- issues _ (set_peak_temperature _) => apply issues_set_peak_temperature
    end.
  - intros e. apply stops_at_ret.
Qed.

Lemma launch_stops_at path : stops_at w caught (launch w path).
Proof.
  unfold launch. apply stops_at_try_except.
  - stop.
  - apply issues_bind; [apply issues_ask | intros ?; apply issues_ret].
    intros e H. exact H.
  - intros e. stop.
Qed.

Lemma run_single_simulation_stops_at run_id params base dir :
  stops_at w caught (run_single_simulation w run_id params base dir).
Proof.
  unfold run_single_simulation. apply stops_at_bind.
  { unfold setup_environment. apply stops_at_bind; [apply stops_at_ask|].
    intros found. destruct (negb (truthy found)); stop. }
  intros path. apply stops_at_bind; [apply launch_stops_at|].
  intros [record|]; [apply stops_at_ret|].
  unfold after_launch. apply stops_at_bind.
  { unfold read_parameters, getitem.
    destruct (params !! "vane_count"), (params !! "vane_thickness_deg"),
      (params !! "heat_flux"); stop. }
  intros [[vc vt] hf].
  apply stops_at_bind; [apply build_model_stops_at | intros _].
  apply stops_at_bind; [apply save_input_image_stops_at | intros _].
  apply stops_at_bind; [apply solve_load_steps_stops_at | intros _].
  apply stops_at_bind.
  { unfold post_processing.
    do 4 (apply stops_at_bind; [stop | intros ?]).
    apply extract_and_plot_stops_at. }
  intros _. unfold finish. stop.
Qed.

(** An interaction of a run that raises an exception no handler covers is
    the last one, and its exception is the outcome of the run. *)
Lemma uncaught_failure_leaves run_id params base dir n c e :
  nth_error (trace_of (run_single_simulation w run_id params base dir initial)) n
    = Some c ->
  w n c = Raise e -> caught c e = false ->
  result_of (run_single_simulation w run_id params base dir initial) = Raise e /\
  length (trace_of (run_single_simulation w run_id params base dir initial))
    = S n.
Proof.
  unfold trace_of, result_of.
  destruct (run_single_simulation_stops_at run_id params base dir initial)
    as (new & E & H).
  simpl in E. rewrite E. intros Hn Hc Hcatch. now apply (H n c e).
Qed.

(** *** Where the shutdown can stand *)

Lemma shuts_down_last_keeps {A} (m : M A) :
  keeps (fun c => negb (calls "exit" c)) m -> shuts_down_last m.
Proof.
  intros H s. destruct (H s) as (new & E & Hnew). exists new.
  split; [exact E|]. left.
  eapply Forall_impl; [exact Hnew|]. intros c Hc. simpl in Hc.
  now destruct (calls "exit" c).
Qed.

Lemma shuts_down_last_bind {A B} (m : M A) (k : A -> M B) :
  keeps (fun c => negb (calls "exit" c)) m ->
  (forall a, shuts_down_last (k a)) -> shuts_down_last (m ≫= k).
Proof.
  intros Hm Hk s. destruct (Hm s) as (new1 & E1 & H1).
  assert (Forall (fun c => calls "exit" c = false) new1) as H1'.
  { eapply Forall_impl; [exact H1|]. intros c Hc. simpl in Hc.
    now destruct (calls "exit" c). }
  unfold mbind, M_bind. destruct (m s) as [s1 [a|e1]]; simpl in E1.
  - destruct (Hk a s1) as (new2 & E2 & H2).
    exists (new1 ++ new2)%list.
    split; [rewrite E2, E1, <- app_assoc; reflexivity|].
    destruct H2 as [H2|(t & [->| ->])].
    + left. now apply Forall_app.
    + right. exists (new1 ++ t)%list. left. now rewrite app_assoc.
    + right. exists (new1 ++ t)%list. right. now rewrite app_assoc.
  - exists new1. split; [exact E1|]. now left.
Qed.

Lemma finish_shuts_down_last run_id : shuts_down_last (finish w run_id).
Proof.
  intros s. unfold finish, mbind, M_bind. rewrite ask_eq.
  destruct (w _ _) as [v|e].
  - exists [exit_command; datetime_now_strftime timestamp_format].
    split; [|right; exists []; now right].
    rewrite ask_eq.
    destruct (w _ _) as [now|e]; simpl;
      [destruct (np_isnan _)|]; simpl; now rewrite <- app_assoc.
  - exists [exit_command]. split; [reflexivity|]. right. exists []. now left.
Qed.

Lemma run_single_simulation_shuts_down_last run_id params base dir :
  shuts_down_last (run_single_simulation w run_id params base dir).
Proof.
  unfold run_single_simulation. apply shuts_down_last_bind.
  { now apply setup_environment_keeps. }
  intros path. apply shuts_down_last_bind; [now apply launch_keeps|].
  intros [record|]; [apply shuts_down_last_keeps, issues_ret|].
  intros s.
  destruct (read_parameters_cases params)
    as [(vc & vt & hf & _ & _ & _ & E)|(key & _ & E)].
  - rewrite (after_launch_split _ _ _ _ _ _ _ _ (E s)).
    revert s. apply shuts_down_last_bind.
    + apply working_part_keeps_all, working_methods_are_not_exit.
    + intros _. apply finish_shuts_down_last.
  - unfold after_launch. rewrite (bind_Raise _ _ _ _ _ (E s)).
    exists []. simpl. rewrite app_nil_r. split; [reflexivity|]. now left.
Qed.

Lemma unguarded_command_not_caught c e :
  unguarded_command c = true -> caught c e = false.
Proof.
  destruct c as [| | | |m a k|]; try discriminate. simpl.
  intros H. apply andb_true_iff in H as [H _].
  apply negb_true_iff in H. unfold guarded_method in H. simpl in H.
  repeat (apply orb_false_iff in H as [? H]).
  unfold caught, in_try. simpl.
  repeat match goal with E : String.eqb _ _ = false |- _ => rewrite E; clear E end.
  reflexivity.
Qed.

(** A command outside every [try] that raises ends the run, and the run
    has not shut the solver down. *)
Lemma failed_command_skips_shutdown run_id params base dir n c e :
  nth_error (trace_of (run_single_simulation w run_id params base dir initial)) n
    = Some c ->
  w n c = Raise e -> unguarded_command c = true ->
  result_of (run_single_simulation w run_id params base dir initial) = Raise e /\
  tally (calls "exit")
    (trace_of (run_single_simulation w run_id params base dir initial)) = 0%nat.
Proof.
  intros Hn Hc Hu.
  destruct (uncaught_failure_leaves run_id params base dir n c e Hn Hc
              (unguarded_command_not_caught c e Hu)) as [R L].
  split; [exact R|]. revert Hn L. unfold trace_of.
  destruct (run_single_simulation_shuts_down_last run_id params base dir initial)
    as (new & E & [Hall|(t & [->| ->])]); simpl in E; rewrite E; intros Hn L.
  - now apply tally_none.
  - exfalso. rewrite length_app in L. simpl in L.
    rewrite nth_error_app2 in Hn by lia.
    replace (n - length t)%nat with 0%nat in Hn by lia.
    injection Hn as <-. discriminate Hu.
  - exfalso. rewrite length_app in L. simpl in L.
    rewrite nth_error_app2 in Hn by lia.
    replace (n - length t)%nat with 1%nat in Hn by lia.
    injection Hn as <-. discriminate Hu.
Qed.

End Stops.

End Propagation.

(** ** Properties of the driver and of the script *)

Module Claims.
Import Paths Py Runner Worlds Observations Rules RunnerFacts WorldFacts.
Import TraceFacts Propagation.
Local Open Scope string_scope.

(** A run of [time_test.py] in which everything works. *)
Example time_test_run_succeeds :
  result_of (time_test_run quiet)
  = Ok (final_record 1 (VFloat 412.5) false test_timestamp).
Proof. vm_compute. reflexivity. Qed.

(** *** Runs whose launch succeeds *)

Lemma run_after_successful_launch
    (w : world) (run_id : Z) (params : dict) (base dir : string) :
  cooperative w -> launch_succeeds w -> in_data_model params ->
  exists s' f now t,
    run_single_simulation w run_id params base dir initial
      = (s', Ok (final_record run_id (VFloat f) (is_nan f) now)) /\
    trace s' = (t ++ [exit_command;
                      datetime_now_strftime timestamp_format])%list /\
    (f = nan /\ (exists n e, w n nsort = Raise e \/ w n get_max = Raise e)
     \/ exists n v, w n nsort = Ok v /\ w (S n) get_max = Ok (VFloat f)).
Proof.
  intros Hw Hl Hp. unfold run_single_simulation.
  destruct (setup_environment_outcome w (host_answers w Hw) run_id base initial)
    as (s1 & new & E1 & _).
  rewrite (bind_Ok _ _ _ _ _ E1).
  destruct (Hl (length (trace s1))
              (launch_mapdl (simulation_path base run_id) jobname true true)
              eq_refl) as [v Ev].
  rewrite (bind_Ok _ _ _ _ _ (launch_Ok w _ _ _ Ev)).
  destruct (after_launch_outcome w Hw run_id params dir
              (log (launch_mapdl (simulation_path base run_id) jobname
                      true true) s1) Hp)
    as (s2 & f & now & E2 & [t Ht] & Hcase).
  exists s2, f, now, t. auto.
Qed.

(** The entries of the two dictionaries. *)
Lemma final_record_fields run_id peak isnan now :
  final_record run_id peak isnan now !! "run_id" = Some (VInt run_id) /\
  final_record run_id peak isnan now !! "peak_temp" = Some peak /\
  final_record run_id peak isnan now !! "status"
    = Some (VStr (if negb isnan then "success" else "post_processing_failed")) /\
  final_record run_id peak isnan now !! "timestamp" = Some now.
Proof. repeat split; reflexivity. Qed.

Lemma launch_failed_record_fields now :
  launch_failed_record now !! "run_id" = None /\
  launch_failed_record now !! "peak_temp" = Some (VFloat nan) /\
  launch_failed_record now !! "status" = Some (VStr "launch_failed") /\
  launch_failed_record now !! "timestamp" = Some now.
Proof. repeat split; reflexivity. Qed.

(** *** C1 *)

(** C1 as stated fails: a solver command outside the three handlers that
    raises takes the whole call down with it. *)
Lemma unguarded_failure_propagates :
  result_of (time_test_run failing_clear) = Raise solver_error.
Proof. vm_compute. reflexivity. Qed.

(** C1, amended.  The driver can raise.  First, for a parameter set of the
    data model, in a world where the host and every solver command outside
    the [try] blocks answer, where whatever is raised is an [Exception] and
    where the extraction, when it answers, yields a float, the call returns
    a record, however the launch, the renderings, the sort and the
    extraction behave.  Second, in any world and for any parameter set: an
    interaction that raises an exception no handler covers (any exception of
    a host call or of a command outside the [try] blocks; an exception that
    is not an [Exception] from the launch, the sort, the extraction or the
    temperature plot) is the last interaction of the run, and the run raises
    that exception. *)
Theorem guarded_failures_are_caught
    (w : world) (run_id : Z) (params : dict) (base dir : string) :
  (cooperative w -> in_data_model params ->
   exists s' r,
     run_single_simulation w run_id params base dir initial = (s', Ok r)) /\
  (forall n c e,
     nth_error
       (trace_of (run_single_simulation w run_id params base dir initial)) n
       = Some c ->
     w n c = Raise e -> caught c e = false ->
     result_of (run_single_simulation w run_id params base dir initial)
       = Raise e /\
     length (trace_of (run_single_simulation w run_id params base dir initial))
       = S n).
Proof.
  split; [|apply uncaught_failure_leaves].
  intros Hw Hp. unfold run_single_simulation.
  destruct (setup_environment_outcome w (host_answers w Hw) run_id base initial)
    as (s1 & new & E1 & _).
  rewrite (bind_Ok _ _ _ _ _ E1).
  destruct (w (length (trace s1))
              (launch_mapdl (simulation_path base run_id) jobname true true))
    as [v|e] eqn:El.
  - rewrite (bind_Ok _ _ _ _ _ (launch_Ok w _ _ _ El)).
    destruct (after_launch_outcome w Hw run_id params dir
                (log (launch_mapdl (simulation_path base run_id) jobname
                        true true) s1) Hp)
      as (s2 & f & now & E2 & _).
    eauto.
  - destruct (launch_Raise w (host_answers w Hw) _ _ _ El
                (raises_exceptions_only w Hw _ _ _ El)) as [now E2].
    rewrite (bind_Ok _ _ _ _ _ E2). eauto.
Qed.

(** C1 amended: a world where the mesh plot and the sort fail, and the
    world where [clear], the fourth interaction, fails. *)
Lemma guarded_failures_are_caught_witness :
  (exists s' r, time_test_run failing_plots_and_sort = (s', Ok r)) /\
  result_of (time_test_run failing_clear) = Raise solver_error /\
  length (trace_of (time_test_run failing_clear)) = 4%nat.
Proof.
  split.
  - apply (proj1 (guarded_failures_are_caught failing_plots_and_sort
                    1 time_test_params base_dir image_dir)).
    + apply failing_cooperative;
        [now apply calls_only_guarded | reflexivity |].
      apply failing_cooperative;
        [now apply calls_only_guarded | reflexivity |].
      apply quiet_cooperative.
    + apply time_test_params_in_data_model.
  - apply (proj2 (guarded_failures_are_caught failing_clear
                    1 time_test_params base_dir image_dir)
             3%nat (mapdl "clear" [] []) solver_error).
    + vm_compute. reflexivity.
    + reflexivity.
    + reflexivity.
Defined.

(** The conditions of the first part are needed.  An extraction that
    answers [None] makes [np.isnan] raise on line 111; an interrupt during
    the launch is no [Exception] and passes the handler of line 28; a vane
    count that is a float makes [range] raise on line 57. *)
Example unconverted_failures :
  result_of (time_test_run none_extraction)
    = Raise (TypeError "ufunc 'isnan' not supported for the input types") /\
  result_of (time_test_run interrupted_launch)
    = Raise (BaseException "KeyboardInterrupt") /\
  result_of (run_single_simulation quiet 1 float_count_params
               base_dir image_dir initial)
    = Raise (TypeError "object cannot be interpreted as an integer").
Proof. repeat split; vm_compute; reflexivity. Qed.

(** *** C2 *)

(** C2.  The early return of the launch handler builds a dictionary of three
    entries: [run_id] is absent from it. *)
Theorem launch_failed_record_lacks_run_id :
  result_of (time_test_run refused_launch)
    = Ok (launch_failed_record test_timestamp) /\
  launch_failed_record test_timestamp !! "run_id" = None /\
  dom (launch_failed_record test_timestamp)
    = {[ "peak_temp"; "status"; "timestamp" ]}.
Proof.
  split; [vm_compute; reflexivity|].
  split; [reflexivity|].
  unfold launch_failed_record.
  rewrite !dom_insert_L, dom_singleton_L. set_solver.
Qed.

(** *** C3 *)

(** C3 as stated fails for the last operation of the block: when the
    temperature plot raises after the extraction went through, the record
    keeps the extracted value and says [success]. *)
Lemma plot_failure_keeps_success :
  (forall n, failing_plot n (plot_nodal_temperature 1 image_dir)
             = Raise solver_error) /\
  result_of (time_test_run failing_plot)
    = Ok (final_record 1 (VFloat 412.5) false test_timestamp) /\
  final_record 1 (VFloat 412.5) false test_timestamp !! "status"
    = Some (VStr "success") /\
  final_record 1 (VFloat 412.5) false test_timestamp !! "peak_temp"
    = Some (VFloat 412.5).
Proof.
  split; [reflexivity|].
  split; [vm_compute; reflexivity|].
  split; reflexivity.
Qed.

(** The record of a run whose launch succeeded, whose sort answered and
    whose extraction yielded the float [f]. *)
Lemma extracted_maximum_is_reported
    (w : world) (run_id : Z) (params : dict) (base dir : string) (f : float) :
  cooperative w -> launch_succeeds w -> in_data_model params ->
  (forall n, exists v, w n nsort = Ok v) ->
  (forall n, w n get_max = Ok (VFloat f)) ->
  exists s' now,
    run_single_simulation w run_id params base dir initial
    = (s', Ok (final_record run_id (VFloat f) (is_nan f) now)).
Proof.
  intros Hw Hl Hp Hsort Hget.
  destruct (run_after_successful_launch w run_id params base dir Hw Hl Hp)
    as (s' & f' & now & t & E & _ & Hcase).
  assert (f' = f) as ->.
  { destruct Hcase as [[_ (n & e & [H|H])]|(n & v & _ & H)].
    - destruct (Hsort n) as [v Hv]. congruence.
    - rewrite Hget in H. discriminate H.
    - rewrite Hget in H. now injection H. }
  eauto.
Qed.

Lemma result_state_load_not_caught c e :
  loads_result_state c = true -> caught c e = false.
Proof.
  destruct c as [| | | |m a k|]; try discriminate.
  unfold loads_result_state. simpl. intros H.
  repeat (apply orb_true_iff in H as [H|H]);
    apply String.eqb_eq in H; subst m; reflexivity.
Qed.

(** C3, amended.  In a run whose launch succeeded, for a parameter set of
    the data model and in a world where nothing goes wrong outside the
    handlers: when the sort command or the extraction of the maximum raises,
    the returned record has status [post_processing_failed] and a
    not-a-number peak temperature; when the sort and the extraction answer
    and the temperature plot raises, the record holds the extracted float
    and the status that float implies, [success] unless it is not-a-number.
    In any world and for any parameter set, a [finish], [post1] or [set]
    command that raises is the last interaction of the run, and the run
    raises its exception: no record is returned. *)
Theorem extraction_failure_is_post_processing_failed
    (w : world) (run_id : Z) (params : dict) (base dir : string) (e : exn) :
  (cooperative w -> launch_succeeds w -> in_data_model params ->
   always_raises w nsort e \/ always_raises w get_max e ->
   exists s' r,
     run_single_simulation w run_id params base dir initial = (s', Ok r) /\
     r !! "status" = Some (VStr "post_processing_failed") /\
     r !! "peak_temp" = Some (VFloat nan)) /\
  (forall f : float,
     cooperative w -> launch_succeeds w -> in_data_model params ->
     (forall n, exists v, w n nsort = Ok v) ->
     (forall n, w n get_max = Ok (VFloat f)) ->
     always_raises w (plot_nodal_temperature run_id dir) e ->
     exists s' r,
       run_single_simulation w run_id params base dir initial = (s', Ok r) /\
       r !! "peak_temp" = Some (VFloat f) /\
       r !! "status" = Some (VStr (if negb (is_nan f) then "success"
                                   else "post_processing_failed"))) /\
  (forall n c,
     nth_error
       (trace_of (run_single_simulation w run_id params base dir initial)) n
       = Some c ->
     w n c = Raise e -> loads_result_state c = true ->
     result_of (run_single_simulation w run_id params base dir initial)
       = Raise e /\
     length (trace_of (run_single_simulation w run_id params base dir initial))
       = S n).
Proof.
  split; [|split].
  - intros Hw Hl Hp Hraise.
    destruct (run_after_successful_launch w run_id params base dir Hw Hl Hp)
      as (s' & f & now & t & E & _ & Hcase).
    assert (f = nan) as ->.
    { destruct Hcase as [[Hf _]|(n & v & Hsort & Hget)]; [exact Hf|].
      destruct Hraise as [H|H].
      - rewrite (H n) in Hsort. discriminate Hsort.
      - rewrite (H (S n)) in Hget. discriminate Hget. }
    exists s', (final_record run_id (VFloat nan) (is_nan nan) now).
    split; [exact E|]. split; reflexivity.
  - intros f Hw Hl Hp Hsort Hget _.
    destruct (extracted_maximum_is_reported w run_id params base dir f
                Hw Hl Hp Hsort Hget) as (s' & now & E).
    exists s', (final_record run_id (VFloat f) (is_nan f) now).
    split; [exact E|]. split; reflexivity.
  - intros n c Hn Hc Hload.
    apply (uncaught_failure_leaves w run_id params base dir n c e Hn Hc).
    now apply result_state_load_not_caught.
Qed.

(** C3 amended: a failing sort, a failing temperature plot, and a failing
    [set], the interaction of index 643 with 54 vanes. *)
Lemma extraction_failure_is_post_processing_failed_witness :
  (exists s' r,
     time_test_run failing_sort = (s', Ok r) /\
     r !! "status" = Some (VStr "post_processing_failed") /\
     r !! "peak_temp" = Some (VFloat nan)) /\
  (exists s' r,
     time_test_run failing_plot = (s', Ok r) /\
     r !! "peak_temp" = Some (VFloat 412.5) /\
     r !! "status" = Some (VStr "success")) /\
  result_of (time_test_run failing_set) = Raise solver_error /\
  length (trace_of (time_test_run failing_set)) = 644%nat.
Proof.
  split; [|split].
  - apply (proj1 (extraction_failure_is_post_processing_failed failing_sort
                    1 time_test_params base_dir image_dir solver_error)).
    + apply failing_cooperative;
        [now apply calls_only_guarded | reflexivity | apply quiet_cooperative].
    + apply failing_launch_succeeds, quiet_launch_succeeds.
    + apply time_test_params_in_data_model.
    + left. now apply failing_always_raises.
  - apply (proj1 (proj2 (extraction_failure_is_post_processing_failed
                           failing_plot 1 time_test_params base_dir image_dir
                           solver_error)) 412.5%float).
    + apply failing_cooperative;
        [now apply calls_only_guarded | reflexivity | apply quiet_cooperative].
    + apply failing_launch_succeeds, quiet_launch_succeeds.
    + apply time_test_params_in_data_model.
    + intros n. now exists VNone.
    + intros n. reflexivity.
    + now apply failing_always_raises.
  - apply (proj2 (proj2 (extraction_failure_is_post_processing_failed
                           failing_set 1 time_test_params base_dir image_dir
                           solver_error))
             643%nat (mapdl "set" [] [("time", Lit (VFloat braking_time))])).
    + vm_compute. reflexivity.
    + reflexivity.
    + reflexivity.
Defined.

(** *** C4 *)

(** C4 as stated fails: a solve command that raises ends the run with the
    solver process launched and never shut down. *)
Lemma solve_failure_skips_shutdown :
  result_of (time_test_run failing_solve) = Raise solver_error /\
  existsb is_launch (trace_of (time_test_run failing_solve)) = true /\
  existsb (calls "exit") (trace_of (time_test_run failing_solve)) = false.
Proof. repeat split; vm_compute; reflexivity. Qed.

(** A missing key is found out right after the launch. *)
Lemma missing_key_skips_shutdown
    (w : world) (run_id : Z) (params : dict) (base dir : string) :
  host_ok w -> launch_succeeds w ->
  params !! "vane_count" = None \/ params !! "vane_thickness_deg" = None
    \/ params !! "heat_flux" = None ->
  exists key,
    result_of (run_single_simulation w run_id params base dir initial)
      = Raise (KeyError key) /\
    params !! key = None /\
    tally (calls "exit")
      (trace_of (run_single_simulation w run_id params base dir initial))
      = 0%nat.
Proof.
  intros Hhost Hlaunch Hmissing.
  destruct (read_parameters_cases params)
    as [(vc & vt & hf & E1 & E2 & E3 & _)|(key & Hkey & Eread)].
  { rewrite E1, E2, E3 in Hmissing.
    destruct Hmissing as [H|[H|H]]; discriminate H. }
  unfold result_of, trace_of, run_single_simulation.
  destruct (setup_environment_outcome w Hhost run_id base initial)
    as (s1 & new & E1 & Ht & Hnew & _).
  rewrite (bind_Ok _ _ _ _ _ E1).
  destruct (Hlaunch (length (trace s1))
              (launch_mapdl (simulation_path base run_id) jobname true true)
              eq_refl) as [v Ev].
  rewrite (bind_Ok _ _ _ _ _ (launch_Ok w _ _ _ Ev)).
  unfold after_launch. rewrite (bind_Raise _ _ _ _ _ (Eread _)).
  exists key. split; [reflexivity|]. split; [exact Hkey|].
  simpl. rewrite Ht. simpl. rewrite tally_app. unfold tally at 2. simpl.
  rewrite tally_none; [reflexivity|].
  eapply Forall_impl; [exact Hnew|].
  intros [] Hc; (reflexivity || discriminate).
Qed.

(** C4, amended.  In a run whose launch succeeded, for a parameter set of
    the data model and in a world where nothing goes wrong outside the
    handlers, the shutdown is the last solver command, followed by the
    reading of the clock only: this holds whether the sort, the extraction
    or the temperature plot succeeded or raised.  In any world and for any
    parameter set, a solver command outside the [try] blocks (model
    construction, solution, loading of the result state) that raises ends
    the run with its exception, and no shutdown has been issued; the same
    holds of a parameter lookup that fails after a successful launch. *)
Theorem shutdown_after_post_processing
    (w : world) (run_id : Z) (params : dict) (base dir : string) :
  (cooperative w -> launch_succeeds w -> in_data_model params ->
   exists s' r t,
     run_single_simulation w run_id params base dir initial = (s', Ok r) /\
     trace s' = (t ++ [exit_command;
                       datetime_now_strftime timestamp_format])%list) /\
  (forall n c e,
     nth_error
       (trace_of (run_single_simulation w run_id params base dir initial)) n
       = Some c ->
     w n c = Raise e -> unguarded_command c = true ->
     result_of (run_single_simulation w run_id params base dir initial)
       = Raise e /\
     tally (calls "exit")
       (trace_of (run_single_simulation w run_id params base dir initial))
       = 0%nat) /\
  (host_ok w -> launch_succeeds w ->
   params !! "vane_count" = None \/ params !! "vane_thickness_deg" = None
     \/ params !! "heat_flux" = None ->
   exists key,
     result_of (run_single_simulation w run_id params base dir initial)
       = Raise (KeyError key) /\
     params !! key = None /\
     tally (calls "exit")
       (trace_of (run_single_simulation w run_id params base dir initial))
       = 0%nat).
Proof.
  split; [|split].
  - intros Hw Hl Hp.
    destruct (run_after_successful_launch w run_id params base dir Hw Hl Hp)
      as (s' & f & now & t & E & Ht & _).
    eauto.
  - apply failed_command_skips_shutdown.
  - apply missing_key_skips_shutdown.
Qed.

(** C4 amended: a failing extraction, a failing [solve] (the interaction of
    index 631 with 54 vanes), and a parameter set without heat flux. *)
Lemma shutdown_after_post_processing_witness :
  (exists s' r t,
     time_test_run failing_extraction = (s', Ok r) /\
     trace s' = (t ++ [exit_command;
                       datetime_now_strftime timestamp_format])%list) /\
  (result_of (time_test_run failing_solve) = Raise solver_error /\
   tally (calls "exit") (trace_of (time_test_run failing_solve)) = 0%nat) /\
  (exists key,
     result_of (run_single_simulation quiet 1 (delete "heat_flux" time_test_params)
                  base_dir image_dir initial) = Raise (KeyError key) /\
     delete "heat_flux" time_test_params !! key = None /\
     tally (calls "exit")
       (trace_of (run_single_simulation quiet 1
                    (delete "heat_flux" time_test_params)
                    base_dir image_dir initial)) = 0%nat).
Proof.
  split; [|split].
  - apply (proj1 (shutdown_after_post_processing failing_extraction
                    1 time_test_params base_dir image_dir)).
    + apply failing_cooperative;
        [now apply calls_only_guarded | reflexivity | apply quiet_cooperative].
    + apply failing_launch_succeeds, quiet_launch_succeeds.
    + apply time_test_params_in_data_model.
  - apply (proj1 (proj2 (shutdown_after_post_processing failing_solve
                           1 time_test_params base_dir image_dir))
             631%nat (mapdl "solve" [] []) solver_error).
    + vm_compute. reflexivity.
    + reflexivity.
    + reflexivity.
  - apply (proj2 (proj2 (shutdown_after_post_processing quiet
                           1 (delete "heat_flux" time_test_params)
                           base_dir image_dir))).
    + apply quiet_host_ok.
    + apply quiet_launch_succeeds.
    + right. right. reflexivity.
Defined.

(** Whatever the world does: a record that is not the one of the launch
    handler is returned right after the shutdown. *)
Lemma returned_after_shutdown w run_id params base dir s' r :
  run_single_simulation w run_id params base dir initial = (s', Ok r) ->
  r !! "status" <> Some (VStr "launch_failed") ->
  exists t, trace s' = (t ++ [exit_command;
                              datetime_now_strftime timestamp_format])%list.
Proof.
  intros H Hs. apply run_record_inv in H as [[now ->]|H].
  - now destruct Hs.
  - destruct H as (peak & isnan & now & t & _ & _ & Ht). eauto.
Qed.

(** *** C5 *)

Section NoSelectionCheck.

Variable w : world.

Ltac trace_rule :=
  lazymatch goal with
  | |- issues _ (_ ≫= _) => apply issues_bind; [| intros ?]
  | |- issues _ (ask _ _) => apply issues_ask; reflexivity
  | |- issues _ (try_except _ _ _) => apply issues_try_except; [| intros ?]
  | |- issues _ (for_each _ _) => apply issues_for_each; intros ?
  | |- issues _ (mret _) => apply issues_ret
  | |- issues _ (lift _) => apply issues_lift
  | |- issues _ (raise _) => apply issues_raise
  | |- issues _ get_peak_temperature => apply issues_get_peak_temperature
  | |- issues _ (set_peak_temperature _) => apply issues_set_peak_temperature
  end.

Ltac trace_rules := repeat trace_rule.

Lemma vane_issues vc vt i : issues never_counts (vane w vc vt i).
Proof. unfold vane. trace_rules. Qed.

Lemma build_model_issues vc vt : issues never_counts (build_model w vc vt).
Proof.
  unfold build_model.
  repeat (apply issues_bind;
          [first [ apply issues_ask; reflexivity
                 | apply issues_lift
                 | apply issues_for_each; intros; apply vane_issues ]
          | intros ? ]).
  apply issues_ret.
Qed.

Lemma solve_load_steps_issues h : issues never_counts (solve_load_steps w h).
Proof. unfold solve_load_steps. trace_rules. Qed.

Lemma after_launch_issues run_id params dir :
  issues never_counts (after_launch w run_id params dir).
Proof.
  unfold after_launch. apply issues_bind.
  { unfold read_parameters, getitem.
    destruct (params !! "vane_count"), (params !! "vane_thickness_deg"),
      (params !! "heat_flux"); trace_rules. }
  intros [[vc vt] hf].
  apply issues_bind; [apply build_model_issues | intros _].
  apply issues_bind;
    [unfold save_input_image; trace_rules | intros _].
  apply issues_bind; [apply solve_load_steps_issues | intros _].
  apply issues_bind;
    [unfold post_processing, extract_and_plot; trace_rules | intros _].
  unfold finish. trace_rules.
Qed.

Lemma run_single_simulation_issues run_id params base dir :
  issues never_counts (run_single_simulation w run_id params base dir).
Proof.
  unfold run_single_simulation. apply issues_bind.
  { unfold setup_environment. apply issues_bind; [trace_rules|].
    intros found. destruct (negb (truthy found)); trace_rules. }
  intros path. apply issues_bind; [unfold launch; trace_rules|].
  intros [early|]; [apply issues_ret | apply after_launch_issues].
Qed.

End NoSelectionCheck.

(** C5.  In the script, a selection of zero elements makes the check of
    lines 137-139 call [mapdl.exit()], after which the script goes on: the
    heat flux is applied next, both load steps are solved and the results
    are plotted, all against the solver it has just shut down.  The driver,
    in any world, never asks for the number of selected elements. *)
Theorem zero_selection_guard_does_not_stop :
  result_of (Script.main empty_selection initial) = Ok tt /\
  map method_of
    (from_first is_elem_count (trace_of (Script.main empty_selection initial)))
  = ["get_value"; "exit"; "sfe"; "csys"; "allsel"; "time"; "nsubst"; "kbc";
     "outres"; "solve"; "csys"; "nsel"; "esln"; "sfedele"; "csys"; "allsel";
     "time"; "nsubst"; "solve"; "finish"; "post1"; "set";
     "post_processing.plot_nodal_temperature"; "exit"] /\
  (forall w run_id params base dir,
     Forall never_counts
       (trace_of (run_single_simulation w run_id params base dir initial))).
Proof.
  split; [vm_compute; reflexivity|].
  split; [vm_compute; reflexivity|].
  intros w run_id params base dir.
  destruct (run_single_simulation_issues w run_id params base dir initial)
    as (new & E & H).
  unfold trace_of. now rewrite E.
Qed.

(** With a binding that refuses commands once the solver has exited, the
    script dies on the [sfe] it issues after the check. *)
Example zero_selection_then_refused :
  result_of (Script.main empty_selection_refused initial) = Raise exited_error /\
  map method_of
    (from_first is_elem_count
       (trace_of (Script.main empty_selection_refused initial)))
  = ["get_value"; "exit"; "sfe"].
Proof. split; vm_compute; reflexivity. Qed.

(** With elements selected, the script does not shut down early. *)
Example selection_non_empty :
  result_of (Script.main quiet initial) = Ok tt /\
  firstn 3 (map method_of
              (from_first is_elem_count (trace_of (Script.main quiet initial))))
  = ["get_value"; "sfe"; "csys"].
Proof. split; vm_compute; reflexivity. Qed.

(** In the driver the heat flux follows the element selection directly. *)
Example driver_applies_heat_flux_unchecked :
  firstn 2 (map method_of
              (from_first (calls "esln") (trace_of (time_test_run empty_selection))))
  = ["esln"; "sfe"].
Proof. vm_compute. reflexivity. Qed.

(** *** C6 *)

(** C6. When the launch of the solver process raises, the driver returns at
    once with status [launch_failed] and a not-a-number peak temperature,
    whatever the parameter set is; besides the launch itself the trace holds
    host interactions only, so no solver command has been issued. *)
Theorem launch_failure_returns_launch_failed
    (w : world) (run_id : Z) (params : dict) (base dir : string) (e : exn) :
  host_ok w -> launch_fails w e -> is_Exception e = true ->
  exists s' r t,
    run_single_simulation w run_id params base dir initial = (s', Ok r) /\
    r !! "status" = Some (VStr "launch_failed") /\
    r !! "peak_temp" = Some (VFloat nan) /\
    trace s' = (t ++ [launch_mapdl (simulation_path base run_id) jobname true true;
                      datetime_now_strftime timestamp_format])%list /\
    Forall (fun c => host_call c = true) t /\
    Forall (fun c => is_solver_command c = false) (trace s').
Proof.
  intros Hhost Hfail He. unfold run_single_simulation.
  destruct (setup_environment_outcome w Hhost run_id base initial)
    as (s1 & new & E1 & Ht & Hnew & _).
  rewrite (bind_Ok _ _ _ _ _ E1).
  destruct (launch_Raise w Hhost (simulation_path base run_id) s1 e
              (Hfail (length (trace s1))
                 (launch_mapdl (simulation_path base run_id) jobname true true)
                 eq_refl) He) as [now E2].
  rewrite (bind_Ok _ _ _ _ _ E2).
  eexists _, _, new. split; [reflexivity|].
  split; [reflexivity|]. split; [reflexivity|].
  assert (trace (log (datetime_now_strftime timestamp_format)
                   (log (launch_mapdl (simulation_path base run_id) jobname
                           true true) s1))
          = (new ++ [launch_mapdl (simulation_path base run_id) jobname true true;
                     datetime_now_strftime timestamp_format])%list) as Htrace.
  { simpl. rewrite Ht. simpl. now rewrite <- app_assoc. }
  split; [exact Htrace|]. split; [exact Hnew|].
  unfold mret, M_ret. simpl fst. rewrite Htrace.
  apply Forall_app. split.
  - eapply Forall_impl; [exact Hnew|].
    intros [] Hc; (reflexivity || discriminate).
  - repeat constructor.
Qed.

(** C6, at the parameters of [time_test.py] with a refused launch. *)
Lemma launch_failure_returns_launch_failed_witness :
  exists s' r t,
    time_test_run refused_launch = (s', Ok r) /\
    r !! "status" = Some (VStr "launch_failed") /\
    r !! "peak_temp" = Some (VFloat nan) /\
    trace s' = (t ++ [launch_mapdl (simulation_path base_dir 1) jobname true true;
                      datetime_now_strftime timestamp_format])%list /\
    Forall (fun c => host_call c = true) t /\
    Forall (fun c => is_solver_command c = false) (trace s').
Proof.
  apply (launch_failure_returns_launch_failed refused_launch 1
           time_test_params base_dir image_dir launch_error).
  - apply failing_host_ok; [|apply quiet_host_ok].
    intros [] H; (reflexivity || discriminate).
  - apply failing_launch_fails.
  - reflexivity.
Defined.

(** *** C7 *)

(** C7.  Two worlds that differ in their answers to the two rendering calls
    only, a failure of the temperature plot being an [Exception], lead to
    the same outcome of the run: the same record, hence the same status, or
    the same exception. *)
Theorem rendering_failure_keeps_status
    (w1 w2 : world) (run_id : Z) (params : dict) (base dir : string) :
  same_but_rendering w1 w2 ->
  plot_failures_are_exceptions w1 -> plot_failures_are_exceptions w2 ->
  result_of (run_single_simulation w1 run_id params base dir initial)
    = result_of (run_single_simulation w2 run_id params base dir initial) /\
  status_of (result_of (run_single_simulation w1 run_id params base dir initial))
    = status_of (result_of (run_single_simulation w2 run_id params base dir
                              initial)).
Proof.
  intros Hsame H1 H2.
  pose proof (run_single_simulation_agree w1 w2 Hsame H1 H2 run_id params
                base dir initial) as E.
  unfold result_of. rewrite E. auto.
Qed.

(** C7, both renderings failing against both succeeding. *)
Lemma rendering_failure_keeps_status_witness :
  result_of (time_test_run failing_renderings) = result_of (time_test_run quiet) /\
  status_of (result_of (time_test_run failing_renderings))
    = status_of (result_of (time_test_run quiet)).
Proof.
  apply (rendering_failure_keeps_status failing_renderings quiet
           1 time_test_params base_dir image_dir).
  - intros n c Hc. unfold failing_renderings, failing. now rewrite Hc.
  - intros n run_id dir e. unfold failing_renderings, failing.
    rewrite plot_is_render. now intros [= <-].
  - intros n run_id dir e H. now apply quiet_never_raises in H.
Defined.

(** The status in question, on both sides. *)
Example rendering_failure_status :
  status_of (result_of (time_test_run failing_renderings))
  = Some (VStr "success").
Proof. vm_compute. reflexivity. Qed.

(** *** C8 *)

(** C8.  For a fixed base directory and a fixed image directory, the working
    directory and each of the two image paths are functions of the run
    identifier that take equal values exactly at equal identifiers; an input
    image never has the path of an output image. *)
Theorem run_id_paths_injective (base dir : string) (r1 r2 : Z) :
  (simulation_path base r1 = simulation_path base r2 <-> r1 = r2) /\
  (input_png_path dir r1 = input_png_path dir r2 <-> r1 = r2) /\
  (output_png_path dir r1 = output_png_path dir r2 <-> r1 = r2) /\
  input_png_path dir r1 <> output_png_path dir r2.
Proof.
  repeat split; try (intros ->; reflexivity).
  - apply PathFacts.simulation_path_inj.
  - apply PathFacts.input_png_path_inj.
  - apply PathFacts.output_png_path_inj.
  - apply PathFacts.input_output_disjoint.
Qed.

(** These are the paths the driver hands to the outside. *)
Lemma driver_paths w run_id base dir :
  hd_error (trace_of (setup_environment w run_id base initial))
    = Some (os_path_exists (simulation_path base run_id)) /\
  eplot run_id dir
    = mapdl "eplot" []
        [("show_bounds", Lit true); ("cpos", Lit "xy");
         ("savefig", Lit (VStr (input_png_path dir run_id)))] /\
  In ("savefig", Lit (VStr (output_png_path dir run_id)))
    (match plot_nodal_temperature run_id dir with
     | mapdl _ _ kwargs => kwargs
     | _ => []
     end).
Proof.
  split; [|split; [reflexivity | simpl; auto 10]].
  unfold trace_of, setup_environment, mbind, M_bind. rewrite ask_eq.
  destruct (w _ _) as [found|e]; [|reflexivity].
  destruct (negb (truthy found)).
  - rewrite ask_eq. now destruct (w _ _).
  - reflexivity.
Qed.

(** *** C9 *)

(** C9.  In every record the driver returns, the status is [success]
    exactly when the peak temperature is not the not-a-number value; a
    record of the final return whose extracted maximum is not-a-number has
    status [post_processing_failed]. *)
Theorem status_success_iff_not_nan
    (w : world) (run_id : Z) (params : dict) (base dir : string) (r : dict) :
  result_of (run_single_simulation w run_id params base dir initial) = Ok r ->
  exists peak,
    r !! "peak_temp" = Some peak /\
    (r !! "status" = Some (VStr "success") <-> is_nan_value peak = false) /\
    (is_nan_value peak = true -> r !! "run_id" = Some (VInt run_id) ->
     r !! "status" = Some (VStr "post_processing_failed")).
Proof.
  unfold result_of.
  destruct (run_single_simulation w run_id params base dir initial)
    as [s' res] eqn:E.
  simpl. intros ->.
  apply run_record_inv in E as [[now ->]|E].
  - exists (VFloat nan). split; [reflexivity|]. split.
    + split; discriminate.
    + intros _ H. discriminate H.
  - destruct E as (peak & isnan & now & t & Hnan & -> & _).
    apply np_isnan_value in Hnan. subst isnan.
    exists peak. split; [reflexivity|].
    destruct (final_record_fields run_id peak (is_nan_value peak) now)
      as (_ & _ & Hs & _).
    rewrite Hs. destruct (is_nan_value peak); simpl.
    + split; [split; discriminate | reflexivity].
    + split; [split; reflexivity | discriminate].
Qed.

(** C9, with an extraction that completes and yields not-a-number. *)
Lemma status_success_iff_not_nan_witness :
  result_of (time_test_run nan_extraction)
    = Ok (final_record 1 (VFloat nan) true test_timestamp) /\
  exists peak,
    final_record 1 (VFloat nan) true test_timestamp !! "peak_temp" = Some peak /\
    (final_record 1 (VFloat nan) true test_timestamp !! "status"
       = Some (VStr "success") <-> is_nan_value peak = false) /\
    (is_nan_value peak = true ->
     final_record 1 (VFloat nan) true test_timestamp !! "run_id" = Some (VInt 1) ->
     final_record 1 (VFloat nan) true test_timestamp !! "status"
       = Some (VStr "post_processing_failed")).
Proof.
  split; [vm_compute; reflexivity|].
  apply (status_success_iff_not_nan nan_extraction
           1 time_test_params base_dir image_dir).
  vm_compute. reflexivity.
Defined.

(** No exception is involved in that run: the world never raises. *)
Example nan_extraction_never_raises n c e : nan_extraction n c <> Raise e.
Proof.
  unfold nan_extraction, answering. destruct (calls _ c); [discriminate|].
  apply quiet_never_raises.
Qed.

(** *** C10 *)

(** C10. When the parameter dictionary lacks one of the keys [vane_count],
    [vane_thickness_deg], [heat_flux], a run whose launch succeeded raises
    [KeyError] for a missing key; the launch is the last interaction before
    it, so the solver process is already running. *)
Theorem missing_parameter_raises_after_launch
    (w : world) (run_id : Z) (params : dict) (base dir : string) :
  host_ok w -> launch_succeeds w ->
  params !! "vane_count" = None \/ params !! "vane_thickness_deg" = None
    \/ params !! "heat_flux" = None ->
  exists s' key t,
    run_single_simulation w run_id params base dir initial
      = (s', Raise (KeyError key)) /\
    In key ["vane_count"; "vane_thickness_deg"; "heat_flux"] /\
    params !! key = None /\
    trace s' = (t ++ [launch_mapdl (simulation_path base run_id) jobname
                        true true])%list /\
    Forall (fun c => host_call c = true) t.
Proof.
  intros Hhost Hlaunch Hmissing. unfold run_single_simulation.
  destruct (setup_environment_outcome w Hhost run_id base initial)
    as (s1 & new & E1 & Ht & Hnew & _).
  rewrite (bind_Ok _ _ _ _ _ E1).
  destruct (Hlaunch (length (trace s1))
              (launch_mapdl (simulation_path base run_id) jobname true true)
              eq_refl) as [v Ev].
  rewrite (bind_Ok _ _ _ _ _ (launch_Ok w _ _ _ Ev)).
  assert (exists key,
             read_parameters params
               (log (launch_mapdl (simulation_path base run_id) jobname
                       true true) s1)
             = (log (launch_mapdl (simulation_path base run_id) jobname
                       true true) s1, Raise (KeyError key)) /\
             In key ["vane_count"; "vane_thickness_deg"; "heat_flux"] /\
             params !! key = None) as (key & Eread & Hin & Hkey).
  { unfold read_parameters, getitem, mbind, M_bind.
    destruct (params !! "vane_count") as [vc|] eqn:E_count.
    - destruct (params !! "vane_thickness_deg") as [vt|] eqn:E_thick.
      + destruct (params !! "heat_flux") as [hf|] eqn:E_flux.
        * destruct Hmissing as [H|[H|H]]; discriminate H.
        * exists "heat_flux".
          split; [reflexivity|]. split; [simpl; auto | exact E_flux].
      + exists "vane_thickness_deg".
        split; [reflexivity|]. split; [simpl; auto | exact E_thick].
    - exists "vane_count".
      split; [reflexivity|]. split; [simpl; auto | exact E_count]. }
  exists (log (launch_mapdl (simulation_path base run_id) jobname true true) s1),
    key, new.
  split.
  { unfold after_launch. now rewrite (bind_Raise _ _ _ _ _ Eread). }
  split; [exact Hin|]. split; [exact Hkey|].
  split; [simpl; now rewrite Ht|exact Hnew].
Qed.

(** C10, with the heat flux left out of the parameters of [time_test.py]. *)
Lemma missing_parameter_raises_after_launch_witness :
  exists s' key t,
    run_single_simulation quiet 1 (delete "heat_flux" time_test_params)
      base_dir image_dir initial = (s', Raise (KeyError key)) /\
    In key ["vane_count"; "vane_thickness_deg"; "heat_flux"] /\
    delete "heat_flux" time_test_params !! key = None /\
    trace s' = (t ++ [launch_mapdl (simulation_path base_dir 1) jobname
                        true true])%list /\
    Forall (fun c => host_call c = true) t.
Proof.
  apply (missing_parameter_raises_after_launch quiet 1
           (delete "heat_flux" time_test_params) base_dir image_dir).
  - apply quiet_host_ok.
  - apply quiet_launch_succeeds.
  - right. right. reflexivity.
Defined.

End Claims.

(** ** Further properties of the paths *)

Module PathExtras.
Import Paths PathFacts.
Local Open Scope string_scope.

(** A numeral below ten to the [k] has at most [k] digits. *)
Lemma little_endian_digit (r : N) (d : Decimal.uint) :
  (r < 10)%N ->
  exists d',
    DecimalPos.Unsigned.of_lu d' = (r + 10 * DecimalPos.Unsigned.of_lu d)%N /\
    Decimal.nb_digits d' = S (Decimal.nb_digits d).
Proof.
  intros Hr.
  assert (r = 0 \/ r = 1 \/ r = 2 \/ r = 3 \/ r = 4 \/ r = 5 \/ r = 6 \/ r = 7
          \/ r = 8 \/ r = 9)%N as H by lia.
  destruct H as [->|[->|[->|[->|[->|[->|[->|[->|[->| ->]]]]]]]]].
  - now exists (Decimal.D0 d).
  - now exists (Decimal.D1 d).
  - now exists (Decimal.D2 d).
  - now exists (Decimal.D3 d).
  - now exists (Decimal.D4 d).
  - now exists (Decimal.D5 d).
  - now exists (Decimal.D6 d).
  - now exists (Decimal.D7 d).
  - now exists (Decimal.D8 d).
  - now exists (Decimal.D9 d).
Qed.

Lemma little_endian_numeral (k : nat) (n : N) :
  (n < 10 ^ N.of_nat k)%N ->
  exists d,
    DecimalPos.Unsigned.of_lu d = n /\ Decimal.nb_digits d = k.
Proof.
  revert n. induction k as [|k IH]; intros n Hn.
  - exists Decimal.Nil. simpl in *. split; [lia | reflexivity].
  - rewrite Nat2N.inj_succ, N.pow_succ_r' in Hn.
    destruct (IH (n / 10)%N) as (d & Hd & Hk).
    { apply N.Div0.div_lt_upper_bound; lia. }
    destruct (little_endian_digit (n mod 10)%N d) as (d' & Hd' & Hk').
    { apply N.mod_lt. lia. }
    exists d'. split; [|lia].
    rewrite Hd', Hd. rewrite (N.div_mod n 10) at 3 by lia. lia.
Qed.

Lemma to_uint_digits (k : nat) (n : N) :
  (n < 10 ^ N.of_nat k)%N -> (1 <= k)%nat ->
  (Decimal.nb_digits (N.to_uint n) <= k)%nat.
Proof.
  intros Hn Hk. destruct (little_endian_numeral k n Hn) as (d & <- & <-).
  rewrite <- DecimalPos.Unsigned.of_lu_rev.
  change (Pos.of_uint (Decimal.rev d)) with (N.of_uint (Decimal.rev d)).
  rewrite DecimalN.Unsigned.to_of.
  rewrite <- (DecimalFacts.nb_digits_rev d).
  apply DecimalFacts.nb_digits_unorm.
  apply DecimalFacts.nb_digits_n0. rewrite DecimalFacts.nb_digits_rev. lia.
Qed.

Lemma string_of_uint_length (d : Decimal.uint) :
  String.length (NilEmpty.string_of_uint d) = Decimal.nb_digits d.
Proof. induction d; simpl; auto. Qed.

Lemma zfill_digits (width : nat) (d : Decimal.uint) :
  (Decimal.nb_digits d <= width)%nat ->
  Decimal.nb_digits (zfill width d) = width.
Proof.
  intros H. unfold zfill. rewrite DecimalFacts.nb_digits_iter_D0. lia.
Qed.

(** X1.  Run identifiers from -999 to 9999 are formatted on exactly four
    characters, so in that range the directory name and the two image names
    have a fixed length. *)
Theorem names_have_fixed_width (run_id : Z) :
  (-999 <= run_id <= 9999)%Z ->
  String.length (format_04d run_id) = 4%nat /\
  String.length (simulation_dir_name run_id) = 8%nat /\
  String.length (input_png_name run_id) = 14%nat /\
  String.length (output_png_name run_id) = 15%nat.
Proof.
  intros Hr.
  assert (String.length (format_04d run_id) = 4%nat) as Hw.
  { unfold format_04d. destruct (Z.ltb_spec run_id 0) as [Hneg|Hpos].
    - simpl String.length. rewrite string_of_uint_length, zfill_digits;
        [reflexivity|].
      apply (to_uint_digits 3); [|lia].
      change (10 ^ N.of_nat 3)%N with 1000%N. lia.
    - rewrite string_of_uint_length, zfill_digits; [reflexivity|].
      apply (to_uint_digits 4); [|lia].
      change (10 ^ N.of_nat 4)%N with 10000%N. lia. }
  unfold simulation_dir_name, input_png_name, output_png_name.
  rewrite !append_length, Hw. auto.
Qed.

Lemma names_have_fixed_width_witness :
  String.length (format_04d 54) = 4%nat /\
  String.length (simulation_dir_name 54) = 8%nat /\
  String.length (input_png_name 54) = 14%nat /\
  String.length (output_png_name 54) = 15%nat.
Proof. apply (names_have_fixed_width 54). lia. Defined.

Lemma endswith_sep_snoc (a : string) : endswith_sep (a +:+ "/") = true.
Proof.
  induction a as [|c a IH]; [reflexivity|].
  rewrite append_cons. simpl. rewrite IH.
  destruct (a +:+ "/") eqn:E; [|reflexivity].
  destruct a; discriminate E.
Qed.

Lemma os_path_join_trailing_separator (a b : string) :
  a <> "" -> endswith_sep a = false -> startswith_sep b = false ->
  os_path_join (a +:+ "/") b = os_path_join a b.
Proof.
  intros Ha He Hb. rewrite !os_path_join_relative by assumption.
  rewrite endswith_sep_snoc, He, orb_true_r.
  destruct (String.eqb_spec a ""); [contradiction|]. reflexivity.
Qed.

(** X2.  A trailing separator on the base run directory or on the image
    directory changes none of the three paths. *)
Theorem trailing_separator_is_immaterial (d : string) (run_id : Z) :
  d <> "" -> endswith_sep d = false ->
  simulation_path (d +:+ "/") run_id = simulation_path d run_id /\
  input_png_path (d +:+ "/") run_id = input_png_path d run_id /\
  output_png_path (d +:+ "/") run_id = output_png_path d run_id.
Proof.
  intros Hd He. repeat split;
    now apply os_path_join_trailing_separator.
Qed.

Lemma trailing_separator_is_immaterial_witness :
  simulation_path ("runs" +:+ "/") 7 = simulation_path "runs" 7 /\
  input_png_path ("runs" +:+ "/") 7 = input_png_path "runs" 7 /\
  output_png_path ("runs" +:+ "/") 7 = output_png_path "runs" 7.
Proof.
  apply (trailing_separator_is_immaterial "runs" 7).
  - discriminate.
  - reflexivity.
Defined.

(** X3.  When one directory serves both as base run directory and as image
    directory, no working directory has the path of an image, whatever the
    two run identifiers are. *)
Theorem working_directory_is_no_image (d : string) (r1 r2 : Z) :
  simulation_path d r1 <> input_png_path d r2 /\
  simulation_path d r1 <> output_png_path d r2.
Proof.
  split; intros H; apply os_path_join_inj in H; try reflexivity;
    discriminate H.
Qed.

End PathExtras.

(** ** Further properties of the driver *)

Module DriverExtras.
Import Paths Py Runner Worlds Observations Rules RunnerFacts WorldFacts.
Import TraceFacts Claims.
Local Open Scope string_scope.

Lemma run_unfold w run_id params base dir :
  run_single_simulation w run_id params base dir
  = (setup_environment w run_id base
       ≫= fun path => launched_part w run_id params path dir).
Proof. reflexivity. Qed.

(** *** Records *)

(** X4.  Every record the driver returns has a status among [success],
    [launch_failed] and [post_processing_failed], a peak temperature and a
    timestamp; it carries the run identifier exactly when its status is not
    [launch_failed]. *)
Theorem returned_record_shape
    (w : world) (run_id : Z) (params : dict) (base dir : string) (r : dict) :
  result_of (run_single_simulation w run_id params base dir initial) = Ok r ->
  exists status,
    r !! "status" = Some status /\ In status statuses /\
    is_Some (r !! "peak_temp") /\ is_Some (r !! "timestamp") /\
    (status = VStr "launch_failed" /\ r !! "run_id" = None \/
     status <> VStr "launch_failed" /\ r !! "run_id" = Some (VInt run_id)).
Proof.
  unfold result_of.
  destruct (run_single_simulation w run_id params base dir initial)
    as [s' res] eqn:E.
  simpl. intros ->.
  apply run_record_inv in E as [[now ->]|E].
  - exists (VStr "launch_failed").
    destruct (launch_failed_record_fields now) as (H1 & H2 & H3 & H4).
    rewrite H1, H2, H3, H4. simpl. eauto 10.
  - destruct E as (peak & isnan & now & t & _ & -> & _).
    destruct (final_record_fields run_id peak isnan now) as (H1 & H2 & H3 & H4).
    rewrite H1, H2, H3, H4. eexists. split; [reflexivity|].
    destruct isnan; simpl; (split; [auto|]); repeat split; eauto;
      right; (split; [discriminate | reflexivity]).
Qed.

Lemma returned_record_shape_witness :
  exists status,
    final_record 1 (VFloat 412.5) false test_timestamp !! "status"
      = Some status /\ In status statuses /\
    is_Some (final_record 1 (VFloat 412.5) false test_timestamp !! "peak_temp") /\
    is_Some (final_record 1 (VFloat 412.5) false test_timestamp !! "timestamp") /\
    (status = VStr "launch_failed" /\
     final_record 1 (VFloat 412.5) false test_timestamp !! "run_id" = None \/
     status <> VStr "launch_failed" /\
     final_record 1 (VFloat 412.5) false test_timestamp !! "run_id"
       = Some (VInt 1)).
Proof.
  apply (returned_record_shape quiet 1 time_test_params base_dir image_dir).
  vm_compute. reflexivity.
Defined.

(** X5.  When the launch succeeds, the steps outside the handlers answer,
    the sort answers and the extraction yields a float that is not
    not-a-number, the record has status [success], that float as peak
    temperature and the run identifier, whether the two renderings succeed
    or fail. *)
Theorem successful_run_reports_extracted_maximum
    (w : world) (run_id : Z) (params : dict) (base dir : string) (f : float) :
  cooperative w -> launch_succeeds w -> in_data_model params ->
  (forall n, exists v, w n nsort = Ok v) ->
  (forall n, w n get_max = Ok (VFloat f)) ->
  is_nan f = false ->
  exists s' r,
    run_single_simulation w run_id params base dir initial = (s', Ok r) /\
    r !! "status" = Some (VStr "success") /\
    r !! "peak_temp" = Some (VFloat f) /\
    r !! "run_id" = Some (VInt run_id).
Proof.
  intros Hw Hl Hp Hsort Hget Hf.
  destruct (run_after_successful_launch w run_id params base dir Hw Hl Hp)
    as (s' & f' & now & t & E & _ & Hcase).
  assert (f' = f) as ->.
  { destruct Hcase as [[_ (n & e & [H|H])]|(n & v & _ & H)].
    - destruct (Hsort n) as [v Hv]. congruence.
    - rewrite Hget in H. discriminate H.
    - rewrite Hget in H. now injection H. }
  exists s', (final_record run_id (VFloat f) (is_nan f) now).
  split; [exact E|]. rewrite Hf. repeat split; reflexivity.
Qed.

Lemma successful_run_reports_extracted_maximum_witness :
  exists s' r,
    time_test_run failing_renderings = (s', Ok r) /\
    r !! "status" = Some (VStr "success") /\
    r !! "peak_temp" = Some (VFloat 412.5) /\
    r !! "run_id" = Some (VInt 1).
Proof.
  apply (successful_run_reports_extracted_maximum failing_renderings
           1 time_test_params base_dir image_dir 412.5).
  - apply failing_cooperative; [| reflexivity | apply quiet_cooperative].
    intros [| | | |m a k|]; simpl; try discriminate.
    intros H. split; [reflexivity|].
    apply orb_true_iff in H as [H|H]; apply String.eqb_eq in H; now subst.
  - intros n c Hc. destruct c; try discriminate. apply quiet_launch_succeeds.
    reflexivity.
  - apply time_test_params_in_data_model.
  - intros n. now exists VNone.
  - intros n. reflexivity.
  - reflexivity.
Defined.

(** *** Directory creation *)

(** X6.  When the working directory already exists, the driver creates no
    directory at all. *)
Theorem existing_directory_is_not_recreated
    (w : world) (run_id : Z) (params : dict) (base dir : string) :
  (forall n p, exists v, w n (os_path_exists p) = Ok v /\ truthy v = true) ->
  Forall (fun c => is_makedirs c = false)
    (trace_of (run_single_simulation w run_id params base dir initial)).
Proof.
  intros Hex. rewrite run_unfold. unfold trace_of.
  destruct (Hex 0%nat (simulation_path base run_id)) as (v & Ev & Hv).
  pose (s1 := log (os_path_exists (simulation_path base run_id)) initial).
  assert (setup_environment w run_id base initial
          = (s1, Ok (simulation_path base run_id))) as E1.
  { unfold setup_environment.
    rewrite (ask_bind_Ok w _ _ initial v Ev). now rewrite Hv. }
  rewrite (bind_Ok _ _ _ _ _ E1).
  destruct (launched_part_keeps w (fun c => negb (is_makedirs c)) run_id params
              (simulation_path base run_id) dir eq_refl
              (fun m a k _ => eq_refl) eq_refl eq_refl s1) as (new & -> & Hnew).
  apply Forall_app. split; [repeat constructor|].
  eapply Forall_impl; [exact Hnew|]. intros c Hc. simpl in Hc.
  now destruct (is_makedirs c).
Qed.

Lemma existing_directory_is_not_recreated_witness :
  Forall (fun c => is_makedirs c = false)
    (trace_of (time_test_run existing_directory)).
Proof.
  apply (existing_directory_is_not_recreated existing_directory
           1 time_test_params base_dir image_dir).
  intros n p. now exists (VBool true).
Defined.

(** X7.  When the working directory is missing and cannot be created, the
    exception of [os.makedirs] leaves the driver before any launch: the two
    file-system interactions are all that happened. *)
Theorem makedirs_failure_prevents_launch
    (w : world) (run_id : Z) (params : dict) (base dir : string) (e : exn) :
  (forall n p, exists v, w n (os_path_exists p) = Ok v /\ truthy v = false) ->
  (forall n p, w n (os_makedirs p) = Raise e) ->
  result_of (run_single_simulation w run_id params base dir initial) = Raise e /\
  trace_of (run_single_simulation w run_id params base dir initial)
  = [os_path_exists (simulation_path base run_id);
     os_makedirs (simulation_path base run_id)].
Proof.
  intros Hex Hmk. rewrite run_unfold. unfold result_of, trace_of.
  destruct (Hex 0%nat (simulation_path base run_id)) as (v & Ev & Hv).
  assert (setup_environment w run_id base initial
          = (log (os_makedirs (simulation_path base run_id))
               (log (os_path_exists (simulation_path base run_id)) initial),
             Raise e)) as E1.
  { unfold setup_environment.
    rewrite (ask_bind_Ok w _ _ initial v Ev). rewrite Hv. simpl negb.
    apply bind_Raise. now apply ask_bind_Raise. }
  rewrite (bind_Raise _ _ _ _ _ E1). split; reflexivity.
Qed.

Lemma makedirs_failure_prevents_launch_witness :
  result_of (time_test_run failing_makedirs)
    = Raise (Exception "PermissionError" "read-only") /\
  trace_of (time_test_run failing_makedirs)
  = [os_path_exists (simulation_path base_dir 1);
     os_makedirs (simulation_path base_dir 1)].
Proof.
  apply (makedirs_failure_prevents_launch failing_makedirs
           1 time_test_params base_dir image_dir).
  - intros n p. now exists (VBool false).
  - intros n p. reflexivity.
Defined.

(** *** Order and number of the solver interactions *)

Lemma launched_part_starts_with_launch w run_id params path dir s :
  exists new,
    trace (fst (launched_part w run_id params path dir s))
    = (trace s ++ launch_mapdl path jobname true true :: new)%list.
Proof.
  unfold launched_part, launch, try_except, mbind at 1 2, M_bind at 1 2.
  rewrite ask_eq.
  destruct (w _ _) as [v|e].
  - simpl.
    destruct (after_launch_keeps w (fun _ => true) run_id params dir
                (fun _ _ _ _ => eq_refl) eq_refl eq_refl
                (log (launch_mapdl path jobname true true) s))
      as (new & E & _).
    exists new. rewrite E. simpl. now rewrite <- app_assoc.
  - destruct (except_Exception e).
    + unfold mbind, M_bind. rewrite ask_eq.
      destruct (w _ _) as [now|e']; simpl;
        eexists; now rewrite <- app_assoc.
    + simpl. now eexists.
Qed.

(** X8.  In any world, the trace of a run is a series of host interactions
    followed by nothing, or by the launch and what comes after it: no solver
    command is issued before the solver has been launched. *)
Theorem solver_commands_follow_launch
    (w : world) (run_id : Z) (params : dict) (base dir : string) :
  exists before rest,
    trace_of (run_single_simulation w run_id params base dir initial)
    = (before ++ rest)%list /\
    Forall (fun c => host_call c = true) before /\
    (rest = [] \/
     exists after,
       rest = launch_mapdl (simulation_path base run_id) jobname true true
              :: after).
Proof.
  rewrite run_unfold. unfold trace_of.
  destruct (setup_environment_keeps w host_call run_id base eq_refl eq_refl
              initial) as (before & Eb & Hb).
  unfold mbind, M_bind.
  destruct (setup_environment w run_id base initial) as [s1 [path|e]] eqn:E1;
    simpl in Eb.
  - assert (path = simulation_path base run_id) as ->.
    { unfold setup_environment in E1.
      apply bind_Ok_inv in E1 as (s2 & found & _ & E1).
      apply bind_Ok_inv in E1 as (s3 & [] & _ & E1).
      now injection E1. }
    destruct (launched_part_starts_with_launch w run_id params
                (simulation_path base run_id) dir s1) as (after & Ea).
    rewrite Ea, Eb. simpl. eauto 10.
  - exists before, []. simpl. rewrite Eb, app_nil_r. auto.
Qed.

Lemma at_most_keeps {A} hit (m : M A) :
  keeps (fun c => negb (hit c)) m -> at_most hit 0 m.
Proof.
  intros H s. destruct (H s) as (new & -> & Hnew).
  rewrite tally_app, (tally_none hit new); [lia|].
  eapply Forall_impl; [exact Hnew|]. intros c Hc. simpl in Hc.
  now destruct (hit c).
Qed.

Lemma at_most_bind {A B} hit d1 d2 (m : M A) (k : A -> M B) :
  at_most hit d1 m -> (forall a, at_most hit d2 (k a)) ->
  at_most hit (d1 + d2) (m ≫= k).
Proof.
  intros Hm Hk s. specialize (Hm s). unfold mbind, M_bind.
  destruct (m s) as [s1 [a|e]]; simpl in *.
  - specialize (Hk a s1). lia.
  - lia.
Qed.

Lemma at_most_ask w hit c : at_most hit 1 (ask w c).
Proof.
  intros s. rewrite ask_eq. simpl. rewrite tally_app.
  unfold tally at 2. simpl. destruct (hit c); simpl; lia.
Qed.

Lemma at_most_ret {A} hit (a : A) : at_most hit 0 (mret a).
Proof. intros s. simpl. lia. Qed.

Lemma launch_at_most_one w path : at_most is_launch 1 (launch w path).
Proof.
  intros s. unfold launch, try_except, mbind at 1, M_bind at 1.
  rewrite ask_eq. destruct (w _ _) as [v|e]; simpl.
  - rewrite tally_app. unfold tally at 2. simpl. lia.
  - destruct (except_Exception e); simpl.
    + unfold mbind, M_bind. rewrite ask_eq.
      destruct (w _ _); simpl; rewrite !tally_app; unfold tally at 2 3;
        simpl; lia.
    + rewrite tally_app. unfold tally at 2. simpl. lia.
Qed.

Lemma after_launch_shuts_down_at_most_once w run_id params dir :
  at_most (calls "exit") 1 (after_launch w run_id params dir).
Proof.
  intros s.
  destruct (read_parameters_cases params)
    as [(vc & vt & hf & _ & _ & _ & E)|(key & _ & E)].
  - rewrite (after_launch_split _ _ _ _ _ _ _ _ (E s)).
    revert s. apply (at_most_bind (calls "exit") 0 1).
    + apply at_most_keeps, working_part_keeps_all,
        working_methods_are_not_exit.
    + intros _. unfold finish.
      apply (at_most_bind (calls "exit") 1 0); [apply at_most_ask|].
      intros _. apply at_most_keeps. unfold keeps.
      apply issues_bind; [now apply issues_ask | intros ?].
      apply issues_bind; [apply issues_get_peak_temperature | intros ?].
      apply issues_bind; [apply issues_lift | intros ?]. apply issues_ret.
  - unfold after_launch. rewrite (bind_Raise _ _ _ _ _ (E s)). simpl. lia.
Qed.

(** X9.  In any world, a run launches the solver at most once and shuts it
    down at most once. *)
Theorem at_most_one_launch_and_shutdown
    (w : world) (run_id : Z) (params : dict) (base dir : string) :
  (tally is_launch
     (trace_of (run_single_simulation w run_id params base dir initial))
   <= 1)%nat /\
  (tally (calls "exit")
     (trace_of (run_single_simulation w run_id params base dir initial))
   <= 1)%nat.
Proof.
  rewrite run_unfold. unfold trace_of. split.
  - apply (at_most_bind is_launch 0 1).
    { apply at_most_keeps.
      now apply (setup_environment_keeps w (fun c => negb (is_launch c))). }
    intros path. unfold launched_part.
    apply (at_most_bind is_launch 1 0); [apply launch_at_most_one|].
    intros [record|]; [apply at_most_ret|].
    apply at_most_keeps.
    now apply after_launch_keeps.
  - apply (at_most_bind (calls "exit") 0 1).
    { apply at_most_keeps.
      now apply (setup_environment_keeps w (fun c => negb (calls "exit" c))). }
    intros path. unfold launched_part.
    apply (at_most_bind (calls "exit") 0 1).
    + apply at_most_keeps. now apply launch_keeps.
    + intros [record|].
      * intros s. simpl. lia.
      * apply after_launch_shuts_down_at_most_once.
Qed.

(** *** The vane loop *)

Lemma other_methods_are_no_vane_commands :
  keeps_methods (fun c => negb (is_vane_command c))
    (ring_methods ++ mesh_methods ++ ["eplot"] ++ solve_methods
     ++ post_methods).
Proof. intros m a k Hin. by_method Hin. Qed.

(** X10.  With a vane count that is zero or negative the loop body never
    runs: in any world the driver creates no keypoint, line, arc or area,
    and goes on to glue and mesh the two rings alone. *)
Theorem no_vanes_for_nonpositive_count
    (w : world) (run_id : Z) (params : dict) (base dir : string) (n : Z) :
  params !! "vane_count" = Some (VInt n) -> (n <= 0)%Z ->
  Forall (fun c => is_vane_command c = false)
    (trace_of (run_single_simulation w run_id params base dir initial)).
Proof.
  intros Hn Hle. rewrite run_unfold. unfold trace_of.
  assert (keeps (fun c => negb (is_vane_command c))
            (setup_environment w run_id base
               ≫= fun path => launched_part w run_id params path dir)) as H.
  { unfold keeps. apply issues_bind.
    - now apply setup_environment_keeps.
    - intros path. unfold launched_part.
      apply issues_bind; [now apply launch_keeps|].
      intros [record|]; [apply issues_ret|].
      intros s.
      destruct (read_parameters_cases params)
        as [(vc & vt & hf & Evc & _ & _ & E)|(key & _ & E)].
      + rewrite (after_launch_split _ _ _ _ _ _ _ _ (E s)).
        revert s. apply issues_bind; [|intros _; now apply finish_keeps].
        rewrite Hn in Evc. injection Evc as <-.
        pose proof other_methods_are_no_vane_commands as Hm.
        apply keeps_methods_app in Hm as [Hring Hm].
        apply keeps_methods_app in Hm as [Hmesh Hm].
        apply keeps_methods_app in Hm as [Heplot Hm].
        apply keeps_methods_app in Hm as [Hsolve Hpost].
        apply working_part_keeps; try assumption.
        intros indices Hr. simpl in Hr.
        replace (Z.to_nat n) with 0%nat in Hr by lia.
        injection Hr as <-. apply issues_ret.
      + unfold after_launch. rewrite (bind_Raise _ _ _ _ _ (E s)).
        exists []. simpl. now rewrite app_nil_r. }
  destruct (H initial) as (new & -> & Hnew). simpl.
  eapply Forall_impl; [exact Hnew|]. intros c Hc. simpl in Hc.
  now destruct (is_vane_command c).
Qed.

Lemma no_vanes_for_nonpositive_count_witness :
  Forall (fun c => is_vane_command c = false)
    (trace_of (run_single_simulation quiet 1 no_vanes_params
                 base_dir image_dir initial)).
Proof.
  apply (no_vanes_for_nonpositive_count quiet 1 no_vanes_params
           base_dir image_dir 0).
  - reflexivity.
  - lia.
Defined.

(** The run without vanes still meshes, solves and reports. *)
Example no_vanes_run_completes :
  result_of (run_single_simulation quiet 1 no_vanes_params
               base_dir image_dir initial)
  = Ok (final_record 1 (VFloat 412.5) false test_timestamp).
Proof. vm_compute. reflexivity. Qed.

(** *** Where exceptions come from *)

Lemma blames_ret {A} Q (a : A) : blames Q (mret a).
Proof. intros s s' e H. discriminate H. Qed.

Lemma blames_lift {A} (Q : exn -> Prop) (r : result A) :
  (forall e, r = Raise e -> Q e) -> blames Q (lift r).
Proof. intros H s s' e [= _ ->]. now apply H. Qed.

Lemma blames_raise {A} (Q : exn -> Prop) e : Q e -> blames Q (@raise A e).
Proof. intros H s s' e' [= _ <-]. exact H. Qed.

Lemma blames_bind {A B} Q (m : M A) (k : A -> M B) :
  blames Q m -> (forall a, blames Q (k a)) -> blames Q (m ≫= k).
Proof.
  intros Hm Hk s s' e. unfold mbind, M_bind.
  destruct (m s) as [s1 [a|e1]] eqn:E.
  - apply Hk.
  - intros [= _ <-]. eapply Hm, E.
Qed.

Lemma blames_ask w (Q : exn -> Prop) c :
  (forall n e, w n c = Raise e -> Q e) -> blames Q (ask w c).
Proof. intros H s s' e. rewrite ask_eq. intros [= _ E]. eapply H, E. Qed.

Lemma blames_try_except {A} (Q1 Q : exn -> Prop) (body : M A) catches handler :
  blames Q1 body ->
  (forall e, Q1 e -> catches e = false -> Q e) ->
  (forall e, blames Q (handler e)) ->
  blames Q (try_except body catches handler).
Proof.
  intros Hb Hq Hh s s' e. unfold try_except.
  destruct (body s) as [s1 [a|e1]] eqn:E; [discriminate|].
  destruct (catches e1) eqn:C.
  - apply Hh.
  - intros [= _ <-]. apply Hq; [eapply Hb, E | exact C].
Qed.

Lemma blames_lift_bind {A B} (Q : exn -> Prop) (r : result A) (k : A -> M B) :
  (forall e, r = Raise e -> Q e) ->
  (forall a, r = Ok a -> blames Q (k a)) ->
  blames Q (lift r ≫= k).
Proof.
  intros Hr Hk s s' e. unfold mbind, M_bind, lift. destruct r as [a|e1].
  - now apply Hk.
  - intros [= _ <-]. now apply Hr.
Qed.

Lemma blames_for_each_in {A} Q (xs : list A) (body : A -> M unit) :
  (forall x, In x xs -> blames Q (body x)) -> blames Q (for_each xs body).
Proof.
  intros H. induction xs as [|x xs IH]; simpl.
  - apply blames_ret.
  - apply blames_bind; [apply H; now left | intros _].
    apply IH. intros y Hy. apply H. now right.
Qed.

Lemma blames_get_peak_temperature Q : blames Q get_peak_temperature.
Proof. intros s s' e H. discriminate H. Qed.

Lemma blames_set_peak_temperature Q v : blames Q (set_peak_temperature v).
Proof. intros s s' e H. discriminate H. Qed.

Lemma np_isnan_raises v e : np_isnan v = Raise e -> exists msg, e = TypeError msg.
Proof.
  destruct v as [| |z| | |]; simpl; try discriminate;
    try (intros [= <-]; eauto).
  destruct (_ && _); [discriminate|]. intros [= <-]. eauto.
Qed.

Lemma py_range_raises v e : py_range v = Raise e -> exists msg, e = TypeError msg.
Proof.
  destruct v; simpl; try discriminate; intros [= <-]; eauto.
Qed.

Section Provenance.

Variable w : world.
Variable params : dict.

Local Abbreviation culprit := (culprit w params).
Local Abbreviation from_outside := (from_outside w).

(** An interaction outside every [try]. *)
Lemma blames_unguarded c :
  calls "eplot" c = false -> in_try c = false -> blames culprit (ask w c).
Proof.
  intros H1 H2. apply blames_ask. intros n e E. left.
  exists n, c. rewrite H2. repeat split; auto. discriminate.
Qed.

(** An interaction inside [try: ... except Exception]. *)
Lemma blames_inside c : calls "eplot" c = false -> blames from_outside (ask w c).
Proof. intros H. apply blames_ask. intros n e E. now exists n, c. Qed.

Lemma escapes_except_Exception e :
  from_outside e -> except_Exception e = false -> culprit e.
Proof.
  intros (n & c & E & Hc) He. left. exists n, c. auto.
Qed.

Ltac blame :=
  repeat lazymatch goal with
  | |- blames _ (_ ≫= _) => apply blames_bind; [| intros ?]
  | |- blames culprit (ask _ _) => apply blames_unguarded; reflexivity
  | |- blames from_outside (ask _ _) => apply blames_inside; reflexivity
  | |- blames _ (mret _) => apply blames_ret
  | |- blames _ get_peak_temperature => apply blames_get_peak_temperature
  | |- blames _ (set_peak_temperature _) => apply blames_set_peak_temperature
  end.

Lemma float_operand_blamed v e :
  float_operand v = Raise e -> raised_by_driver params e.
Proof.
  intros H. apply float_operand_raises in H as [H|H];
    [right; left | right; right]; exact H.
Qed.

(** Inside the loop the division of line 58 cannot fail; the product and
    the sum raise what the conversion of their operand raises. *)
Lemma vane_blames vc vt indices i :
  py_range vc = Ok indices -> In i indices -> blames culprit (vane w vc vt i).
Proof.
  intros Hr Hi. unfold vane.
  apply blames_lift_bind.
  { intros e E. rewrite (range_member_divides vc indices i Hr Hi) in E.
    discriminate E. }
  intros quotient _. apply blames_lift_bind.
  { intros e E. right. eapply float_operand_blamed, float_mul_raises, E. }
  intros angle_start_deg _. apply blames_lift_bind.
  { intros e E. right. eapply float_operand_blamed, float_add_raises, E. }
  intros angle_end_deg _. blame.
Qed.

Lemma build_model_blames vc vt : blames culprit (build_model w vc vt).
Proof.
  unfold build_model.
  repeat (apply blames_bind; [apply blames_unguarded; reflexivity | intros ?]).
  apply blames_lift_bind.
  { intros e E. right. right. left. eapply py_range_raises, E. }
  intros indices Hr.
  apply blames_bind;
    [apply blames_for_each_in; intros i Hi;
     now apply (vane_blames vc vt indices)|].
  intros _. blame.
Qed.

Lemma solve_load_steps_blames hf : blames culprit (solve_load_steps w hf).
Proof. unfold solve_load_steps. blame. Qed.

Lemma save_input_image_blames run_id dir :
  blames culprit (save_input_image w run_id dir).
Proof. intros s s' e. rewrite save_input_image_eq. discriminate. Qed.

Lemma post_processing_blames run_id dir :
  blames culprit (post_processing w run_id dir).
Proof.
  unfold post_processing. blame.
  unfold extract_and_plot.
  apply (blames_try_except from_outside).
  - blame.
  - apply escapes_except_Exception.
  - intros e. apply blames_ret.
Qed.

Lemma finish_blames run_id : blames culprit (finish w run_id).
Proof.
  unfold finish. blame.
  apply blames_lift. intros e E. right. right. left.
  eapply np_isnan_raises, E.
Qed.

Lemma read_parameters_blames : blames culprit (read_parameters params).
Proof.
  intros s s' e.
  destruct (read_parameters_cases params)
    as [(vc & vt & hf & _ & _ & _ & E)|(key & Hkey & E)]; rewrite E.
  - discriminate.
  - intros [= _ <-]. right. left. eauto.
Qed.

Lemma launch_blames path : blames culprit (launch w path).
Proof.
  unfold launch. apply (blames_try_except from_outside).
  - blame.
  - apply escapes_except_Exception.
  - intros e. blame.
Qed.

Lemma run_single_simulation_blames run_id base dir :
  blames culprit (run_single_simulation w run_id params base dir).
Proof.
  unfold run_single_simulation. apply blames_bind.
  { unfold setup_environment. apply blames_bind; [blame|].
    intros found. destruct (negb (truthy found)); blame. }
  intros path. apply blames_bind; [apply launch_blames|].
  intros [record|]; [apply blames_ret|].
  unfold after_launch.
  apply blames_bind; [apply read_parameters_blames|]. intros [[vc vt] hf].
  apply blames_bind; [apply build_model_blames | intros _].
  apply blames_bind; [apply save_input_image_blames | intros _].
  apply blames_bind; [apply solve_load_steps_blames | intros _].
  apply blames_bind; [apply post_processing_blames | intros _].
  apply finish_blames.
Qed.

End Provenance.

(** X11.  An exception that leaves the driver is a [KeyError] for a key
    missing from the parameters, a [TypeError] or an [OverflowError] (of
    [range], of the arithmetic of line 58 or of [np.isnan]), or an exception
    the outside raised at an interaction other than the mesh plot; if that
    interaction is the launch, the sort, the extraction or the temperature
    plot, the exception is not an [Exception].  An exception of the mesh
    plot never leaves the driver, and no division by zero does: the loop
    body does not run for a count of zero. *)
Theorem raised_exceptions_provenance
    (w : world) (run_id : Z) (params : dict) (base dir : string) (e : exn) :
  result_of (run_single_simulation w run_id params base dir initial) = Raise e ->
  raised_outside w e \/ raised_by_driver params e.
Proof.
  fold (Observations.culprit w params e). unfold result_of.
  destruct (run_single_simulation w run_id params base dir initial)
    as [s' res] eqn:E.
  simpl. intros ->.
  eapply run_single_simulation_blames, E.
Qed.

Lemma raised_exceptions_provenance_witness :
  raised_outside interrupted_sort (BaseException "KeyboardInterrupt") \/
  raised_by_driver time_test_params (BaseException "KeyboardInterrupt").
Proof.
  apply (raised_exceptions_provenance interrupted_sort 1 time_test_params
           base_dir image_dir).
  vm_compute. reflexivity.
Defined.

(** A thickness too large for a float, and one that is no number: line 58
    raises in the first pass through the loop, before any keypoint is asked
    for. *)
Example thickness_errors :
  result_of (run_single_simulation quiet 1 huge_thickness_params
               base_dir image_dir initial)
    = Raise (OverflowError "int too large to convert to float") /\
  result_of (run_single_simulation quiet 1 no_thickness_params
               base_dir image_dir initial)
    = Raise (TypeError "unsupported operand type(s)") /\
  tally is_vane_command
    (trace_of (run_single_simulation quiet 1 huge_thickness_params
                 base_dir image_dir initial)) = 0%nat.
Proof. repeat split; vm_compute; reflexivity. Qed.

(** *** Counting the vane commands *)

Lemma tally_unchanged {A} hit (m : M A) s :
  keeps (fun c => negb (hit c)) m ->
  tally hit (trace (fst (m s))) = tally hit (trace s).
Proof.
  intros H. destruct (H s) as (new & -> & Hnew).
  rewrite tally_app, (tally_none hit new); [lia|].
  eapply Forall_impl; [exact Hnew|]. intros c Hc. simpl in Hc.
  now destruct (hit c).
Qed.

Lemma adds_ret {A} hit (a : A) : adds hit 0 (mret a).
Proof. intros s. exists s, a. split; [reflexivity | lia]. Qed.

Lemma adds_lift {A} hit (a : A) : adds hit 0 (lift (Ok a)).
Proof. intros s. exists s, a. split; [reflexivity | lia]. Qed.

Lemma adds_bind {A B} hit d1 d2 (m : M A) (k : A -> M B) :
  adds hit d1 m -> (forall a, adds hit d2 (k a)) -> adds hit (d1 + d2) (m ≫= k).
Proof.
  intros Hm Hk s. destruct (Hm s) as (s1 & a & E1 & T1).
  destruct (Hk a s1) as (s2 & b & E2 & T2).
  exists s2, b. rewrite (bind_Ok _ _ _ _ _ E1). split; [exact E2 | lia].
Qed.

Lemma adds_ask w hit c :
  (forall n, exists v, w n c = Ok v) ->
  adds hit (if hit c then 1 else 0) (ask w c).
Proof.
  intros H s. destruct (H (length (trace s))) as [v E].
  exists (log c s), v. rewrite ask_eq, E. split; [reflexivity|].
  simpl. rewrite tally_app. unfold tally at 2. simpl.
  now destruct (hit c).
Qed.

Lemma adds_command w method m a k :
  (forall n, exists v, w n (mapdl m a k) = Ok v) ->
  adds (calls method) (if String.eqb m method then 1 else 0)
    (ask w (mapdl m a k)).
Proof. apply (adds_ask w (calls method) (mapdl m a k)). Qed.

Lemma adds_for_each {A} hit d (xs : list A) (body : A -> M unit) :
  (forall x, adds hit d (body x)) ->
  adds hit (length xs * d) (for_each xs body).
Proof.
  intros H. induction xs as [|x xs IH]; simpl.
  - apply adds_ret.
  - apply adds_bind; [apply H | intros _; exact IH].
Qed.

Lemma adds_for_each_in {A} hit d (xs : list A) (body : A -> M unit) :
  (forall x, In x xs -> adds hit d (body x)) ->
  adds hit (length xs * d) (for_each xs body).
Proof.
  intros H. induction xs as [|x xs IH]; simpl.
  - apply adds_ret.
  - apply adds_bind; [apply H; now left | intros _].
    apply IH. intros y Hy. apply H. now right.
Qed.

Lemma adds_lift_bind {A B} hit d (r : result A) (a : A) (k : A -> M B) :
  r = Ok a -> adds hit d (k a) -> adds hit d (lift r ≫= k).
Proof. intros -> H s. apply H. Qed.

Lemma adds_eq {A} hit d d' (m : M A) : adds hit d m -> d = d' -> adds hit d' m.
Proof. now intros H <-. Qed.

Section Counting.

Variable w : world.
Hypothesis Hw : cooperative w.
Variable method : string.
Hypothesis Hmethod : In method vane_methods.

Ltac count :=
  repeat lazymatch goal with
  | |- adds _ _ (_ ≫= _) => eapply adds_bind; [| intros ?]
  | |- adds _ _ (ask _ (mapdl _ _ _)) =>
      apply adds_command; intros ?;
      apply (unguarded_commands_answer w Hw); reflexivity
  | |- adds _ _ (mret _) => apply adds_ret
  | |- adds _ _ (lift (Ok _)) => apply adds_lift
  end.

Lemma vane_adds (n : Z) (t : float) (i : Z) :
  (0 <= i < n)%Z -> (n <= 2 ^ 53)%Z ->
  adds (calls method) (per_vane method) (vane w (VInt n) (VFloat t) i).
Proof.
  intros Hi Hn. eapply adds_eq.
  - unfold vane.
    eapply adds_lift_bind; [apply int_truediv_positive; lia|].
    eapply adds_lift_bind; [apply float_mul_index; lia|].
    eapply adds_lift_bind; [apply float_add_float|].
    count.
  - simpl in Hmethod.
    destruct Hmethod as [<-|[<-|[<-|[<-|[]]]]]; reflexivity.
Qed.

Lemma build_model_adds (n : Z) (t : float) :
  (n <= 2 ^ 53)%Z ->
  adds (calls method) (Z.to_nat n * per_vane method)
    (build_model w (VInt n) (VFloat t)).
Proof.
  intros Hn. eapply adds_eq.
  - unfold build_model. simpl py_range.
    repeat (eapply adds_bind;
            [apply adds_command; intros ?;
             apply (unguarded_commands_answer w Hw); reflexivity
            | intros ? ]).
    eapply adds_lift_bind; [reflexivity|].
    eapply adds_bind;
      [apply adds_for_each_in; intros i Hi;
       apply vane_adds; [now apply range_member | exact Hn]|].
    intros _. count.
  - rewrite length_map, length_seq.
    simpl in Hmethod.
    destruct Hmethod as [<-|[<-|[<-|[<-|[]]]]]; simpl; lia.
Qed.

Lemma vane_method_elsewhere :
  keeps_methods (fun c => negb (calls method c))
    (["eplot"] ++ solve_methods ++ post_methods ++ ["exit"]).
Proof.
  intros m a k Hin. simpl in Hmethod.
  destruct Hmethod as [<-|[<-|[<-|[<-|[]]]]]; by_method Hin.
Qed.

End Counting.

Lemma vane_command_counts
    (w : world) (run_id : Z) (params : dict) (base dir : string) (n : Z)
    (t : float) (method : string) s' r :
  cooperative w -> In method vane_methods ->
  params !! "vane_count" = Some (VInt n) -> (n <= 2 ^ 53)%Z ->
  params !! "vane_thickness_deg" = Some (VFloat t) ->
  run_single_simulation w run_id params base dir initial = (s', Ok r) ->
  r !! "status" <> Some (VStr "launch_failed") ->
  tally (calls method) (trace s') = (Z.to_nat n * per_vane method)%nat.
Proof.
  intros Hw Hm Hn Hle Ht E Hstatus.
  pose proof (vane_method_elsewhere method Hm) as Helse.
  apply keeps_methods_app in Helse as [Heplot Helse].
  apply keeps_methods_app in Helse as [Hsolve Helse].
  apply keeps_methods_app in Helse as [Hpost Hexit].
  set (hit := calls method) in *.
  set (keep := fun c => negb (hit c)) in *.
  assert (forall c, is_solver_command c = false -> keep c = true) as Hother.
  { intros [] Hc; try reflexivity. discriminate Hc. }
  rewrite run_unfold in E.
  apply bind_Ok_inv in E as (s1 & path & E1 & E).
  unfold launched_part in E.
  apply bind_Ok_inv in E as (s2 & [record|] & E2 & E).
  { injection E as _ <-. apply launch_record_inv in E2 as [now ->].
    now destruct Hstatus. }
  unfold after_launch in E.
  apply bind_Ok_inv in E as (s3 & [[vc vt] hf] & E3 & E).
  assert (s3 = s2 /\ vc = VInt n /\ vt = VFloat t) as (-> & -> & ->).
  { destruct (read_parameters_cases params)
      as [(vc' & vt' & hf' & Evc & Evt & _ & R)|(key & _ & R)];
      rewrite R in E3; [|discriminate].
    injection E3 as <- <- <- _. rewrite Hn in Evc. rewrite Ht in Evt.
    injection Evc as <-. injection Evt as <-. auto. }
  apply bind_Ok_inv in E as (s4 & [] & E4 & E).
  apply bind_Ok_inv in E as (s5 & [] & E5 & E).
  apply bind_Ok_inv in E as (s6 & [] & E6 & E).
  apply bind_Ok_inv in E as (s7 & [] & E7 & E).
  pose proof (tally_unchanged hit (setup_environment w run_id base) initial
                (setup_environment_keeps w keep run_id base
                   (Hother (os_path_exists _) eq_refl)
                   (Hother (os_makedirs _) eq_refl))) as T1.
  pose proof (tally_unchanged hit (launch w path) s1
                (launch_keeps w keep path
                   (Hother (launch_mapdl _ _ _ _) eq_refl)
                   (Hother (datetime_now_strftime _) eq_refl))) as T2.
  destruct (build_model_adds w Hw method Hm n t Hle s2)
    as (s4' & [] & E4' & T4).
  pose proof (tally_unchanged hit (save_input_image w run_id dir) s4
                (save_input_image_keeps w keep run_id dir Heplot)) as T5.
  pose proof (tally_unchanged hit (solve_load_steps w hf) s5
                (solve_load_steps_keeps w keep hf Hsolve)) as T6.
  pose proof (tally_unchanged hit (post_processing w run_id dir) s6
                (post_processing_keeps w keep run_id dir Hpost)) as T7.
  pose proof (tally_unchanged hit (finish w run_id) s7
                (finish_keeps w keep run_id (Hexit _ _ _ (or_introl eq_refl))
                   (Hother (datetime_now_strftime _) eq_refl))) as T8.
  rewrite E1 in T1. rewrite E2 in T2. rewrite E4 in E4'.
  injection E4' as <-. rewrite E5 in T5. rewrite E6 in T6.
  rewrite E7 in T7. rewrite E in T8. simpl in *.
  fold hit in T4. rewrite T8, T7, T6, T5, T4, T2, T1. reflexivity.
Qed.

(** X12.  In a run whose launch succeeded and whose steps outside the
    handlers answer, with an integer vane count [n], the driver issues for
    each vane six keypoints, two lines, two arcs and one area: 6n, 2n, 2n
    and n commands in all (none when [n] is negative). *)
Theorem one_area_per_vane
    (w : world) (run_id : Z) (params : dict) (base dir : string) (n : Z) :
  cooperative w -> launch_succeeds w -> in_data_model params ->
  params !! "vane_count" = Some (VInt n) ->
  exists s' r,
    run_single_simulation w run_id params base dir initial = (s', Ok r) /\
    tally (calls "k") (trace s') = (6 * Z.to_nat n)%nat /\
    tally (calls "l") (trace s') = (2 * Z.to_nat n)%nat /\
    tally (calls "larc") (trace s') = (2 * Z.to_nat n)%nat /\
    tally (calls "al") (trace s') = Z.to_nat n.
Proof.
  intros Hw Hl Hp Hn.
  destruct (run_after_successful_launch w run_id params base dir Hw Hl Hp)
    as (s' & f & now & t & E & _ & _).
  destruct Hp as (n' & thickness & h & Hn' & Hle & Ht & _).
  rewrite Hn in Hn'. injection Hn' as <-.
  exists s', (final_record run_id (VFloat f) (is_nan f) now).
  split; [exact E|].
  assert (final_record run_id (VFloat f) (is_nan f) now !! "status"
          <> Some (VStr "launch_failed")) as Hs.
  { destruct (final_record_fields run_id (VFloat f) (is_nan f) now)
      as (_ & _ & -> & _).
    destruct (is_nan f); discriminate. }
  repeat split.
  - rewrite (vane_command_counts w run_id params base dir n thickness "k" _ _
               Hw
               (or_introl eq_refl) Hn Hle Ht E Hs).
    unfold per_vane. simpl. lia.
  - rewrite (vane_command_counts w run_id params base dir n thickness "l" _ _
               Hw
               (or_intror (or_introl eq_refl)) Hn Hle Ht E Hs).
    unfold per_vane. simpl. lia.
  - rewrite (vane_command_counts w run_id params base dir n thickness "larc" _ _
               Hw
               (or_intror (or_intror (or_introl eq_refl))) Hn Hle Ht E Hs).
    unfold per_vane. simpl. lia.
  - rewrite (vane_command_counts w run_id params base dir n thickness "al" _ _
               Hw
               (or_intror (or_intror (or_intror (or_introl eq_refl)))) Hn Hle Ht
               E Hs).
    unfold per_vane. simpl. lia.
Qed.

Lemma one_area_per_vane_witness :
  exists s' r,
    time_test_run quiet = (s', Ok r) /\
    tally (calls "k") (trace s') = (6 * Z.to_nat 54)%nat /\
    tally (calls "l") (trace s') = (2 * Z.to_nat 54)%nat /\
    tally (calls "larc") (trace s') = (2 * Z.to_nat 54)%nat /\
    tally (calls "al") (trace s') = Z.to_nat 54.
Proof.
  apply (one_area_per_vane quiet 1 time_test_params base_dir image_dir 54).
  - apply quiet_cooperative.
  - apply quiet_launch_succeeds.
  - apply time_test_params_in_data_model.
  - reflexivity.
Defined.

(** *** A vane count that is no integer *)

Ltac step_command Hw :=
  lazymatch goal with
  | |- context [(ask ?w (mapdl ?m ?a ?k) ≫= ?f) ?s] =>
      let v := fresh "v" in
      let E := fresh "E" in
      destruct (unguarded_commands_answer w Hw (length (trace s)) m a k eq_refl)
        as [v E];
      rewrite (ask_bind_Ok w (mapdl m a k) f s v E); clear E; cbv beta
  end.

Lemma build_model_range_error w vc vt e s :
  cooperative w -> py_range vc = Raise e ->
  exists s' rings,
    build_model w vc vt s = (s', Raise e) /\
    trace s' = (trace s ++ rings)%list /\
    map method_of rings = ring_commands.
Proof.
  intros Hw Hr. unfold build_model.
  do 12 step_command Hw.
  rewrite Hr. eexists _, _. split; [reflexivity|].
  split; [simpl; rewrite <- !app_assoc; reflexivity | reflexivity].
Qed.

Lemma ring_and_mesh_are_not_exit :
  keeps_methods (fun c => negb (calls "exit" c)) ring_methods /\
  keeps_methods (fun c => negb (calls "exit" c)) mesh_methods.
Proof. split; intros m a k Hin; by_method Hin. Qed.

(** X13.  When the vane count is a value [range] does not accept (a float,
    a string, [None]), a run whose launch succeeded raises the [TypeError]
    of [range] once the two rings are built: the trace is the host
    interactions, the launch and the twelve commands from [clear] to the
    second [asba], and nothing else, so that the solver it launched is not
    shut down. *)
Theorem non_integer_vane_count_raises
    (w : world) (run_id : Z) (params : dict) (base dir : string)
    (vc vt hf : pyval) (e : exn) :
  cooperative w -> launch_succeeds w ->
  params !! "vane_count" = Some vc ->
  params !! "vane_thickness_deg" = Some vt ->
  params !! "heat_flux" = Some hf ->
  py_range vc = Raise e ->
  result_of (run_single_simulation w run_id params base dir initial) = Raise e /\
  (exists before rings,
     trace_of (run_single_simulation w run_id params base dir initial)
     = (before
        ++ launch_mapdl (simulation_path base run_id) jobname true true
           :: rings)%list /\
     Forall (fun c => host_call c = true) before /\
     map method_of rings = ring_commands) /\
  tally is_launch
    (trace_of (run_single_simulation w run_id params base dir initial)) = 1%nat /\
  tally (calls "exit")
    (trace_of (run_single_simulation w run_id params base dir initial)) = 0%nat.
Proof.
  intros Hw Hl Hvc Hvt Hhf Hr.
  rewrite run_unfold. unfold result_of, trace_of.
  destruct (setup_environment_outcome w (host_answers w Hw) run_id base initial)
    as (s1 & new & E1 & Ht & Hnew & _).
  rewrite (bind_Ok _ _ _ _ _ E1).
  destruct (Hl (length (trace s1))
              (launch_mapdl (simulation_path base run_id) jobname true true)
              eq_refl) as [v Ev].
  unfold launched_part.
  rewrite (bind_Ok _ _ _ _ _ (launch_Ok w _ _ _ Ev)).
  set (s2 := log (launch_mapdl (simulation_path base run_id) jobname true true) s1).
  assert (read_parameters params s2 = (s2, Ok (vc, vt, hf))) as E3.
  { unfold read_parameters, getitem. now rewrite Hvc, Hvt, Hhf. }
  unfold after_launch. rewrite (bind_Ok _ _ _ _ _ E3).
  destruct (build_model_range_error w vc vt e s2 Hw Hr)
    as (s4 & rings & E4 & Hrings & Hmethods).
  rewrite (bind_Raise _ _ _ _ _ E4). simpl.
  destruct ring_and_mesh_are_not_exit as [Hring Hmesh].
  pose proof (tally_unchanged (calls "exit") (build_model w vc vt) s2
                (build_model_keeps w _ vc vt Hring Hmesh
                   (fun indices H => ltac:(congruence)))) as Texit.
  assert (keeps (fun c => negb (is_launch c)) (build_model w vc vt)) as Hk.
  { apply build_model_keeps; try (intros m a k _; reflexivity).
    intros indices H. congruence. }
  pose proof (tally_unchanged is_launch (build_model w vc vt) s2 Hk) as Tlaunch.
  rewrite E4 in Texit, Tlaunch. simpl in Texit, Tlaunch.
  rewrite Ht in Texit, Tlaunch. simpl in Texit, Tlaunch.
  rewrite !tally_app in Texit, Tlaunch.
  assert (tally is_launch new = 0%nat /\ tally (calls "exit") new = 0%nat)
    as [Z1 Z2].
  { split; apply tally_none; (eapply Forall_impl; [exact Hnew|]);
      intros [] Hc; (reflexivity || discriminate). }
  rewrite Z1 in Tlaunch. rewrite Z2 in Texit.
  split; [reflexivity|]. split; [|split; [exact Tlaunch | exact Texit]].
  exists new, rings. split; [|split; [exact Hnew | exact Hmethods]].
  rewrite Hrings. unfold s2. simpl. rewrite Ht. simpl.
  now rewrite <- app_assoc.
Qed.

Lemma non_integer_vane_count_raises_witness :
  result_of (run_single_simulation quiet 1 float_count_params
               base_dir image_dir initial)
    = Raise (TypeError "object cannot be interpreted as an integer") /\
  (exists before rings,
     trace_of (run_single_simulation quiet 1 float_count_params
                 base_dir image_dir initial)
     = (before
        ++ launch_mapdl (simulation_path base_dir 1) jobname true true
           :: rings)%list /\
     Forall (fun c => host_call c = true) before /\
     map method_of rings = ring_commands) /\
  tally is_launch
    (trace_of (run_single_simulation quiet 1 float_count_params
                 base_dir image_dir initial)) = 1%nat /\
  tally (calls "exit")
    (trace_of (run_single_simulation quiet 1 float_count_params
                 base_dir image_dir initial)) = 0%nat.
Proof.
  apply (non_integer_vane_count_raises quiet 1 float_count_params
           base_dir image_dir (VFloat 54) (VFloat 2.5) (VFloat 1.9e6)).
  - apply quiet_cooperative.
  - apply quiet_launch_succeeds.
  - reflexivity.
  - reflexivity.
  - reflexivity.
  - reflexivity.
Defined.

End DriverExtras.

(** ** Further properties of the single-instance script *)

Module ScriptExtras.
Import Paths Py Runner Worlds Observations Rules RunnerFacts WorldFacts.
Import TraceFacts DriverExtras.
Local Open Scope string_scope.

(** X14.  When the launch fails, the script ends with [SystemExit] before
    it has issued any solver command, where the driver would have returned
    a record. *)
Theorem script_launch_failure_exits (w : world) (e : exn) :
  host_ok w -> getcwd_is_string w -> launch_fails w e ->
  is_Exception e = true ->
  result_of (Script.main w initial) = Raise SystemExit /\
  Forall (fun c => is_solver_command c = false)
    (trace_of (Script.main w initial)).
Proof.
  intros Hhost Hcwd Hfail He.
  destruct (Hcwd 0%nat) as [cwd Ecwd].
  set (path := os_path_join cwd "vaned_disc_test_run").
  assert (exists s',
             Script.setup_and_launch w initial = (s', Raise SystemExit) /\
             Forall (fun c => is_solver_command c = false) (trace s'))
    as (s' & E & Hs').
  { unfold Script.setup_and_launch.
    assert (Script.getcwd w initial = (log os_getcwd initial, Ok cwd)) as Eg.
    { unfold Script.getcwd. now rewrite (ask_bind_Ok w _ _ initial _ Ecwd). }
    rewrite (bind_Ok _ _ _ _ _ Eg). fold path.
    destruct (Hhost (length (trace (log os_getcwd initial)))
                (os_path_exists path) eq_refl) as [found Ef].
    rewrite (ask_bind_Ok _ _ _ _ _ Ef).
    assert (exists s2,
               (if negb (truthy found)
                then ask w (os_makedirs path);; mret tt
                else mret tt)
                 (log (os_path_exists path) (log os_getcwd initial))
               = (s2, Ok tt) /\
               Forall (fun c => is_solver_command c = false) (trace s2))
      as (s2 & E2 & H2).
    { destruct (negb (truthy found)).
      - destruct (Hhost (length (trace (log (os_path_exists path)
                                          (log os_getcwd initial))))
                    (os_makedirs path) eq_refl) as [made Em].
        rewrite (ask_bind_Ok _ _ _ _ _ Em).
        eexists. split; [reflexivity | repeat constructor].
      - eexists. split; [reflexivity | repeat constructor]. }
    rewrite (bind_Ok _ _ _ _ _ E2).
    exists (log (launch_mapdl path jobname true false) s2). split.
    - apply bind_Raise. unfold try_except.
      rewrite (ask_bind_Raise _ _ _ _ _
                 (Hfail _ (launch_mapdl path jobname true false) eq_refl)).
      unfold except_Exception. now rewrite He.
    - simpl. apply Forall_app. split; [exact H2 | repeat constructor]. }
  unfold result_of, trace_of, Script.main.
  rewrite (bind_Raise _ _ _ _ _ E). auto.
Qed.

Lemma script_launch_failure_exits_witness :
  result_of (Script.main refused_launch initial) = Raise SystemExit /\
  Forall (fun c => is_solver_command c = false)
    (trace_of (Script.main refused_launch initial)).
Proof.
  apply (script_launch_failure_exits refused_launch launch_error).
  - apply failing_host_ok; [|apply quiet_host_ok].
    intros [] H; (reflexivity || discriminate).
  - intros n. now exists "/home/user/project".
  - apply failing_launch_fails.
  - reflexivity.
Defined.

(** *** How often the script shuts the solver down *)

Lemma adds_of_succeeds_keeps {A} hit (m : M A) :
  succeeds m -> keeps (fun c => negb (hit c)) m -> adds hit 0 m.
Proof.
  intros Hs Hk s. destruct (Hs s) as (s' & a & E).
  exists s', a. split; [exact E|].
  pose proof (tally_unchanged hit m s Hk) as T. rewrite E in T.
  simpl in T. lia.
Qed.

Lemma adds_try_except {A} hit d (body : M A) catches handler :
  adds hit d body -> adds hit d (try_except body catches handler).
Proof.
  intros H s. destruct (H s) as (s' & a & E & T).
  exists s', a. unfold try_except. now rewrite E.
Qed.

Lemma adds_swallowed w method m a k catches :
  (forall n e, w n (mapdl m a k) = Raise e -> catches e = true) ->
  adds (calls method) (if String.eqb m method then 1 else 0)
    (try_except (ask w (mapdl m a k);; mret tt) catches (fun _ => mret tt)).
Proof.
  intros H s. exists (log (mapdl m a k) s), tt. split.
  - unfold try_except, mbind, M_bind. rewrite ask_eq.
    destruct (w _ _) as [v|e] eqn:E; [reflexivity|].
    now rewrite (H _ _ E).
  - simpl. rewrite tally_app. unfold tally at 2. simpl.
    now destruct (String.eqb m method).
Qed.

Lemma adds_ask_known {B} w hit d c v (k : pyval -> M B) :
  (forall n, w n c = Ok v) -> adds hit d (k v) ->
  adds hit ((if hit c then 1 else 0) + d) (ask w c ≫= k).
Proof.
  intros Hc Hk s. destruct (Hk (log c s)) as (s' & b & E & T).
  exists s', b. rewrite (ask_bind_Ok _ _ _ _ _ (Hc _)). split; [exact E|].
  rewrite T. simpl. rewrite tally_app. unfold tally at 2. simpl.
  destruct (hit c); simpl; lia.
Qed.

Section Shutdowns.

Variable w : world.
Hypothesis Hw : cooperative w.
Hypothesis Hlaunch : launch_succeeds w.
Hypothesis Hcwd : getcwd_is_string w.
Variable elem_count : pyval.
Hypothesis Hcount : forall n, w n Script.elem_count_query = Ok elem_count.

Ltac count :=
  repeat lazymatch goal with
  | |- adds _ _ (_ ≫= _) => eapply adds_bind; [| intros ?]
  | |- adds _ _ (ask _ (mapdl _ _ _)) =>
      apply adds_command; intros ?;
      apply (unguarded_commands_answer w Hw); reflexivity
  | |- adds _ _ (mret _) => apply adds_ret
  end.

Lemma setup_and_launch_adds :
  adds (calls "exit") 0 (Script.setup_and_launch w).
Proof.
  intros s. unfold Script.setup_and_launch.
  destruct (Hcwd (length (trace s))) as [cwd Ecwd].
  assert (Script.getcwd w s = (log os_getcwd s, Ok cwd)) as Eg.
  { unfold Script.getcwd. now rewrite (ask_bind_Ok w _ _ s _ Ecwd). }
  rewrite (bind_Ok _ _ _ _ _ Eg).
  set (path := os_path_join cwd "vaned_disc_test_run").
  destruct (host_answers w Hw (length (trace (log os_getcwd s)))
              (os_path_exists path) eq_refl) as [found Ef].
  rewrite (ask_bind_Ok _ _ _ _ _ Ef).
  assert (exists s2,
             (if negb (truthy found)
              then ask w (os_makedirs path);; mret tt
              else mret tt)
               (log (os_path_exists path) (log os_getcwd s))
             = (s2, Ok tt) /\
             tally (calls "exit") (trace s2) = tally (calls "exit") (trace s))
    as (s2 & E2 & T2).
  { destruct (negb (truthy found)).
    - destruct (host_answers w Hw
                  (length (trace (log (os_path_exists path) (log os_getcwd s))))
                  (os_makedirs path) eq_refl) as [made Em].
      rewrite (ask_bind_Ok _ _ _ _ _ Em).
      eexists. split; [reflexivity|]. simpl. rewrite !tally_app.
      unfold tally at 2 3 4. simpl. lia.
    - eexists. split; [reflexivity|]. simpl. rewrite !tally_app.
      unfold tally at 2 3. simpl. lia. }
  rewrite (bind_Ok _ _ _ _ _ E2).
  destruct (Hlaunch (length (trace s2)) (launch_mapdl path jobname true false)
              eq_refl) as [v Ev].
  exists (log (launch_mapdl path jobname true false) s2), cwd. split.
  - lazymatch goal with
    | |- (?t ≫= _) s2 = _ =>
        assert (t s2 = (log (launch_mapdl path jobname true false) s2, Ok tt))
          as E3
          by (unfold try_except; now rewrite (ask_bind_Ok _ _ _ _ _ Ev))
    end.
    now rewrite (bind_Ok _ _ _ _ _ E3).
  - simpl. rewrite tally_app, T2. unfold tally at 2. simpl. lia.
Qed.

Lemma script_model_adds :
  adds (calls "exit") 0
    (build_model w (VInt Script.vane_count) (VFloat Script.vane_thickness_deg)).
Proof.
  apply adds_of_succeeds_keeps.
  - apply build_model_succeeds; [exact Hw|]. vm_compute. discriminate.
  - destruct ring_and_mesh_are_not_exit as [Hring Hmesh].
    apply build_model_keeps; try assumption.
    intros indices _. apply issues_for_each. intros i.
    apply vane_keeps. intros m a k Hin. by_method Hin.
Qed.

Lemma solution_adds :
  adds (calls "exit") (if eq_zero elem_count then 1 else 0) (Script.solution w).
Proof.
  eapply adds_eq.
  - unfold Script.solution.
    do 11 (eapply adds_bind;
           [apply adds_command; intros ?;
            apply (unguarded_commands_answer w Hw); reflexivity
           | intros ? ]).
    eapply adds_ask_known; [exact Hcount|].
    eapply (adds_bind (calls "exit") (if eq_zero elem_count then 1 else 0)).
    + destruct (eq_zero elem_count); (eapply adds_eq; [count | reflexivity]).
    + intros _. count.
  - simpl. destruct (eq_zero elem_count); reflexivity.
Qed.

Lemma script_post_processing_adds dir :
  adds (calls "exit") 0 (Script.post_processing w dir).
Proof.
  eapply adds_eq.
  - unfold Script.post_processing.
    do 3 (eapply adds_bind;
          [apply adds_command; intros ?;
           apply (unguarded_commands_answer w Hw); reflexivity
          | intros ? ]).
    apply adds_swallowed. intros n e E.
    apply (raises_exceptions_only w Hw _ _ _ E).
  - reflexivity.
Qed.

Lemma save_geometry_image_adds dir :
  adds (calls "exit") 0 (Script.save_geometry_image w dir).
Proof.
  unfold Script.save_geometry_image.
  apply (adds_swallowed w "exit" "eplot"). intros n e E.
  apply (raises_exceptions_only w Hw _ _ _ E).
Qed.

Lemma main_adds :
  adds (calls "exit") (if eq_zero elem_count then 2 else 1) (Script.main w).
Proof.
  eapply adds_eq.
  - unfold Script.main.
    eapply adds_bind; [apply setup_and_launch_adds | intros dir].
    eapply adds_bind; [apply script_model_adds | intros _].
    eapply adds_bind; [apply save_geometry_image_adds | intros _].
    eapply adds_bind; [apply solution_adds | intros _].
    eapply adds_bind; [apply script_post_processing_adds | intros _].
    count.
  - simpl. destruct (eq_zero elem_count); reflexivity.
Qed.

End Shutdowns.

(** X15.  Against a solver that answers, the script runs to its end and
    shuts the solver down once, at the end, when the selection holds
    elements, and twice when the selection is empty. *)
Theorem script_shuts_down_once_or_twice (w : world) (elem_count : pyval) :
  cooperative w -> launch_succeeds w -> getcwd_is_string w ->
  (forall n, w n Script.elem_count_query = Ok elem_count) ->
  exists s',
    Script.main w initial = (s', Ok tt) /\
    tally (calls "exit") (trace s')
    = (if eq_zero elem_count then 2 else 1)%nat.
Proof.
  intros Hw Hl Hcwd Hcount.
  destruct (main_adds w Hw Hl Hcwd elem_count Hcount initial)
    as (s' & [] & E & T).
  exists s'. split; [exact E|]. rewrite T. reflexivity.
Qed.

Lemma script_shuts_down_once_or_twice_witness :
  exists s',
    Script.main quiet initial = (s', Ok tt) /\
    tally (calls "exit") (trace s')
    = (if eq_zero (VFloat 1500) then 2 else 1)%nat.
Proof.
  apply (script_shuts_down_once_or_twice quiet (VFloat 1500)).
  - apply quiet_cooperative.
  - apply quiet_launch_succeeds.
  - intros n. now exists "/home/user/project".
  - intros n. reflexivity.
Defined.

End ScriptExtras.

(** ** Properties of the timing harness *)

Module HarnessExtras.
Import Paths Py Runner Worlds Observations Rules RunnerFacts WorldFacts.
Import TraceFacts Claims.
Local Open Scope string_scope.

Lemma record_status_cases w run_id params base dir r :
  result_of (run_single_simulation w run_id params base dir initial) = Ok r ->
  exists status, r !! "status" = Some status /\ In status statuses.
Proof.
  unfold result_of.
  destruct (run_single_simulation w run_id params base dir initial)
    as [s' res] eqn:E.
  simpl. intros ->.
  apply run_record_inv in E as [[now ->]|E].
  - exists (VStr "launch_failed"). split; [reflexivity | simpl; auto].
  - destruct E as (peak & isnan & now & t & _ & -> & _).
    destruct (final_record_fields run_id peak isnan now) as (_ & _ & H3 & _).
    rewrite H3. eexists. split; [reflexivity|].
    destruct isnan; simpl; auto.
Qed.

(** X16.  Whatever the host and the solver do, a summary printed by the
    harness shows one of the three statuses of the driver: the default
    [unknown_error] of the lookup is never used. *)
Theorem harness_reports_a_driver_status
    (h : TimeTest.host) (w : world) (report : TimeTest.summary) :
  TimeTest.main h w = Ok report ->
  In (TimeTest.simulation_status report) statuses /\
  TimeTest.simulation_status report <> VStr "unknown_error".
Proof.
  unfold TimeTest.main.
  destruct (h 0%nat _); [|discriminate].
  destruct (h 1%nat _); [|discriminate].
  destruct (h 2%nat _) as [start|]; [|discriminate].
  destruct (result_of _) as [results|] eqn:E; [|discriminate].
  destruct (h 3%nat _) as [finish|]; [|discriminate].
  intros [= <-]. simpl.
  apply record_status_cases in E as (status & Es & Hin).
  unfold TimeTest.dict_get. rewrite Es.
  split; [exact Hin|].
  simpl in Hin. destruct Hin as [<-|[<-|[<-|[]]]]; discriminate.
Qed.

Lemma harness_reports_a_driver_status_witness :
  In (VStr "success") statuses /\ VStr "success" <> VStr "unknown_error".
Proof.
  apply (harness_reports_a_driver_status TimeTest.steady_host quiet
           {| TimeTest.simulation_status := VStr "success";
              TimeTest.start_time := VFloat 1700000000;
              TimeTest.end_time := VFloat 1700000600 |}).
  vm_compute. reflexivity.
Defined.



(** The harness against a solver that cannot sort, and against one whose
    [solve] fails. *)
Example harness_examples :
  TimeTest.simulation_status
    <$> (match TimeTest.main TimeTest.steady_host failing_sort with
         | Ok report => Some report
         | Raise _ => None
         end) = Some (VStr "post_processing_failed") /\
  (match TimeTest.main TimeTest.steady_host failing_solve with
   | Ok _ => None
   | Raise e => Some e
   end) = Some solver_error.
Proof. split; vm_compute; reflexivity. Qed.

End HarnessExtras.
